(** * DSLR-Astronomy-Toolbox: star tracking and aperture photometry

    A shallow embedding of the tracking / photometry core of
    [src/photometry.py] (class [AperturePhotometryGUI]).

    Conventions.
    - Python [float] values are idealised as real numbers ([R]); rounding,
      NaN and infinities are outside the model.  Python [int] values are [Z].
    - Python lists are Rocq lists; [l.append(x)] is [l ++ [x]], [l.pop(0)] is
      [tl l], [l[-n:]] is [lastn n l], and a loop of [l.pop()] down to a
      length [n] is [firstn n l].
    - The instance attributes that the modelled methods read or write are
      the fields of the records [Tracker] and [Session]; every method takes
      the state and returns the new one.
    - The numerical libraries (astropy, photutils) are not part of the
      repository.  Their routines are fields of the record [Library], and
      the theorems hold for every library. *)

From Stdlib Require Import String.
From Stdlib Require Import ZArith List Reals Lra Lia Bool Machin.
Import ListNotations.

#[local] Open Scope R_scope.

(** * Part I: the program *)

(** ** Python values *)

Definition Position : Type := (R * R)%type.

(** [int(x)] for a float [x]: truncation toward zero. *)
Definition py_int (x : R) : Z :=
  if Rle_dec 0 x then Zfloor x else Zceil x.

(** [np.sqrt((a[0] - b[0])**2 + (a[1] - b[1])**2)] *)
Definition distance (a b : Position) : R :=
  sqrt ((fst a - fst b) ^ 2 + (snd a - snd b) ^ 2).

(** [l[-n:]] for [n > 0]. *)
Definition lastn {A} (n : nat) (l : list A) : list A :=
  skipn (length l - n) l.

(** [sum(l)] and [np.sum] of a one-dimensional array. *)
Definition sum_list (l : list R) : R := fold_right Rplus 0 l.

(** [np.mean] and [np.std] (population standard deviation, [ddof = 0]). *)
Definition np_mean (l : list R) : R := sum_list l / INR (length l).

Definition np_std (l : list R) : R :=
  sqrt (np_mean (map (fun x => (x - np_mean l) ^ 2) l)).

(** ** Tracking history

    [position_history], [velocity_history] and [tracking_confidence], with
    [tracking_history_size = 5]. *)

Record Tracker : Type := mkTracker {
  position_history : list Position;
  velocity_history : list (R * R);
  tracking_confidence : list R
}.

Definition tracking_history_size : nat := 5.

(** The histories as [__init__] and the session starters set them. *)
Definition empty_tracker : Tracker := mkTracker [] [] [].

(** [if len(l) > self.tracking_history_size: l.pop(0)] *)
Definition evict {A} (l : list A) : list A :=
  if (tracking_history_size <? length l)%nat then tl l else l.

(** [_update_tracking_history(position, confidence)].  The oldest
    confidence is dropped together with the oldest position, when the
    position history overflows; the velocity history is cut by its own
    length. *)
Definition _update_tracking_history
    (t : Tracker) (position : Position) (confidence : R) : Tracker :=
  let ph := position_history t ++ [position] in
  let tc := tracking_confidence t ++ [confidence] in
  let vh :=
    if (2 <=? length ph)%nat then
      let prev_pos := nth (length ph - 2) ph position in
      velocity_history t
        ++ [(fst position - fst prev_pos, snd position - snd prev_pos)]
    else velocity_history t in
  let overflow := (tracking_history_size <? length ph)%nat in
  mkTracker (if overflow then tl ph else ph) (evict vh)
    (if overflow then tl tc else tc).

(** A sequence of pushes, oldest first. *)
Definition push_all (t : Tracker) (ps : list (Position * R)) : Tracker :=
  fold_left (fun t pc => _update_tracking_history t (fst pc) (snd pc)) ps t.

(** Frame-to-frame differences of a sequence of positions. *)
Fixpoint velocities (l : list Position) : list (R * R) :=
  match l with
  | p :: (q :: _) as rest =>
      (fst q - fst p, snd q - snd p) :: velocities rest
  | _ => []
  end.

(** Ten pushes along the x-axis leave the last five positions and the last
    five unit steps. *)
Definition ten_pushes : list (Position * R) :=
  map (fun i => ((INR i, 0), 8 / 10)) (seq 0 10).

(** ** Momentum prediction and the adaptive search radius *)

Definition Position_eq_dec (a b : Position) : {a = b} + {a <> b}.
Proof. decide equality; apply Req_dec_T. Defined.

(** [enumerate]-style weights: the [i]-th of [n] velocities weighs
    [(i + 1) / n]. *)
Definition momentum_weights (n : nat) : list R :=
  map (fun i => (INR i + 1) / INR n) (seq 0 n).

(** [sum(v * w for v, w in zip(vs, weights))] *)
Definition weighted_sum (vs ws : list R) : R :=
  sum_list (map (fun vw => fst vw * snd vw) (combine vs ws)).

(** [_predict_position_with_momentum(expected_pos)] *)
Definition _predict_position_with_momentum
    (t : Tracker) (expected_pos : Position) : Position :=
  if (length (position_history t) <? 2)%nat then expected_pos
  else
    let velocities := velocity_history t in
    let weights := momentum_weights (length (velocity_history t)) in
    match velocities with
    | [] => expected_pos
    | _ :: _ =>
        let avg_vx := weighted_sum (map fst velocities) weights
                      / sum_list weights in
        let avg_vy := weighted_sum (map snd velocities) weights
                      / sum_list weights in
        (fst expected_pos + avg_vx, snd expected_pos + avg_vy)
    end.

(** The standard deviations of the x- and y-coordinates of
    [self.position_history[-5:]]. *)
Definition recent_x_std (t : Tracker) : R :=
  np_std (map fst (lastn 5 (position_history t))).

Definition recent_y_std (t : Tracker) : R :=
  np_std (map snd (lastn 5 (position_history t))).

(** [_calculate_adaptive_search_radius(base_radius)].  The callers pass the
    value of [search_radius_var], a [tk.IntVar], or the default [25]. *)
Definition _calculate_adaptive_search_radius
    (t : Tracker) (base_radius : Z) : Z :=
  if (length (position_history t) <? 3)%nat then base_radius
  else
    let x_std := recent_x_std t in
    let y_std := recent_y_std t in
    let position_variance := sqrt (x_std ^ 2 + y_std ^ 2) in
    let adaptive_radius := py_int (IZR base_radius + 2 * position_variance) in
    Z.max base_radius (Z.min adaptive_radius (base_radius * 2)).

(** The adaptive radius as the specification words it: the clamp of the
    real number [base + 2 * variance], without truncation. *)
Definition adaptive_radius_as_specified (t : Tracker) (base : R) : R :=
  if (length (position_history t) <? 3)%nat then base
  else
    let variance := sqrt (recent_x_std t ^ 2 + recent_y_std t ^ 2) in
    Rmax base (Rmin (base + 2 * variance) (2 * base)).

(** Histories used in the examples. *)
Definition history_of (ps : list Position) : Tracker :=
  mkTracker ps (velocities ps) (map (fun _ => 0.8) ps).

Definition swinging_history : Tracker :=
  history_of [(-3, -4); (3, 4); (-3, -4); (3, 4)].

Definition one_step_history : Tracker :=
  history_of [(0, 0); (0, 0); (0, 0); (0, 0); (1, 0)].

(** ** Pixel planes and the numerical libraries *)

(** A two-dimensional array, as the list of its rows: [a[i][j]] is the
    pixel of row [i] (the y-coordinate) and column [j]. *)
Definition PixelPlane : Type := list (list R).

(** [a.shape[0]] and [a.shape[1]] *)
Definition shape0 (a : PixelPlane) : Z := Z.of_nat (length a).
Definition shape1 (a : PixelPlane) : Z := Z.of_nat (length (hd [] a)).

(** [a.size] *)
Definition size (a : PixelPlane) : nat := length (concat a).

(** [l[lo:hi]] for integers [lo] and [hi]: a negative index counts from the
    end, and indices beyond the ends are clipped. *)
Definition slice_index (len i : Z) : Z :=
  if (i <? 0)%Z then Z.max 0 (i + len) else Z.min i len.

Definition py_slice {A} (lo hi : Z) (l : list A) : list A :=
  let len := Z.of_nat (length l) in
  let lo' := slice_index len lo in
  let hi' := slice_index len hi in
  firstn (Z.to_nat (hi' - lo')) (skipn (Z.to_nat lo') l).

(** [a[y_lo:y_hi, x_lo:x_hi]] *)
Definition slice2 (y_lo y_hi x_lo x_hi : Z) (a : PixelPlane) : PixelPlane :=
  map (py_slice x_lo x_hi) (py_slice y_lo y_hi a).

Definition Rleb (x y : R) : bool := if Rle_dec x y then true else false.
Definition Rltb (x y : R) : bool := if Rlt_dec x y then true else false.

(** [np.sum], [np.max], [np.argmax] (the flat index of the first maximum)
    and [np.maximum(a - threshold, 0)]. *)
Definition np_sum (a : PixelPlane) : R := sum_list (concat a).

Definition np_max (a : PixelPlane) : R :=
  match concat a with
  | [] => 0
  | x :: l => fold_left Rmax l x
  end.

Fixpoint argmax_from (best : R) (best_i i : nat) (l : list R) : nat :=
  match l with
  | [] => best_i
  | x :: l' =>
      if Rltb best x then argmax_from x i (S i) l'
      else argmax_from best best_i (S i) l'
  end.

Definition np_argmax (a : PixelPlane) : nat :=
  match concat a with
  | [] => 0%nat
  | x :: l => argmax_from x 0 1 l
  end.

Definition above_threshold (threshold : R) (a : PixelPlane) : PixelPlane :=
  map (map (fun v => Rmax (v - threshold) 0)) a.

(** [np.median]: the middle of the sorted values, or the mean of the two
    middle values. *)
Fixpoint insert_sorted (x : R) (l : list R) : list R :=
  match l with
  | [] => [x]
  | y :: l' => if Rleb x y then x :: l else y :: insert_sorted x l'
  end.

Definition sort_values (l : list R) : list R :=
  fold_right insert_sorted [] l.

Definition np_median (a : PixelPlane) : R :=
  let s := sort_values (concat a) in
  let n := length s in
  if Nat.even n
  then (nth (n / 2 - 1) s 0 + nth (n / 2) s 0) / 2
  else nth (n / 2) s 0.

(** The routines of astropy and photutils that the code calls.  A result
    [None] stands for an exception raised by the routine (or by its
    import); [centroid_com] also answers [None] for a centroid that is not
    a number, and [annulus_sum_aper_area] for an area that is not a
    number, as it is when the annulus does not meet the plane. *)
Record Library : Type := mkLibrary {
  (** [astropy.stats.sigma_clipped_stats(a, sigma=3.0)]:
      mean, median and standard deviation *)
  sigma_clipped_stats : PixelPlane -> option (R * R * R);
  (** [photutils.centroids.centroid_com(a)]: the centroid [(x, y)] *)
  centroid_com : PixelPlane -> option (R * R);
  (** [ApertureStats(a, CircularAperture(pos, r)).sum], which is also
      [aperture_photometry(a, aperture)['aperture_sum'][0]] *)
  aperture_sum : PixelPlane -> Position -> R -> R;
  (** [ApertureStats(a, CircularAperture(pos, r)).sum_aper_area.value] *)
  sum_aper_area : PixelPlane -> Position -> R -> R;
  (** [ApertureStats(a, CircularAnnulus(pos, r_in, r_out), sigma_clip)]:
      [median], [std] and [sum_aper_area.value]; the area is [None] where
      photutils reports not-a-number, for an annulus that does not meet
      the plane *)
  annulus_median : PixelPlane -> Position -> R -> R -> R;
  annulus_std : PixelPlane -> Position -> R -> R -> R;
  annulus_sum_aper_area : PixelPlane -> Position -> R -> R -> option R
}.

(** ** The centroid tracker *)

(** [_calculate_adaptive_threshold(cutout)]: the threshold and the peak. *)
Definition _calculate_adaptive_threshold
    (lib : Library) (cutout : PixelPlane) : R * R :=
  let '(_, median, std) :=
    match sigma_clipped_stats lib cutout with
    | Some stats => stats
    | None =>
        (np_mean (concat cutout), np_median cutout, np_std (concat cutout))
    end in
  let peak_brightness := np_max cutout in
  let brightness_ratio := (peak_brightness - median) / (std + / 1000000) in
  let threshold_multiplier :=
    if Rltb 10 brightness_ratio then 2
    else if Rltb 5 brightness_ratio then 5 / 2
    else 3 in
  (median + threshold_multiplier * std, peak_brightness).

(** The acceptance test of steps 5 and 6: within one and a half radii of
    the expected position and more than 5 pixels from every edge. *)
Definition acceptable (image_data : PixelPlane) (adaptive_radius : Z)
    (expected_pos tracked : Position) : bool :=
  Rleb (distance tracked expected_pos) (IZR adaptive_radius * (3 / 2))
  && Rltb 5 (fst tracked)
  && Rltb (fst tracked) (IZR (shape1 image_data - 5))
  && Rltb 5 (snd tracked)
  && Rltb (snd tracked) (IZR (shape0 image_data - 5)).

(** Step 5: the centre of mass of the thresholded cutout. *)
Definition center_of_mass_candidate (lib : Library) (cutout : PixelPlane)
    (threshold : R) (x_min y_min : Z) : option Position :=
  let star_region := above_threshold threshold cutout in
  if Rltb 0 (np_sum star_region) then
    match centroid_com lib star_region with
    | Some (x_cen, y_cen) => Some (x_cen + IZR x_min, y_cen + IZR y_min)
    | None => None
    end
  else None.

(** [np.sum(x_coords * w)] and [np.sum(y_coords * w)] over [np.mgrid]. *)
Definition sum_x_weighted (w : PixelPlane) : R :=
  sum_list (map (fun row =>
    sum_list (map (fun jv => INR (fst jv) * snd jv)
                  (combine (seq 0 (length row)) row))) w).

Definition sum_y_weighted (w : PixelPlane) : R :=
  sum_list (map (fun irow => INR (fst irow) * sum_list (snd irow))
                (combine (seq 0 (length w)) w)).

(** Step 6: the brightest pixel, refined by the weighted centroid of the
    window of 5 pixels around it. *)
Definition peak_candidate (cutout : PixelPlane)
    (threshold : R) (x_min y_min : Z) : option Position :=
  let flat := np_argmax cutout in
  let ncols := length (hd [] cutout) in
  let peak_y := Z.of_nat (flat / ncols) in
  let peak_x := Z.of_nat (flat mod ncols) in
  let window_size := 5%Z in
  let y_start := Z.max 0 (peak_y - window_size) in
  let y_end := Z.min (shape0 cutout) (peak_y + window_size + 1) in
  let x_start := Z.max 0 (peak_x - window_size) in
  let x_end := Z.min (shape1 cutout) (peak_x + window_size + 1) in
  let window := slice2 y_start y_end x_start x_end cutout in
  let window_weights := above_threshold threshold window in
  if Rltb 0 (np_sum window_weights) then
    let cx := sum_x_weighted window_weights / np_sum window_weights in
    let cy := sum_y_weighted window_weights / np_sum window_weights in
    Some (cx + IZR x_start + IZR x_min, cy + IZR y_start + IZR y_min)
  else None.

(** Steps 1 to 3: the predicted position, the adaptive radius, the corner
    of the search region and the cutout. *)
Record SearchRegion : Type := mkSearchRegion {
  predicted_pos : Position;
  adaptive_radius : Z;
  x_min : Z;
  y_min : Z;
  cutout : PixelPlane
}.

Definition search_region (t : Tracker) (image_data : PixelPlane)
    (expected_pos : Position) (search_radius : Z) : SearchRegion :=
  let predicted := _predict_position_with_momentum t expected_pos in
  let search :=
    if Position_eq_dec predicted expected_pos then expected_pos
    else predicted in
  let radius := _calculate_adaptive_search_radius t search_radius in
  let x_int := py_int (fst search) in
  let y_int := py_int (snd search) in
  let x_lo := Z.max 0 (x_int - radius) in
  let x_hi := Z.min (shape1 image_data) (x_int + radius) in
  let y_lo := Z.max 0 (y_int - radius) in
  let y_hi := Z.min (shape0 image_data) (y_int + radius) in
  mkSearchRegion predicted radius x_lo y_lo
    (slice2 y_lo y_hi x_lo x_hi image_data).

(** Step 7 applies when the prediction differs from the expected position
    and lies within the adaptive radius of it. *)
Definition momentum_applies (sr : SearchRegion) (expected_pos : Position)
    : bool :=
  (if Position_eq_dec (predicted_pos sr) expected_pos then false else true)
  && Rleb (distance (predicted_pos sr) expected_pos)
          (IZR (adaptive_radius sr)).

(** [track_star_position(image_data, expected_pos, search_radius)]: the new
    histories and the returned position.  Every exception of a library
    routine is caught where it is called, so the handler around the whole
    body, which also returns [expected_pos], is never entered. *)
Definition track_star_position (lib : Library) (t : Tracker)
    (image_data : PixelPlane) (expected_pos : Position) (search_radius : Z)
    : Tracker * Position :=
  let sr := search_region t image_data expected_pos search_radius in
  if (size (cutout sr) =? 0)%nat then (t, expected_pos)
  else
    let (threshold, _) := _calculate_adaptive_threshold lib (cutout sr) in
    let accepted candidate :=
      match candidate with
      | Some p =>
          if acceptable image_data (adaptive_radius sr) expected_pos p
          then Some p else None
      | None => None
      end in
    match accepted (center_of_mass_candidate lib (cutout sr) threshold
                      (x_min sr) (y_min sr)) with
    | Some p => (_update_tracking_history t p (8 / 10), p)
    | None =>
    match accepted (peak_candidate (cutout sr) threshold
                      (x_min sr) (y_min sr)) with
    | Some p => (_update_tracking_history t p (6 / 10), p)
    | None =>
        if momentum_applies sr expected_pos
        then (_update_tracking_history t (predicted_pos sr) (3 / 10),
              predicted_pos sr)
        else (_update_tracking_history t expected_pos (1 / 10), expected_pos)
    end
    end.

(** ** Concrete planes and a concrete library *)

(** A library whose sigma clipping rejects no sample and whose centroid is
    the centre of mass; the aperture sums are those of the worked example
    of the specification (raw flux 1000, sky median 5 per pixel), and the
    summed aperture area is the analytic area of the disk, capped by the
    number of pixels of the plane. *)
Definition example_library : Library := {|
  sigma_clipped_stats a :=
    Some (np_mean (concat a), np_median a, np_std (concat a));
  centroid_com a :=
    Some (sum_x_weighted a / np_sum a, sum_y_weighted a / np_sum a);
  aperture_sum _ _ _ := 1000;
  sum_aper_area a _ r := Rmin (PI * r ^ 2) (INR (size a));
  annulus_median _ _ _ _ := 5;
  annulus_std _ _ _ _ := 1;
  annulus_sum_aper_area _ _ r_in r_out :=
    Some (PI * (r_out ^ 2 - r_in ^ 2))
|}.

(** A plane of one pixel, and a dark plane of 20 by 20 pixels. *)
Definition one_pixel_plane : PixelPlane := [[7]].
Definition dark_plane : PixelPlane := repeat (repeat 0 20) 20.

(** ** Exceptions *)

Inductive Exception : Type :=
| ValueError
| TypeError
| IndexError
| OSError
| UnboundLocalError.

(** The outcome of a computation that may raise. *)
Inductive Result (A : Type) : Type :=
| Ok (a : A)
| Raise (e : Exception).

Arguments Ok {A} a.
Arguments Raise {A} e.

Definition bind {A B} (m : Result A) (k : A -> Result B) : Result B :=
  match m with
  | Ok a => k a
  | Raise e => Raise e
  end.

Notation "x <- m ;; k" := (bind m (fun x => k))
  (at level 61, m at next level, right associativity).

(** [x[0]], [x[1]] or [x, y = x] on a value that may be [None]. *)
Definition subscript {A} (x : option A) : Result A :=
  match x with
  | Some a => Ok a
  | None => Raise TypeError
  end.

(** ** Aperture photometry *)

Record ApertureParams : Type := mkApertureParams {
  inner_radius : R;
  inner_annulus : R;
  outer_annulus : R
}.

(** The default geometry of [__init__]. *)
Definition default_aperture_params : ApertureParams :=
  mkApertureParams 9 12 17.

Record Aperture : Type := mkAperture {
  positions : Position;
  r : R
}.

Record Annulus : Type := mkAnnulus {
  annulus_positions : Position;
  r_in : R;
  r_out : R
}.

(** [photutils.aperture.CircularAperture(positions, r)]: the radius must be
    a positive number. *)
Definition CircularAperture (pos : Position) (radius : R) : Result Aperture :=
  if Rltb 0 radius then Ok (mkAperture pos radius) else Raise ValueError.

(** [photutils.aperture.CircularAnnulus(positions, r_in, r_out)]: the inner
    radius must be positive and the outer radius greater than the inner. *)
Definition CircularAnnulus (pos : Position) (inner outer : R)
    : Result Annulus :=
  if Rltb 0 inner then
    if Rltb inner outer then Ok (mkAnnulus pos inner outer)
    else Raise ValueError
  else Raise ValueError.

(** [aperture.area] *)
Definition area (ap : Aperture) : R := PI * r ap ^ 2.
Definition annulus_area (an : Annulus) : R :=
  PI * (r_out an ^ 2 - r_in an ^ 2).

(** The measurements of one channel. *)
Record Channel : Type := mkChannel {
  star_flux_raw : R;
  sky_background_total : R;
  sky_per_pixel : R;
  sky_std : R;
  star_flux_corrected : R;
  poisson_noise : R
}.

(** The dictionary that [perform_aperture_photometry] returns. *)
Record GrayPhotometry : Type := mkGrayPhotometry {
  x_position : R;
  y_position : R;
  gray_only : Channel;
  aperture_area : R;
  sky_annulus_area : R
}.

(** The dictionary that [perform_rgb_photometry] returns. *)
Record RGBPhotometry : Type := mkRGBPhotometry {
  rgb_x_position : R;
  rgb_y_position : R;
  rgb_aperture_area : R;
  rgb_sky_annulus_area : R;
  r_channel : Channel;
  g_channel : Channel;
  b_channel : Channel;
  gray_channel : Channel
}.

(** [np.sqrt(abs(star_flux_raw)) if star_flux_raw > 0 else 0] *)
Definition poisson_of (raw : R) : R :=
  if Rltb 0 raw then sqrt (Rabs raw) else 0.

(** [int(x)] for a float that may be not a number. *)
Definition int_of_float (x : option R) : Result Z :=
  match x with
  | Some v => Ok (py_int v)
  | None => Raise ValueError
  end.

(** [perform_aperture_photometry(image_data, star_pos)] *)
Definition perform_aperture_photometry (lib : Library)
    (aperture_params : ApertureParams) (image_data : PixelPlane)
    (star_pos : Position) : Result GrayPhotometry :=
  let (x, y) := star_pos in
  star_aperture <- CircularAperture (x, y) (inner_radius aperture_params) ;;
  measured <-
    (if Rleb (outer_annulus aperture_params) (inner_annulus aperture_params)
     then
       let raw := aperture_sum lib image_data (x, y) (r star_aperture) in
       Ok (raw, 0, 0, 0, 0, raw)
     else
       sky_annulus <- CircularAnnulus (x, y) (inner_annulus aperture_params)
                        (outer_annulus aperture_params) ;;
       let raw := aperture_sum lib image_data (x, y) (r star_aperture) in
       let median := annulus_median lib image_data (x, y)
                       (r_in sky_annulus) (r_out sky_annulus) in
       let std := annulus_std lib image_data (x, y)
                    (r_in sky_annulus) (r_out sky_annulus) in
       sky_pixels_count <-
         int_of_float (annulus_sum_aper_area lib image_data (x, y)
                         (r_in sky_annulus) (r_out sky_annulus)) ;;
       let background :=
         median * sum_aper_area lib image_data (x, y) (r star_aperture) in
       Ok (raw, median, std, background, IZR sky_pixels_count,
           raw - background)) ;;
  let '(raw, median, std, background, sky_pixels_count, corrected) :=
    measured in
  Ok (mkGrayPhotometry x y
        (mkChannel raw background median std corrected (poisson_of raw))
        (area star_aperture) sky_pixels_count).

(** One turn of the loop over the channels of [perform_rgb_photometry];
    the grayscale plane is measured the same way after the loop. *)
Definition measure_channel (lib : Library) (channel_data : PixelPlane)
    (star_aperture : Aperture) (sky_annulus : Annulus) : Channel :=
  let pos := positions star_aperture in
  let median := annulus_median lib channel_data pos
                  (r_in sky_annulus) (r_out sky_annulus) in
  let std := annulus_std lib channel_data pos
               (r_in sky_annulus) (r_out sky_annulus) in
  let raw := aperture_sum lib channel_data pos (r star_aperture) in
  let background := median * area star_aperture in
  mkChannel raw background median std (raw - background) (poisson_of raw).

(** [perform_rgb_photometry(rgb_data, gray_data, star_pos)], with
    [rgb_data[i, :, :]] given as the three planes. *)
Definition perform_rgb_photometry (lib : Library)
    (aperture_params : ApertureParams)
    (rgb_data : PixelPlane * PixelPlane * PixelPlane)
    (gray_data : PixelPlane) (star_pos : Position) : Result RGBPhotometry :=
  let (x, y) := star_pos in
  let '(red, green, blue) := rgb_data in
  star_aperture <- CircularAperture (x, y) (inner_radius aperture_params) ;;
  sky_annulus <- CircularAnnulus (x, y) (inner_annulus aperture_params)
                   (outer_annulus aperture_params) ;;
  Ok (mkRGBPhotometry x y (area star_aperture) (annulus_area sky_annulus)
        (measure_channel lib red star_aperture sky_annulus)
        (measure_channel lib green star_aperture sky_annulus)
        (measure_channel lib blue star_aperture sky_annulus)
        (measure_channel lib gray_data star_aperture sky_annulus)).

(** What every channel of the RGB measurement satisfies. *)
Definition analytic_background (p : ApertureParams) (c : Channel) : Prop :=
  sky_background_total c = sky_per_pixel c * (PI * inner_radius p ^ 2)
  /\ star_flux_corrected c = star_flux_raw c - sky_background_total c
  /\ poisson_noise c = sqrt (Rmax (star_flux_raw c) 0).

(** A flat plane of 10 by 10 pixels, all of value 5. *)
Definition flat_plane : PixelPlane := repeat (repeat 5 10) 10.

(** The flat plane with a star of 500 counts on the pixel at (5, 5): the
    pixels sum to 1000. *)
Definition star_plane : PixelPlane :=
  repeat (repeat 5 10) 5
  ++ [repeat 5 5 ++ [505] ++ repeat 5 4]
  ++ repeat (repeat 5 10) 4.

(** What photutils computes for a disk that holds the whole plane and an
    annulus that lies within the plane on sky pixels of one value, that of
    the first pixel: the aperture sum is the sum of the pixels, the summed
    aperture area is the number of pixels (the analytic area of a disk
    that is smaller than the plane), every sky median is the sky value and
    every standard deviation is 0. *)
Definition flat_library : Library := {|
  sigma_clipped_stats a := Some (hd 0 (concat a), hd 0 (concat a), 0);
  centroid_com a :=
    Some (sum_x_weighted a / np_sum a, sum_y_weighted a / np_sum a);
  aperture_sum a _ _ := np_sum a;
  sum_aper_area a _ r := Rmin (PI * r ^ 2) (INR (size a));
  annulus_median a _ _ _ := hd 0 (concat a);
  annulus_std _ _ _ _ := 0;
  annulus_sum_aper_area _ _ r_in r_out :=
    Some (PI * (r_out ^ 2 - r_in ^ 2))
|}.

(** ** The workflow session *)

(** The decoded data of a FITS file: [hdul[0].data] of shape [(h, w)], or
    of shape [(3, h, w)] for RGB. *)
Inductive FrameData : Type :=
| GrayData (a : PixelPlane)
| RGBData (red green blue : PixelPlane).

(** A file of [self.fits_files]: [decoded] is [None] when [fits.open]
    raises on it. *)
Record FitsFile : Type := mkFitsFile {
  filename : String.string;
  decoded : option FrameData
}.

(** [np.mean(original_data, axis=0)] *)
Definition mean_plane (red green blue : PixelPlane) : PixelPlane :=
  map (fun rows =>
         map (fun v => (fst (fst v) + snd (fst v) + snd v) / 3)
             (combine (combine (fst (fst rows)) (snd (fst rows)))
                      (snd rows)))
      (combine (combine red green) blue).

Definition tracking_data_of (d : FrameData) : PixelPlane :=
  match d with
  | GrayData a => a
  | RGBData red green blue => mean_plane red green blue
  end.

Inductive Photometry : Type :=
| GrayResult (m : GrayPhotometry)
| RGBResult (m : RGBPhotometry).

(** A record of [self.photometry_results]; the entries copied from the
    FITS header are left out. *)
Record ResultRecord : Type := mkResultRecord {
  image_index : nat;
  result_filename : String.string;
  result_star_name : String.string;
  tracked_position : Position;
  movement_pixels : R;
  is_rgb : bool;
  phot_results : Photometry
}.

Inductive TrackingMode : Type :=
| preselection
| batch
| sequential
| regular.

(** The messages of [log_status] that report a failure. *)
Inductive StatusMessage : Type :=
| ErrorProcessing (file : String.string) (e : Exception)
| ErrorProcessingFrame (frame : nat) (e : Exception).

Record Session : Type := mkSession {
  fits_files : list FitsFile;
  star_name : String.string;
  aperture_params : ApertureParams;
  tracking_enabled : bool;        (* [tracking_enabled_var.get()] *)
  search_radius : Z;              (* [search_radius_var.get()] *)
  stop_processing : bool;
  paused : bool;
  paused_tracking_mode : option TrackingMode;
  batch_processing_mode : bool;
  current_frame_index : nat;
  current_image_grayscale : option PixelPlane;
  current_image_rgb : option (PixelPlane * PixelPlane * PixelPlane);
  frame_positions : list (option Position);
  preselected_positions : list (option Position);
  photometry_results : list ResultRecord;
  tracker : Tracker;
  status_log : list StatusMessage
}.

Definition set_tracker (t : Tracker) (s : Session) : Session :=
  mkSession (fits_files s) (star_name s) (aperture_params s)
    (tracking_enabled s) (search_radius s) (stop_processing s) (paused s)
    (paused_tracking_mode s) (batch_processing_mode s)
    (current_frame_index s) (current_image_grayscale s)
    (current_image_rgb s) (frame_positions s) (preselected_positions s)
    (photometry_results s) t (status_log s).

Definition log_status (m : StatusMessage) (s : Session) : Session :=
  mkSession (fits_files s) (star_name s) (aperture_params s)
    (tracking_enabled s) (search_radius s) (stop_processing s) (paused s)
    (paused_tracking_mode s) (batch_processing_mode s)
    (current_frame_index s) (current_image_grayscale s)
    (current_image_rgb s) (frame_positions s) (preselected_positions s)
    (photometry_results s) (tracker s) (status_log s ++ [m]).

Definition set_photometry_results (rs : list ResultRecord) (s : Session)
    : Session :=
  mkSession (fits_files s) (star_name s) (aperture_params s)
    (tracking_enabled s) (search_radius s) (stop_processing s) (paused s)
    (paused_tracking_mode s) (batch_processing_mode s)
    (current_frame_index s) (current_image_grayscale s)
    (current_image_rgb s) (frame_positions s) (preselected_positions s)
    rs (tracker s) (status_log s).

Definition set_frame_positions (ps : list (option Position)) (s : Session)
    : Session :=
  mkSession (fits_files s) (star_name s) (aperture_params s)
    (tracking_enabled s) (search_radius s) (stop_processing s) (paused s)
    (paused_tracking_mode s) (batch_processing_mode s)
    (current_frame_index s) (current_image_grayscale s)
    (current_image_rgb s) ps (preselected_positions s)
    (photometry_results s) (tracker s) (status_log s).

Definition set_preselected_positions (ps : list (option Position))
    (s : Session) : Session :=
  mkSession (fits_files s) (star_name s) (aperture_params s)
    (tracking_enabled s) (search_radius s) (stop_processing s) (paused s)
    (paused_tracking_mode s) (batch_processing_mode s)
    (current_frame_index s) (current_image_grayscale s)
    (current_image_rgb s) (frame_positions s) ps
    (photometry_results s) (tracker s) (status_log s).

Definition set_batch_processing_mode (b : bool) (s : Session) : Session :=
  mkSession (fits_files s) (star_name s) (aperture_params s)
    (tracking_enabled s) (search_radius s) (stop_processing s) (paused s)
    (paused_tracking_mode s) b
    (current_frame_index s) (current_image_grayscale s)
    (current_image_rgb s) (frame_positions s) (preselected_positions s)
    (photometry_results s) (tracker s) (status_log s).

(** [l[i]] on a list: [IndexError] beyond the end. *)
Definition index {A} (l : list A) (i : nat) : Result A :=
  match nth_error l i with
  | Some a => Ok a
  | None => Raise IndexError
  end.

(** The photometry step shared by [process_single_image] and
    [process_current_frame]. *)
Definition measure (lib : Library) (p : ApertureParams) (d : FrameData)
    (star_pos : Position) : Result Photometry :=
  match d with
  | RGBData red green blue =>
      m <- perform_rgb_photometry lib p (red, green, blue)
             (mean_plane red green blue) star_pos ;;
      Ok (RGBResult m)
  | GrayData a =>
      m <- perform_aperture_photometry lib p a star_pos ;;
      Ok (GrayResult m)
  end.

Definition is_rgb_data (d : FrameData) : bool :=
  match d with
  | RGBData _ _ _ => true
  | GrayData _ => false
  end.

(** The answer of the user to [manual_star_reposition]: the position
    clicked, or [None] when the user declines or the dialog times out. *)
Definition Reposition : Type :=
  FitsFile -> nat -> option Position -> option Position.

(** The branch of [process_single_image] that settles the tracked position
    and the movement: the new histories, and [None] where the method
    returns [None] without an exception. *)
Definition locate (lib : Library) (manual_star_reposition : Reposition)
    (s : Session) (d : FrameData) (fits_file : FitsFile)
    (expected_pos : option Position) (image_index : nat)
    : Result (Tracker * option (Position * R)) :=
  if batch_processing_mode s then
    movement <-
      (if (image_index =? 0)%nat then Ok 0
       else
         tracked_pos <- subscript expected_pos ;;
         first <- index (preselected_positions s) 0 ;;
         first <- subscript first ;;
         Ok (distance tracked_pos first)) ;;
    tracked_pos <- subscript expected_pos ;;
    Ok (tracker s, Some (tracked_pos, movement))
  else if (image_index =? 0)%nat then
    tracked_pos <- subscript expected_pos ;;
    Ok (tracker s, Some (tracked_pos, 0))
  else if tracking_enabled s then
    expected <- subscript expected_pos ;;
    let (t, tracked_pos) :=
      track_star_position lib (tracker s) (tracking_data_of d) expected
        (search_radius s) in
    Ok (t, Some (tracked_pos, distance tracked_pos expected))
  else
    match manual_star_reposition fits_file image_index expected_pos with
    | None => Ok (tracker s, None)
    | Some tracked_pos =>
        expected <- subscript expected_pos ;;
        Ok (tracker s, Some (tracked_pos, distance tracked_pos expected))
    end.

(** [process_single_image(fits_file, expected_pos, image_index)]: the new
    state and the result, [None] after an exception (which is logged) or
    when the user declines to reposition. *)
Definition process_single_image (lib : Library)
    (manual_star_reposition : Reposition) (s : Session)
    (fits_file : FitsFile) (expected_pos : option Position)
    (image_index : nat) : Session * option ResultRecord :=
  let failed e s :=
    (log_status (ErrorProcessing (filename fits_file) e) s, None) in
  match decoded fits_file with
  | None => failed OSError s
  | Some d =>
      match locate lib manual_star_reposition s d fits_file expected_pos
              image_index with
      | Raise e => failed e s
      | Ok (t, None) => (set_tracker t s, None)
      | Ok (t, Some (tracked_pos, movement)) =>
          match measure lib (aperture_params s) d tracked_pos with
          | Raise e => failed e (set_tracker t s)
          | Ok phot =>
              (set_tracker t s,
               Some (mkResultRecord image_index (filename fits_file)
                       (star_name s) tracked_pos movement (is_rgb_data d)
                       phot))
          end
      end
  end.

(** [process_current_frame(star_pos)], on the frame that
    [load_frame_for_tracking] has loaded. *)
Definition process_current_frame (lib : Library) (s : Session)
    (star_pos : Position) : Session :=
  let frame_index := current_frame_index s in
  let body : Result ResultRecord :=
    fits_file <- index (fits_files s) frame_index ;;
    gray <- subscript (current_image_grayscale s) ;;
    phot <- measure lib (aperture_params s)
              (match current_image_rgb s with
               | Some (red, green, blue) => RGBData red green blue
               | None => GrayData gray
               end) star_pos ;;
    movement <-
      (if (0 <? frame_index)%nat && (1 <? length (frame_positions s))%nat
       then
         prev_pos <- index (frame_positions s) (frame_index - 1) ;;
         prev_pos <- subscript prev_pos ;;
         Ok (distance star_pos prev_pos)
       else Ok 0) ;;
    Ok (mkResultRecord frame_index (filename fits_file) (star_name s)
          star_pos movement
          (match current_image_rgb s with Some _ => true | None => false end)
          phot) in
  match body with
  | Ok result => set_photometry_results (photometry_results s ++ [result]) s
  | Raise e => log_status (ErrorProcessingFrame (frame_index + 1) e) s
  end.

(** [on_sequential_tracking_click]: the click is stored as the position of
    the frame, and the frame is processed. *)
Definition on_sequential_tracking_click (lib : Library) (s : Session)
    (star_pos : Position) : Session :=
  process_current_frame lib
    (set_frame_positions (frame_positions s ++ [Some star_pos]) s) star_pos.

(** The pairs that the loop of [process_batch_photometry] enumerates:
    [enumerate(zip(fits_files[:len(preselected_positions)],
                   preselected_positions))]. *)
Definition batch_items (s : Session)
    : list (nat * (FitsFile * option Position)) :=
  let pairs :=
    combine (firstn (length (preselected_positions s)) (fits_files s))
            (preselected_positions s) in
  combine (seq 0 (length pairs)) pairs.

(** The batch either runs to the end of its loop, or waits at a frame for
    the pause to be lifted by the caller. *)
Inductive BatchOutcome : Type :=
| Finished (s : Session)
| Waiting (s : Session) (frame : nat).

Fixpoint batch_loop (lib : Library) (manual_star_reposition : Reposition)
    (s : Session) (items : list (nat * (FitsFile * option Position)))
    : BatchOutcome :=
  match items with
  | [] => Finished s
  | (i, (fits_file, star_pos)) :: rest =>
      if stop_processing s then Finished s
      else if paused s then Waiting s i
      else
        let (s', result) :=
          process_single_image lib manual_star_reposition s fits_file
            star_pos i in
        let s'' :=
          match result with
          | Some r =>
              set_photometry_results (photometry_results s' ++ [r]) s'
          | None => s'
          end in
        batch_loop lib manual_star_reposition s'' rest
  end.

(** [process_batch_photometry()], started by
    [start_automatic_batch_processing] or [start_batch_processing], which
    set [batch_processing_mode]; the mode is reset when the loop is left. *)
Definition process_batch_photometry (lib : Library)
    (manual_star_reposition : Reposition) (s : Session) : BatchOutcome :=
  match batch_loop lib manual_star_reposition s (batch_items s) with
  | Finished s' => Finished (set_batch_processing_mode false s')
  | Waiting s' i => Waiting s' i
  end.

(** ** The result of a batch frame *)

(** The result of one frame of a batch, in closed form: in batch mode
    nothing but the star name, the aperture and the position list of the
    session enters it. *)
Definition batch_frame_result (lib : Library) (s : Session)
    (item : nat * (FitsFile * option Position)) : option ResultRecord :=
  let '(i, (fits_file, star_pos)) := item in
  match decoded fits_file, star_pos with
  | Some d, Some p =>
      match (if (i =? 0)%nat then Ok 0
             else first <- index (preselected_positions s) 0 ;;
                  first <- subscript first ;;
                  Ok (distance p first)) with
      | Ok movement =>
          match measure lib (aperture_params s) d p with
          | Ok phot =>
              Some (mkResultRecord i (filename fits_file) (star_name s) p
                      movement (is_rgb_data d) phot)
          | Raise _ => None
          end
      | Raise _ => None
      end
  | _, _ => None
  end.

(** The fields that a batch reads and no frame of it changes. *)
Definition batch_stable (s s' : Session) : Prop :=
  star_name s' = star_name s
  /\ aperture_params s' = aperture_params s
  /\ preselected_positions s' = preselected_positions s
  /\ batch_processing_mode s' = batch_processing_mode s
  /\ stop_processing s' = stop_processing s
  /\ paused s' = paused s.

Definition results_of (lib : Library) (s : Session)
    (items : list (nat * (FitsFile * option Position)))
    : list ResultRecord :=
  flat_map (fun item =>
              match batch_frame_result lib s item with
              | Some r => [r]
              | None => []
              end) items.

(** ** Concrete sessions *)

Definition good_file (name : String.string) : FitsFile :=
  mkFitsFile name (Some (GrayData dark_plane)).

Definition unreadable_file (name : String.string) : FitsFile :=
  mkFitsFile name None.

(** A session as [start_automatic_batch_processing] leaves it. *)
Definition batch_session (files : list FitsFile)
    (positions : list (option Position)) : Session :=
  mkSession files "star" default_aperture_params true 25 false false None
    true 0 None None [] positions [] empty_tracker [].

(** A user who declines every manual repositioning. *)
Definition nobody : Reposition := fun _ _ _ => None.

(** Three frames on which the star drifts by 5 pixels a frame. *)
Definition drift_session : Session :=
  batch_session [good_file "a.fit"; good_file "b.fit"; good_file "c.fit"]
    [Some (0, 0); Some (3, 4); Some (6, 8)].

(** Two frames, the first of which cannot be decoded. *)
Definition blind_first_session : Session :=
  batch_session [unreadable_file "a.fit"; good_file "b.fit"]
    [Some (5, 5); Some (5, 5)].

(** Three frames with two stored positions, the second of them cleared. *)
Definition gap_session : Session :=
  batch_session [good_file "a.fit"; good_file "b.fit"; good_file "c.fit"]
    [Some (5, 5); None].

(** ** Overwriting a position during a pause *)

(** [while len(l) <= k: l.append(None)] *)
Definition pad_to {A} (k : nat) (l : list (option A)) : list (option A) :=
  l ++ repeat None (S k - length l).

(** [l[k] = v] for an index within the list. *)
Fixpoint list_set {A} (k : nat) (v : A) (l : list A) : list A :=
  match l, k with
  | [], _ => []
  | _ :: l', O => v :: l'
  | a :: l', S k' => a :: list_set k' v l'
  end.

(** [while len(l) > n: l.pop()] *)
Definition pop_down_to {A} (n : nat) (l : list A) : list A := firstn n l.

(** [mark_frames_for_reprocessing_from(start_frame)] *)
Definition mark_frames_for_reprocessing_from (s : Session)
    (start_frame : nat) : Session :=
  match paused_tracking_mode s with
  | Some preselection =>
      set_preselected_positions
        (pop_down_to (start_frame + 1) (preselected_positions s)) s
  | Some sequential =>
      set_photometry_results
        (pop_down_to (start_frame + 1) (photometry_results s))
        (set_frame_positions
           (pop_down_to (start_frame + 1) (frame_positions s)) s)
  | _ => s
  end.

(** [update_position_after_navigation(x, y)], the handler of a click while
    [self.paused].  In a mode other than preselection and sequential no
    branch binds [old_pos], and reading it raises. *)
Definition update_position_after_navigation (s : Session) (x y : R)
    : Result Session :=
  if paused s then
    let k := current_frame_index s in
    match paused_tracking_mode s with
    | Some preselection =>
        Ok (mark_frames_for_reprocessing_from
              (set_preselected_positions
                 (list_set k (Some (x, y))
                    (pad_to k (preselected_positions s))) s) k)
    | Some sequential =>
        Ok (mark_frames_for_reprocessing_from
              (set_frame_positions
                 (list_set k (Some (x, y)) (pad_to k (frame_positions s)))
                 s) k)
    | _ => Raise UnboundLocalError
    end
  else Ok s.

(** [clear_current_frame_position()] *)
Definition clear_current_frame_position (s : Session) : Session :=
  let k := current_frame_index s in
  if (k <? length (preselected_positions s))%nat
  then set_preselected_positions
         (list_set k None (preselected_positions s)) s
  else s.

(** The position that a click is refined to: the tracker's answer when
    auto-tracking is enabled and a frame is loaded, the click otherwise. *)
Definition refine_click (lib : Library) (s : Session) (x y : R)
    : Tracker * Position :=
  if tracking_enabled s then
    match current_image_grayscale s with
    | Some tracking_data =>
        track_star_position lib (tracker s) tracking_data (x, y)
          (search_radius s)
    | None => (tracker s, (x, y))
    end
  else (tracker s, (x, y)).

(** [update_preselection_position_during_pause(x, y, event)], the handler
    of a click while the pre-selection is paused ([preselection_paused]);
    [right_click] is [event.button == 3].  The positions of the later
    frames are kept: they are removed when the selection is resumed. *)
Definition update_preselection_position_during_pause (lib : Library)
    (s : Session) (x y : R) (right_click : bool) : Session :=
  if right_click then clear_current_frame_position s
  else
    let (t, refined_pos) := refine_click lib s x y in
    let k := current_frame_index s in
    set_preselected_positions
      (list_set k (Some refined_pos) (pad_to k (preselected_positions s)))
      (set_tracker t s).

(** [resume_preselection()]: the positions from the current frame onwards
    are removed. *)
Definition resume_preselection (s : Session) : Session :=
  set_preselected_positions
    (pop_down_to (current_frame_index s) (preselected_positions s)) s.

(** A record with blank measurements, for the sessions of the examples. *)
Definition blank_record (i : nat) (pos : Position) : ResultRecord :=
  mkResultRecord i "frame.fit" "star" pos 0 false
    (GrayResult (mkGrayPhotometry (fst pos) (snd pos)
                   (mkChannel 0 0 0 0 0 0) 0 0)).

(** A sequential session paused on frame 1 of three processed frames. *)
Definition paused_sequential_session : Session :=
  mkSession [good_file "a.fit"; good_file "b.fit"; good_file "c.fit"]
    "star" default_aperture_params false 25 false true (Some sequential)
    false 1 None None
    [Some (1, 1); Some (2, 2); Some (3, 3)] []
    [blank_record 0 (1, 1); blank_record 1 (2, 2); blank_record 2 (3, 3)]
    empty_tracker [].


(** A pre-selection paused on frame 0 with three positions selected and
    auto-tracking switched off. *)
Definition paused_preselection_session : Session :=
  mkSession [good_file "a.fit"; good_file "b.fit"; good_file "c.fit"]
    "star" default_aperture_params false 25 false true (Some preselection)
    false 0 None None []
    [Some (1, 1); Some (2, 2); Some (3, 3)] [] empty_tracker [].

(** ** Further definitions *)

(** The statistics that [_calculate_adaptive_threshold] works from: those
    of [sigma_clipped_stats], or the plain ones when it raises. *)
Definition cutout_stats (lib : Library) (cutout : PixelPlane) : R * R * R :=
  match sigma_clipped_stats lib cutout with
  | Some stats => stats
  | None =>
      (np_mean (concat cutout), np_median cutout, np_std (concat cutout))
  end.

(** The books of a channel balance: the raw flux is the corrected flux plus
    the background, and the noise is the non-negative root of the raw
    flux, or zero for a raw flux that is not positive. *)
Definition channel_balanced (c : Channel) : Prop :=
  star_flux_raw c = star_flux_corrected c + sky_background_total c
  /\ 0 <= poisson_noise c
  /\ poisson_noise c ^ 2 = Rmax (star_flux_raw c) 0.

(** [start_automatic_batch_processing()], up to the start of the worker
    thread: the batch flags are set, and the results and the histories
    are reset. *)
Definition start_automatic_batch_processing (s : Session) : Session :=
  mkSession (fits_files s) (star_name s) (aperture_params s)
    (tracking_enabled s) (search_radius s) false (paused s)
    (paused_tracking_mode s) true
    (current_frame_index s) (current_image_grayscale s)
    (current_image_rgb s) (frame_positions s) (preselected_positions s)
    [] empty_tracker (status_log s).

(** The worker thread that [start_automatic_batch_processing] starts. *)
Definition run_automatic_batch (lib : Library)
    (manual_star_reposition : Reposition) (s : Session) : BatchOutcome :=
  process_batch_photometry lib manual_star_reposition
    (start_automatic_batch_processing s).

Definition outcome_session (o : BatchOutcome) : Session :=
  match o with
  | Finished s => s
  | Waiting s _ => s
  end.

(** The fields that neither a frame nor a batch changes. *)
Definition same_inputs (s s' : Session) : Prop :=
  fits_files s' = fits_files s
  /\ star_name s' = star_name s
  /\ aperture_params s' = aperture_params s
  /\ tracking_enabled s' = tracking_enabled s
  /\ search_radius s' = search_radius s
  /\ stop_processing s' = stop_processing s
  /\ paused s' = paused s
  /\ paused_tracking_mode s' = paused_tracking_mode s
  /\ current_frame_index s' = current_frame_index s
  /\ frame_positions s' = frame_positions s
  /\ preselected_positions s' = preselected_positions s.

(** Sequential tracking on the second of two frames, the first of which
    was clicked at the origin. *)
Definition second_frame_session : Session :=
  mkSession [good_file "a.fit"; good_file "b.fit"] "star"
    default_aperture_params false 25 false false None false 1
    (Some dark_plane) None [Some (0, 0); Some (3, 4)] []
    [blank_record 0 (0, 0)] empty_tracker [].

Definition set_paused (b : bool) (s : Session) : Session :=
  mkSession (fits_files s) (star_name s) (aperture_params s)
    (tracking_enabled s) (search_radius s) (stop_processing s) b
    (paused_tracking_mode s) (batch_processing_mode s)
    (current_frame_index s) (current_image_grayscale s)
    (current_image_rgb s) (frame_positions s) (preselected_positions s)
    (photometry_results s) (tracker s) (status_log s).

Definition set_paused_tracking_mode (m : option TrackingMode) (s : Session)
    : Session :=
  mkSession (fits_files s) (star_name s) (aperture_params s)
    (tracking_enabled s) (search_radius s) (stop_processing s) (paused s)
    m (batch_processing_mode s)
    (current_frame_index s) (current_image_grayscale s)
    (current_image_rgb s) (frame_positions s) (preselected_positions s)
    (photometry_results s) (tracker s) (status_log s).

(** [clear_data_from_current_frame()]: the positions are sliced to
    [[:current_idx]] and the results with [image_index >= current_idx] are
    dropped. *)
Definition clear_data_from_current_frame (s : Session) : Session :=
  let current_idx := current_frame_index s in
  set_frame_positions (firstn current_idx (frame_positions s))
    (set_photometry_results
       (filter (fun r => (image_index r <? current_idx)%nat)
               (photometry_results s))
       (set_preselected_positions
          (firstn current_idx (preselected_positions s)) s)).

(** [resume_from_pause(event)] for a click at [(x, y)], up to the callback
    that it schedules for the next frame.  The pause is lifted before the
    position is handed to [update_position_after_navigation]. *)
Definition resume_from_pause (lib : Library) (s : Session) (x y : R)
    : Result Session :=
  if paused s then
    let s1 := set_paused false (clear_data_from_current_frame s) in
    match paused_tracking_mode s1 with
    | Some preselection | Some sequential =>
        let (t, refined_pos) := refine_click lib s1 x y in
        s2 <- update_position_after_navigation (set_tracker t s1)
                (fst refined_pos) (snd refined_pos) ;;
        Ok (set_paused_tracking_mode None s2)
    | _ => Ok (set_paused_tracking_mode None s1)
    end
  else Ok s.

(** ** Frame navigation *)

(** The attributes of the window that navigation reads or writes besides
    those of the session; [load_errors] holds the frames for which an
    "Error loading frame" message was logged. *)
Record Window : Type := mkWindow {
  session : Session;
  preselection_mode : bool;
  preselection_paused : bool;
  selected_star_pos : option Position;
  load_errors : list nat
}.

Definition set_current_frame_index (k : nat) (s : Session) : Session :=
  mkSession (fits_files s) (star_name s) (aperture_params s)
    (tracking_enabled s) (search_radius s) (stop_processing s) (paused s)
    (paused_tracking_mode s) (batch_processing_mode s)
    k (current_image_grayscale s)
    (current_image_rgb s) (frame_positions s) (preselected_positions s)
    (photometry_results s) (tracker s) (status_log s).

(** The assignments to [current_image_rgb] and [current_image_grayscale]
    after a frame is read. *)
Definition set_current_image (d : FrameData) (s : Session) : Session :=
  mkSession (fits_files s) (star_name s) (aperture_params s)
    (tracking_enabled s) (search_radius s) (stop_processing s) (paused s)
    (paused_tracking_mode s) (batch_processing_mode s)
    (current_frame_index s) (Some (tracking_data_of d))
    (match d with
     | RGBData red green blue => Some (red, green, blue)
     | GrayData _ => None
     end)
    (frame_positions s) (preselected_positions s)
    (photometry_results s) (tracker s) (status_log s).

(** [self.preselected_positions[frame_index]] when the index is within the
    list and the entry is not [None]. *)
Definition stored_position (s : Session) (frame_index : nat)
    : option Position :=
  match nth_error (preselected_positions s) frame_index with
  | Some (Some p) => Some p
  | _ => None
  end.

(** [load_frame_for_preselection_pause(frame_index)] *)
Definition load_frame_for_preselection_pause (w : Window)
    (frame_index : nat) : Window :=
  match nth_error (fits_files (session w)) frame_index with
  | None => w
  | Some fits_file =>
      match decoded fits_file with
      | None =>
          mkWindow (session w) (preselection_mode w) (preselection_paused w)
            (selected_star_pos w) (load_errors w ++ [(frame_index + 1)%nat])
      | Some d =>
          mkWindow (set_current_image d (session w)) (preselection_mode w)
            (preselection_paused w) (stored_position (session w) frame_index)
            (load_errors w)
      end
  end.

(** [load_frame_for_pause_navigation(frame_index)] *)
Definition load_frame_for_pause_navigation (w : Window)
    (frame_index : nat) : Window :=
  match nth_error (fits_files (session w)) frame_index with
  | None => w
  | Some fits_file =>
      match decoded fits_file with
      | None =>
          mkWindow (session w) (preselection_mode w) (preselection_paused w)
            (selected_star_pos w) (load_errors w ++ [(frame_index + 1)%nat])
      | Some d =>
          mkWindow (set_current_image d (session w)) (preselection_mode w)
            (preselection_paused w)
            (match stored_position (session w) frame_index with
             | Some p => Some p
             | None => selected_star_pos w
             end)
            (load_errors w)
      end
  end.

(** The tail shared by [go_back_frame] and [skip_frame]: the index is
    moved, and the frame is loaded. *)
Definition navigate_to (w : Window) (frame_index : nat) : Window :=
  let w1 :=
    mkWindow (set_current_frame_index frame_index (session w))
      (preselection_mode w) (preselection_paused w) (selected_star_pos w)
      (load_errors w) in
  if preselection_mode w && preselection_paused w
  then load_frame_for_preselection_pause w1 frame_index
  else
    match fits_files (session w) with
    | [] => w1
    | _ :: _ => load_frame_for_pause_navigation w1 frame_index
    end.

(** [go_back_frame()] *)
Definition go_back_frame (w : Window) : Window :=
  if (current_frame_index (session w) <=? 0)%nat then w
  else if preselection_mode w && negb (preselection_paused w) then w
  else navigate_to w (current_frame_index (session w) - 1).

(** [skip_frame()] *)
Definition skip_frame (w : Window) : Window :=
  if (length (fits_files (session w))
      <=? current_frame_index (session w) + 1)%nat then w
  else if preselection_mode w && negb (preselection_paused w) then w
  else navigate_to w (current_frame_index (session w) + 1).

(** What navigation leaves alone. *)
Definition same_data (w w' : Window) : Prop :=
  fits_files (session w') = fits_files (session w)
  /\ frame_positions (session w') = frame_positions (session w)
  /\ preselected_positions (session w') = preselected_positions (session w)
  /\ photometry_results (session w') = photometry_results (session w)
  /\ tracker (session w') = tracker (session w)
  /\ preselection_mode w' = preselection_mode w
  /\ preselection_paused w' = preselection_paused w.

(** A window on the first of three frames of a paused pre-selection. *)
Definition paused_preselection_window : Window :=
  mkWindow paused_preselection_session true true None [].

(** ** The consensus scorer *)

(** A candidate [(method, x, y, confidence)] of a centroiding method. *)
Record Candidate : Type := mkCandidate {
  method : String.string;
  candidate_x : R;
  candidate_y : R;
  confidence : R
}.

(** The score that [_select_best_candidate] gives a candidate. *)
Definition total_score (candidates : list Candidate)
    (search_x search_y search_radius : R) (c : Candidate) : R :=
  let consensus_x := np_median [map candidate_x candidates] in
  let consensus_y := np_median [map candidate_y candidates] in
  let consensus_dist :=
    distance (candidate_x c, candidate_y c) (consensus_x, consensus_y) in
  let consensus_score := Rmax 0 (1 - consensus_dist / 5) in
  let search_dist :=
    distance (candidate_x c, candidate_y c) (search_x, search_y) in
  let search_score := Rmax 0 (1 - search_dist / search_radius) in
  confidence c * (5 / 10) + consensus_score * (3 / 10)
  + search_score * (2 / 10).

(** [l.sort(reverse=True, key=key)]: descending, and stable. *)
Fixpoint insert_descending {A} (key : A -> R) (x : A) (l : list A)
    : list A :=
  match l with
  | [] => [x]
  | y :: l' =>
      if Rltb (key x) (key y) then y :: insert_descending key x l'
      else x :: l
  end.

Definition sort_descending {A} (key : A -> R) (l : list A) : list A :=
  fold_right (insert_descending key) [] l.

(** [_select_best_candidate(candidates, search_x, search_y,
    search_radius)] *)
Definition _select_best_candidate (candidates : list Candidate)
    (search_x search_y search_radius : R) : option Candidate :=
  match candidates with
  | [] => None
  | _ :: _ =>
      hd_error
        (sort_descending
           (total_score candidates search_x search_y search_radius)
           candidates)
  end.

(** Two methods that agree and one that strays. *)
Definition three_candidates : list Candidate :=
  [mkCandidate "moment" 10 10 (9 / 10);
   mkCandidate "peak" 10 10 (5 / 10);
   mkCandidate "components" 30 30 (9 / 10)].

(** ** Position files *)

(** [f"{x:.2f}"] as [float] reads it back: the nearest multiple of a
    hundredth, ties to the even one. *)
Definition round_half_even (x : R) : Z :=
  let f := Zfloor x in
  if Rltb (x - IZR f) (1 / 2) then f
  else if Rltb (1 / 2) (x - IZR f) then (f + 1)%Z
  else if Z.even f then f else (f + 1)%Z.

Definition two_decimals (x : R) : R := IZR (round_half_even (x * 100)) / 100.

(** A row of a positions file, as [csv.DictReader] gives it back.  The
    columns [position_type], [folder_path], [full_file_path] and
    [timestamp] are left out. *)
Record PositionRow : Type := mkPositionRow {
  row_image_index : nat;
  row_filename : String.string;
  row_star_name : String.string;
  row_x_position : R;
  row_y_position : R;
  aperture_inner_radius : R;
  aperture_inner_annulus : R;
  aperture_outer_annulus : R
}.

(** The answer to the "Star Name Conflict" dialog of
    [auto_save_star_positions]; [NoConflict] when no file of the star
    exists. *)
Inductive Conflict : Type :=
| NoConflict
| Overwrite
| NewFile
| Cancel.

(** [star_name_var.get().strip() if ... else "unnamed_star"], for the
    stripped name. *)
Definition star_name_cell (stripped : String.string) : String.string :=
  if String.eqb stripped "" then "unnamed_star"%string else stripped.

(** The body of the loop of [auto_save_star_positions] for one item of
    [enumerate(self.preselected_positions)]: a row for a position that is
    not [None] on a frame of [fits_files].  [sliders] are the values of
    [inner_radius_var], [inner_annulus_var] and [outer_annulus_var]. *)
Definition position_row (s : Session) (stripped : String.string)
    (sliders : ApertureParams) (item : nat * option Position)
    : list PositionRow :=
  let frame_index := fst item in
  match snd item, nth_error (fits_files s) frame_index with
  | Some (x, y), Some fits_file =>
      [mkPositionRow frame_index (filename fits_file)
         (star_name_cell stripped) (two_decimals x) (two_decimals y)
         (two_decimals (inner_radius sliders))
         (two_decimals (inner_annulus sliders))
         (two_decimals (outer_annulus sliders))]
  | _, _ => []
  end.

(** The rows that [auto_save_star_positions] writes. *)
Definition position_rows (s : Session) (stripped : String.string)
    (sliders : ApertureParams) : list PositionRow :=
  flat_map (position_row s stripped sliders)
    (combine (seq 0 (length (preselected_positions s)))
             (preselected_positions s)).

(** [auto_save_star_positions()]: the rows of the file that it writes, or
    [None] when it returns without writing. *)
Definition auto_save_star_positions (s : Session)
    (stripped : String.string) (sliders : ApertureParams)
    (response : Conflict) : option (list PositionRow) :=
  match preselected_positions s with
  | [] => None
  | _ :: _ =>
      match response with
      | Cancel => None
      | _ => Some (position_rows s stripped sliders)
      end
  end.

(** The loop over the rows that [load_star_positions] and
    [start_batch_processing] share: [positions.append((x, y))]. *)
Definition read_positions (rows : list PositionRow) : list Position :=
  map (fun row => (row_x_position row, row_y_position row)) rows.

Definition set_star_name (name : String.string) (s : Session) : Session :=
  mkSession (fits_files s) name (aperture_params s)
    (tracking_enabled s) (search_radius s) (stop_processing s) (paused s)
    (paused_tracking_mode s) (batch_processing_mode s)
    (current_frame_index s) (current_image_grayscale s)
    (current_image_rgb s) (frame_positions s) (preselected_positions s)
    (photometry_results s) (tracker s) (status_log s).

Definition set_aperture_params (p : ApertureParams) (s : Session)
    : Session :=
  mkSession (fits_files s) (star_name s) p
    (tracking_enabled s) (search_radius s) (stop_processing s) (paused s)
    (paused_tracking_mode s) (batch_processing_mode s)
    (current_frame_index s) (current_image_grayscale s)
    (current_image_rgb s) (frame_positions s) (preselected_positions s)
    (photometry_results s) (tracker s) (status_log s).

(** The star name of the first row that has one. *)
Fixpoint first_star_name (rows : list PositionRow) : String.string :=
  match rows with
  | [] => ""%string
  | row :: rows' =>
      if String.eqb (row_star_name row) "" then first_star_name rows'
      else row_star_name row
  end.

(** [load_star_positions()] on the rows of the chosen file: the positions
    replace the pre-selected ones, in the order of the rows; the star name
    and the aperture are those of the file. *)
Definition load_star_positions (rows : list PositionRow) (s : Session)
    : Session :=
  match rows with
  | [] => s
  | first :: _ =>
      let s1 :=
        set_preselected_positions (map Some (read_positions rows)) s in
      let s2 :=
        if String.eqb (first_star_name rows) "" then s1
        else set_star_name (first_star_name rows) s1 in
      set_aperture_params
        (mkApertureParams (aperture_inner_radius first)
           (aperture_inner_annulus first) (aperture_outer_annulus first))
        s2
  end.

(** [start_batch_processing()] on the rows of the chosen file, for a
    session whose frames are loaded, up to the start of the worker thread;
    [confirmed] is the answer to the "Start Batch Processing" dialog.  The
    aperture of the file is not read. *)
Definition start_batch_processing (rows : list PositionRow)
    (confirmed : bool) (s : Session) : Session :=
  match rows with
  | [] => s
  | _ :: _ =>
      let s1 :=
        set_preselected_positions (map Some (read_positions rows)) s in
      let s2 :=
        if String.eqb (first_star_name rows) "" then s1
        else set_star_name (first_star_name rows) s1 in
      if confirmed then start_automatic_batch_processing s2 else s2
  end.

(** The positions that are not [None], in their order. *)
Fixpoint selected {A} (l : list (option A)) : list A :=
  match l with
  | [] => []
  | Some a :: l' => a :: selected l'
  | None :: l' => selected l'
  end.

Definition rounded (p : Position) : Position :=
  (two_decimals (fst p), two_decimals (snd p)).

(** Three frames, the position of the second of which was cleared. *)
Definition cleared_session : Session :=
  batch_session [good_file "a.fit"; good_file "b.fit"; good_file "c.fit"]
    [Some (1, 1); None; Some (3, 3)].

(** ** The workflow buttons and the pre-selection phase *)

(** The attributes that the workflow buttons and the pre-selection phase
    read or write besides those of [Window]; [paused_frame_index] is
    [None] before the first pause, when the attribute does not exist. *)
Record App : Type := mkApp {
  window : Window;
  processing : bool;
  sequential_mode : bool;
  stop_preselection : bool;
  waiting_for_resume_reference : bool;
  waiting_for_resume_click : bool;
  paused_frame_index : option nat
}.

Definition set_window (w : Window) (a : App) : App :=
  mkApp w (processing a) (sequential_mode a) (stop_preselection a)
    (waiting_for_resume_reference a) (waiting_for_resume_click a)
    (paused_frame_index a).

Definition on_session (f : Session -> Session) (a : App) : App :=
  set_window
    (mkWindow (f (session (window a))) (preselection_mode (window a))
       (preselection_paused (window a)) (selected_star_pos (window a))
       (load_errors (window a))) a.

Definition set_preselection_mode (b : bool) (a : App) : App :=
  set_window
    (mkWindow (session (window a)) b (preselection_paused (window a))
       (selected_star_pos (window a)) (load_errors (window a))) a.

Definition set_selected_star_pos (p : option Position) (a : App) : App :=
  set_window
    (mkWindow (session (window a)) (preselection_mode (window a))
       (preselection_paused (window a)) p (load_errors (window a))) a.

(** The message "Error loading frame [frame]". *)
Definition log_load_error (frame : nat) (a : App) : App :=
  set_window
    (mkWindow (session (window a)) (preselection_mode (window a))
       (preselection_paused (window a)) (selected_star_pos (window a))
       (load_errors (window a) ++ [frame])) a.

Definition set_stop_processing (b : bool) (s : Session) : Session :=
  mkSession (fits_files s) (star_name s) (aperture_params s)
    (tracking_enabled s) (search_radius s) b (paused s)
    (paused_tracking_mode s) (batch_processing_mode s)
    (current_frame_index s) (current_image_grayscale s)
    (current_image_rgb s) (frame_positions s) (preselected_positions s)
    (photometry_results s) (tracker s) (status_log s).

(** The mode and the frame that [pause_processing] records.  No method
    assigns [current_batch_index], so that
    [getattr(self, 'current_batch_index', 0)] is 0. *)
Definition paused_mode_and_frame (a : App) : TrackingMode * nat :=
  let s := session (window a) in
  if preselection_mode (window a) then (preselection, current_frame_index s)
  else if batch_processing_mode s then (batch, 0%nat)
  else if sequential_mode a then (sequential, current_frame_index s)
  else (regular, 0%nat).

(** [pause_processing()], with [enable_pause_navigation()] that it ends
    in. *)
Definition pause_processing (a : App) : App :=
  let mode := fst (paused_mode_and_frame a) in
  let frame := snd (paused_mode_and_frame a) in
  let a1 :=
    mkApp (window (on_session
                     (fun s => set_paused_tracking_mode (Some mode)
                                 (set_paused true s)) a))
      (processing a) (sequential_mode a) (stop_preselection a)
      (waiting_for_resume_reference a) (waiting_for_resume_click a)
      (Some frame) in
  match fits_files (session (window a1)) with
  | [] => a1
  | _ :: _ =>
      set_window
        (load_frame_for_pause_navigation
           (window (on_session (set_current_frame_index frame) a1)) frame)
        a1
  end.

(** [resume_from_button()] *)
Definition resume_from_button (a : App) : App :=
  if paused (session (window a)) then
    mkApp (window a) (processing a) (sequential_mode a)
      (stop_preselection a) (waiting_for_resume_reference a) true
      (paused_frame_index a)
  else a.

(** [stop_photometry_processing()], the command of the stop button.  The
    files that the last branch saves are not part of the state. *)
Definition stop_photometry_processing (a : App) : App :=
  let s := session (window a) in
  let running :=
    processing a || batch_processing_mode s || preselection_mode (window a)
  in
  if negb (processing a) && negb (batch_processing_mode s)
     && negb (preselection_mode (window a))
  then a
  else if paused s then resume_from_button a
  else if running then pause_processing a
  else on_session (fun s => set_paused false (set_stop_processing true s)) a.

(** [load_first_image()] *)
Definition load_first_image (s : Session) : Session :=
  match fits_files s with
  | [] => s
  | first_file :: _ =>
      match decoded first_file with
      | Some d => set_current_image d s
      | None => s
      end
  end.

(** [finish_preselection_phase()]; the file that it saves when there are
    positions is that of [auto_save_star_positions]. *)
Definition finish_preselection_phase (a : App) : App :=
  let a1 := set_preselection_mode false a in
  match preselected_positions (session (window a1)) with
  | [] => on_session load_first_image a1
  | _ :: _ => a1
  end.

(** The loop [for i in range(len(l) - 1, -1, -1)] that looks for the most
    recent position that is not [None]. *)
Definition most_recent_position (l : list (option Position))
    : option Position :=
  match
    find (fun p => match p with Some _ => true | None => false end) (rev l)
  with
  | Some p => p
  | None => None
  end.

(** [while len(l) <= k: l.append(None)] and [l[k] = pos] *)
Definition store_position (k : nat) (pos : Position) (s : Session)
    : Session :=
  set_preselected_positions
    (list_set k (Some pos) (pad_to k (preselected_positions s))) s.

(** Where the pre-selection stands when the methods have returned and the
    callbacks that they scheduled have run: a frame is shown and the
    window waits for the user, or [finish_preselection_phase] has been
    called. *)
Inductive PreselectionStep : Type :=
| Showing (a : App)
| PhaseFinished (a : App).

Definition app_of (o : PreselectionStep) : App :=
  match o with
  | Showing a => a
  | PhaseFinished a => a
  end.

(** [load_frame_for_preselection(frame_index)], together with the
    callbacks that it schedules with [root.after]: the next call of
    itself for a frame that has a position already, and
    [advance_to_next_preselection_frame] after a frame was tracked.  Every
    callback is taken to run before the next action of the user; [fuel]
    bounds the number of frames that are loaded in a row. *)
Fixpoint load_frame_for_preselection (lib : Library) (fuel : nat) (a : App)
    (frame_index : nat) : PreselectionStep :=
  match fuel with
  | O => Showing a
  | S fuel' =>
      let s := session (window a) in
      if (length (fits_files s) <=? frame_index)%nat
      then PhaseFinished (finish_preselection_phase a)
      else if (frame_index <? length (preselected_positions s))%nat
      then
        load_frame_for_preselection lib fuel'
          (on_session (set_current_frame_index (frame_index + 1)) a)
          (frame_index + 1)
      else
        match option_map decoded (nth_error (fits_files s) frame_index) with
        | Some (Some d) =>
            let a1 := on_session (set_current_image d) a in
            let s1 := session (window a1) in
            if tracking_enabled s1 && (0 <? frame_index)%nat
               && (0 <? length (preselected_positions s1))%nat
               && negb (stop_preselection a1) && negb (paused s1)
            then
              match most_recent_position (preselected_positions s1) with
              | Some prev_pos =>
                  let (t, tracked_pos) :=
                    track_star_position lib (tracker s1)
                      (tracking_data_of d) prev_pos (search_radius s1) in
                  let a2 :=
                    set_selected_star_pos (Some tracked_pos)
                      (on_session
                         (fun s => store_position frame_index tracked_pos
                                     (set_tracker t s)) a1) in
                  if preselection_paused (window a2) then Showing a2
                  else
                    let next :=
                      (current_frame_index (session (window a2)) + 1)%nat
                    in
                    load_frame_for_preselection lib fuel'
                      (on_session (set_current_frame_index next) a2) next
              | None => Showing a1
              end
            else Showing a1
        | _ =>
            PhaseFinished
              (finish_preselection_phase
                 (log_load_error (frame_index + 1) a))
        end
  end.

(** [advance_to_next_preselection_frame()] *)
Definition advance_to_next_preselection_frame (lib : Library) (fuel : nat)
    (a : App) : PreselectionStep :=
  if preselection_paused (window a) then Showing a
  else
    let next := (current_frame_index (session (window a)) + 1)%nat in
    load_frame_for_preselection lib fuel
      (on_session (set_current_frame_index next) a) next.

(** [set_resume_reference_point(x, y)]: the click is refined by the
    tracker whenever a frame is loaded. *)
Definition set_resume_reference_point (lib : Library) (fuel : nat)
    (a : App) (x y : R) : PreselectionStep :=
  let s := session (window a) in
  let (t, refined_pos) :=
    match current_image_grayscale s with
    | Some tracking_data =>
        track_star_position lib (tracker s) tracking_data (x, y)
          (search_radius s)
    | None => (tracker s, (x, y))
    end in
  let a1 :=
    mkApp (window a) (processing a) (sequential_mode a)
      (stop_preselection a) false (waiting_for_resume_click a)
      (paused_frame_index a) in
  advance_to_next_preselection_frame lib fuel
    (set_selected_star_pos (Some refined_pos)
       (on_session
          (fun s => store_position (current_frame_index s) refined_pos
                      (set_tracker t s)) a1)).

(** [on_preselection_click(event)] for a click at [(x, y)] inside the
    axes; [right_click] is [event.button == 3]. *)
Definition on_preselection_click (lib : Library) (fuel : nat) (a : App)
    (x y : R) (right_click : bool) : PreselectionStep :=
  let s := session (window a) in
  if negb (preselection_mode (window a)) then Showing a
  else if preselection_paused (window a) then
    Showing
      (set_selected_star_pos
         (if right_click then None
          else Some (snd (refine_click lib s x y)))
         (on_session
            (fun s =>
               update_preselection_position_during_pause lib s x y
                 right_click) a))
  else if waiting_for_resume_reference a then
    set_resume_reference_point lib fuel a x y
  else
    let (t, star_pos) := refine_click lib s x y in
    advance_to_next_preselection_frame lib fuel
      (on_session
         (fun s => store_position (current_frame_index s) star_pos
                     (set_tracker t s)) a).

(** [start_preselection_mode()]; [validated_name] is the star name that
    [validate_star_name_for_processing] settles on, [None] when the user
    cancels its dialog. *)
Definition start_preselection_mode (lib : Library) (fuel : nat) (a : App)
    (validated_name : option String.string) : PreselectionStep :=
  match fits_files (session (window a)), selected_star_pos (window a),
        validated_name with
  | _ :: _, Some _, Some name =>
      let s := session (window a) in
      let s1 :=
        mkSession (fits_files s) name (aperture_params s)
          (tracking_enabled s) (search_radius s) (stop_processing s)
          (paused s) (paused_tracking_mode s) (batch_processing_mode s)
          0 (current_image_grayscale s) (current_image_rgb s)
          (frame_positions s) [] [] empty_tracker (status_log s) in
      let a1 :=
        mkApp
          (mkWindow s1 true (preselection_paused (window a))
             (selected_star_pos (window a)) (load_errors (window a)))
          (processing a) (sequential_mode a) false
          (waiting_for_resume_reference a) (waiting_for_resume_click a)
          (paused_frame_index a) in
      load_frame_for_preselection lib fuel a1 0
  | _, _, _ => Showing a
  end.

(** The clicks of a user who clicks once on every frame that is shown. *)
Definition click_all (lib : Library) (fuel : nat) (o : PreselectionStep)
    (clicks : list Position) : PreselectionStep :=
  fold_left
    (fun o c =>
       on_preselection_click lib fuel (app_of o) (fst c) (snd c) false)
    clicks o.

(** A window on three loaded frames with a star selected. *)
Definition idle_app (tracking : bool) : App :=
  mkApp
    (mkWindow
       (mkSession [good_file "a.fit"; good_file "b.fit"; good_file "c.fit"]
          "star" default_aperture_params tracking 25 false false None
          false 0 (Some dark_plane) None [] [] [] empty_tracker [])
       false false (Some (10, 10)) [])
    false false false false false None.

(** A pre-selection with auto-tracking, paused on frame 1 of three frames
    with the positions of frames 0 and 1 stored. *)
Definition paused_tracking_app : App :=
  mkApp
    (mkWindow
       (mkSession [good_file "a.fit"; good_file "b.fit"; good_file "c.fit"]
          "star" default_aperture_params true 25 false false None
          false 1 (Some dark_plane) None []
          [Some (10, 10); Some (10, 10)] []
          (history_of [(10, 10); (10, 10)]) [])
       true true (Some (10, 10)) [])
    false false false false false None.

(** [pause_preselection()] *)
Definition pause_preselection (a : App) : App :=
  set_window
    (mkWindow (session (window a)) (preselection_mode (window a)) true
       (selected_star_pos (window a)) (load_errors (window a))) a.

(** [toggle_preselection_pause()], the command of the pause button of the
    pre-selection; its resuming branch is the method
    [resume_preselection()], whose loop over the positions is the function
    [resume_preselection] above. *)
Definition toggle_preselection_pause (lib : Library) (fuel : nat) (a : App)
    : PreselectionStep :=
  if negb (preselection_mode (window a)) then Showing a
  else if preselection_paused (window a) then
    let a1 :=
      set_window
        (mkWindow (resume_preselection (session (window a)))
           (preselection_mode (window a)) false
           (selected_star_pos (window a)) (load_errors (window a))) a in
    if tracking_enabled (session (window a1)) then
      Showing
        (mkApp (window a1) (processing a1) (sequential_mode a1)
           (stop_preselection a1) true (waiting_for_resume_click a1)
           (paused_frame_index a1))
    else
      load_frame_for_preselection lib fuel a1
        (current_frame_index (session (window a1)))
  else Showing (pause_preselection a).

(** * Part II: properties *)

(** ** Facts about lists *)

Section ListFacts.
Context {A : Type}.

Lemma lastn_length (n : nat) (l : list A) :
  length (lastn n l) = Nat.min n (length l).
Proof. unfold lastn. rewrite length_skipn. lia. Qed.

Lemma lastn_all (n : nat) (l : list A) :
  (length l <= n)%nat -> lastn n l = l.
Proof.
  intros H. unfold lastn.
  replace (length l - n)%nat with 0%nat by lia. reflexivity.
Qed.

Lemma skipn_snoc (k : nat) (l : list A) (x : A) :
  (k <= length l)%nat -> skipn k (l ++ [x]) = skipn k l ++ [x].
Proof.
  intros H. rewrite skipn_app.
  replace (k - length l)%nat with 0%nat by lia. reflexivity.
Qed.

Lemma tl_skipn (k : nat) (l : list A) : tl (skipn k l) = skipn (S k) l.
Proof.
  revert l. induction k as [|k IH]; intros [|a l]; simpl; auto.
Qed.

(** Appending to a window of the last [n] and evicting the oldest entry
    when it overflows gives the window of the extended list. *)
Lemma lastn_snoc (n : nat) (l : list A) (x : A) :
  (0 < n)%nat ->
  lastn n (l ++ [x]) =
    if (n <? length (lastn n l ++ [x]))%nat
    then tl (lastn n l ++ [x]) else lastn n l ++ [x].
Proof.
  intros Hn. rewrite length_app, lastn_length. simpl.
  unfold lastn. rewrite length_app. simpl.
  destruct (Nat.ltb_spec n (Nat.min n (length l) + 1)) as [H|H].
  - rewrite <- skipn_snoc by lia. rewrite tl_skipn. f_equal. lia.
  - rewrite <- skipn_snoc by lia. f_equal. lia.
Qed.

Lemma last_lastn (n : nat) (l : list A) (d : A) :
  (0 < n)%nat -> last (lastn n l) d = last l d.
Proof.
  intros Hn. unfold lastn.
  destruct l as [|a l] using rev_ind; [now destruct n|].
  rewrite length_app. simpl.
  rewrite skipn_snoc by lia. now rewrite !last_last.
Qed.

End ListFacts.

Lemma velocities_snoc (l : list Position) (p : Position) :
  velocities (l ++ [p]) =
    match l with
    | [] => []
    | _ => velocities l ++ [(fst p - fst (last l p), snd p - snd (last l p))]
    end.
Proof.
  induction l as [|a l IH]; [reflexivity|].
  destruct l as [|b l]; [reflexivity|].
  change (velocities ((a :: b :: l) ++ [p]))
    with ((fst b - fst a, snd b - snd a) :: velocities ((b :: l) ++ [p])).
  rewrite IH.
  change (velocities (a :: b :: l))
    with ((fst b - fst a, snd b - snd a) :: velocities (b :: l)).
  reflexivity.
Qed.

Lemma velocities_length (l : list Position) :
  length (velocities l) = (length l - 1)%nat.
Proof.
  induction l as [|a l IH]; [reflexivity|].
  destruct l as [|b l]; [reflexivity|].
  change (velocities (a :: b :: l))
    with ((fst b - fst a, snd b - snd a) :: velocities (b :: l)).
  simpl length in *. rewrite IH. lia.
Qed.

Lemma nth_penultimate (l : list Position) (p d : Position) :
  l <> [] -> nth (length (l ++ [p]) - 2) (l ++ [p]) d = last l d.
Proof.
  intros Hl. destruct l as [|a l] using rev_ind; [congruence|].
  rewrite last_last, !length_app. simpl.
  rewrite app_nth1 by (rewrite length_app; simpl; lia).
  rewrite app_nth2 by lia.
  replace (length l + 1 + 1 - 2 - length l)%nat with 0%nat by lia.
  reflexivity.
Qed.

(** ** The bounded histories (claim C9) *)

Lemma evict_lastn {A} (l : list A) (x : A) :
  evict (lastn tracking_history_size l ++ [x])
  = lastn tracking_history_size (l ++ [x]).
Proof.
  unfold evict. symmetry. apply lastn_snoc. unfold tracking_history_size. lia.
Qed.

(** Histories of equal length are cut together. *)
Lemma joint_evict {A B} (l : list A) (l' : list B) :
  length l = length l' ->
  (if (tracking_history_size <? length l)%nat then tl l' else l')
  = evict l'.
Proof. intros H. unfold evict. now rewrite H. Qed.

Lemma push_all_snoc (t : Tracker) (ps : list (Position * R)) pc :
  push_all t (ps ++ [pc])
  = _update_tracking_history (push_all t ps) (fst pc) (snd pc).
Proof. unfold push_all. now rewrite fold_left_app. Qed.

Lemma lastn_nil_inv {A} (n : nat) (l : list A) :
  (0 < n)%nat -> lastn n l = [] -> l = [].
Proof.
  intros Hn H. apply length_zero_iff_nil.
  apply (f_equal (@length A)) in H. rewrite lastn_length in H. simpl in H. lia.
Qed.

(** The three histories after any pushes from the empty state are the
    windows of the last five pushed positions, of their frame-to-frame
    differences and of the last five confidences. *)
Lemma push_all_windows (ps : list (Position * R)) :
  let t := push_all empty_tracker ps in
  position_history t = lastn tracking_history_size (map fst ps)
  /\ tracking_confidence t = lastn tracking_history_size (map snd ps)
  /\ velocity_history t
     = lastn tracking_history_size (velocities (map fst ps)).
Proof.
  induction ps as [|[p c] ps IH] using rev_ind; [now cbv|].
  cbv zeta in *. destruct IH as (Hp & Hc & Hv).
  rewrite push_all_snoc, !map_app. simpl fst; simpl snd; simpl map.
  unfold _update_tracking_history.
  cbn [position_history velocity_history tracking_confidence].
  rewrite Hp, Hc, Hv.
  rewrite (joint_evict (lastn tracking_history_size (map fst ps) ++ [p])
             (lastn tracking_history_size (map snd ps) ++ [c]))
    by (rewrite !length_app, !lastn_length, !length_map; reflexivity).
  fold (evict (lastn tracking_history_size (map fst ps) ++ [p])).
  rewrite !evict_lastn. repeat split.
  rewrite velocities_snoc.
  destruct (map fst ps) as [|q qs] eqn:E; [reflexivity|].
  assert (Hne : lastn tracking_history_size (q :: qs) <> []).
  { intros H. apply lastn_nil_inv in H; [discriminate|].
    unfold tracking_history_size; lia. }
  replace (2 <=? length (lastn tracking_history_size (q :: qs) ++ [p]))%nat
    with true.
  2:{ symmetry. apply Nat.leb_le. rewrite length_app. simpl.
      destruct (lastn tracking_history_size (q :: qs)); [congruence|].
      simpl. lia. }
  rewrite nth_penultimate by exact Hne.
  rewrite last_lastn by (unfold tracking_history_size; lia).
  apply evict_lastn.
Qed.

(** C9.  After any finite sequence of pushes on the tracking history (from
    the empty histories a session starts with), the position, confidence and
    velocity histories hold at most 5 entries each, and they are exactly the
    most recent entries in the order they were pushed: the entries dropped
    are the oldest ones. *)
Theorem tracking_history_bounded_fifo (ps : list (Position * R)) :
  let t := push_all empty_tracker ps in
  (length (position_history t) <= 5)%nat
  /\ (length (tracking_confidence t) <= 5)%nat
  /\ (length (velocity_history t) <= 5)%nat
  /\ position_history t = lastn 5 (map fst ps)
  /\ tracking_confidence t = lastn 5 (map snd ps)
  /\ velocity_history t = lastn 5 (velocities (map fst ps)).
Proof.
  cbv zeta. destruct (push_all_windows ps) as (Hp & Hc & Hv).
  rewrite Hp, Hc, Hv. unfold tracking_history_size.
  rewrite !lastn_length. repeat split; lia.
Qed.

Lemma ten_pushes_windows :
  position_history (push_all empty_tracker ten_pushes)
  = [(INR 5, 0); (INR 6, 0); (INR 7, 0); (INR 8, 0); (INR 9, 0)]
  /\ length (velocity_history (push_all empty_tracker ten_pushes)) = 5%nat.
Proof.
  destruct (push_all_windows ten_pushes) as (Hp & _ & Hv). cbv zeta in *.
  rewrite Hp, Hv. split; reflexivity.
Qed.

(** X5.  The bound does not depend on starting from the empty histories,
    but it does depend on the position and confidence histories being in
    step: a push keeps position and confidence histories of equal length
    at most five, and a velocity history of at most five entries, within
    the bound.  The confidence history is cut only when the position
    history overflows: while fewer than five positions are recorded, a push
    appends the confidence and drops none. *)
Lemma update_tracking_history_bound (t : Tracker) p c :
  length (position_history t) = length (tracking_confidence t) ->
  (length (position_history t) <= 5)%nat ->
  (length (velocity_history t) <= 5)%nat ->
  let t' := _update_tracking_history t p c in
  (length (position_history t') <= 5)%nat
  /\ (length (tracking_confidence t') <= 5)%nat
  /\ (length (velocity_history t') <= 5)%nat
  /\ ((length (position_history t) < 5)%nat ->
      tracking_confidence t' = tracking_confidence t ++ [c]).
Proof.
  intros Heq Hp Hv. cbv zeta.
  assert (E : forall A (l : list A) x,
             (length l <= 5)%nat -> (length (evict (l ++ [x])) <= 5)%nat).
  { intros A l x H. unfold evict, tracking_history_size.
    destruct (Nat.ltb_spec 5 (length (l ++ [x]))) as [G|G]; [|exact G].
    rewrite length_app in G. simpl in G.
    destruct l; simpl in *; [lia|]. rewrite length_app. simpl. lia. }
  unfold _update_tracking_history.
  cbn [position_history velocity_history tracking_confidence].
  rewrite (joint_evict (position_history t ++ [p])
             (tracking_confidence t ++ [c]))
    by (rewrite !length_app, Heq; reflexivity).
  fold (evict (position_history t ++ [p])).
  split; [now apply E|]. split; [apply E; lia|]. split.
  - destruct (2 <=? _)%nat; [now apply E|].
    unfold evict, tracking_history_size.
    destruct (Nat.ltb_spec 5 (length (velocity_history t))); lia.
  - intros Hlt. unfold evict, tracking_history_size.
    replace (5 <? length (tracking_confidence t ++ [c]))%nat with false;
      [reflexivity|].
    symmetry. apply Nat.ltb_ge. rewrite length_app, <- Heq. simpl. lia.
Qed.

(** ** Evaluating [int], [sqrt] and the statistics *)

Lemma py_int_IZR (z : Z) : py_int (IZR z) = z.
Proof.
  unfold py_int. destruct (Rle_dec 0 (IZR z)); [apply ZfloorZ|].
  unfold Zceil. rewrite <- opp_IZR, ZfloorZ. lia.
Qed.

Lemma py_int_floor (z : Z) (x : R) :
  0 <= x -> IZR z <= x < IZR z + 1 -> py_int x = z.
Proof.
  intros H0 H. unfold py_int. destruct (Rle_dec 0 x); [|contradiction].
  now apply Zfloor_eq.
Qed.

Lemma sqrt_of_square (x y : R) : 0 <= y -> x = y * y -> sqrt x = y.
Proof. intros Hy ->. now apply sqrt_square. Qed.

Lemma swinging_history_std :
  recent_x_std swinging_history = 3 /\ recent_y_std swinging_history = 4.
Proof.
  unfold recent_x_std, recent_y_std, np_std, np_mean, sum_list. simpl.
  split; apply sqrt_of_square; try lra; field.
Qed.

Lemma one_step_history_std :
  recent_x_std one_step_history = 2 / 5 /\ recent_y_std one_step_history = 0.
Proof.
  unfold recent_x_std, recent_y_std, np_std, np_mean, sum_list. simpl.
  split; apply sqrt_of_square; try lra; field.
Qed.

(** ** The adaptive search radius (claim C7) *)

(** C7, as the code has it.  With fewer than 3 recorded positions the
    adaptive search radius is the base radius.  Otherwise it is
    [max(base, min(int(base + 2 * sqrt(std_x^2 + std_y^2)), 2 * base))] over
    the last 5 recorded positions: the sum is truncated to an integer before
    it is clamped.  For a base of 25 and standard deviations 3 and 4 the
    radius is 35, and for a non-negative base the radius lies between the
    base and twice the base. *)
Theorem adaptive_search_radius_truncates (t : Tracker) (base : Z) :
  let r := _calculate_adaptive_search_radius t base in
  let variance := sqrt (recent_x_std t ^ 2 + recent_y_std t ^ 2) in
  ((length (position_history t) < 3)%nat -> r = base)
  /\ ((3 <= length (position_history t))%nat ->
      r = Z.max base (Z.min (py_int (IZR base + 2 * variance)) (2 * base)))
  /\ ((3 <= length (position_history t))%nat ->
      recent_x_std t = 3 -> recent_y_std t = 4 -> base = 25%Z -> r = 35%Z)
  /\ ((0 <= base)%Z -> (base <= r <= 2 * base)%Z).
Proof.
  cbv zeta. unfold _calculate_adaptive_search_radius.
  destruct (Nat.ltb_spec (length (position_history t)) 3) as [H|H].
  - repeat split; try lia.
  - split; [lia|]. split; [intros _; f_equal; f_equal; lia|].
    split; [|lia].
    intros _ Hx Hy ->. rewrite Hx, Hy.
    replace (3 ^ 2 + 4 ^ 2) with (5 * 5) by ring.
    rewrite sqrt_square by lra.
    replace (25 + 2 * 5) with (IZR 35) by (simpl; lra).
    now rewrite py_int_IZR.
Qed.

Lemma adaptive_search_radius_truncates_witness :
  _calculate_adaptive_search_radius swinging_history 25 = 35%Z.
Proof.
  destruct swinging_history_std as [Hx Hy].
  apply (adaptive_search_radius_truncates swinging_history 25);
    [simpl; lia | exact Hx | exact Hy | reflexivity].
Defined.

(** With positions whose x-coordinates are 0, 0, 0, 0, 1 the real-valued
    clamp of the specification is 25.8, and the code returns 25. *)
Lemma adaptive_radius_not_real_valued :
  IZR (_calculate_adaptive_search_radius one_step_history 25)
  <> adaptive_radius_as_specified one_step_history 25.
Proof.
  destruct one_step_history_std as [Hx Hy].
  unfold _calculate_adaptive_search_radius, adaptive_radius_as_specified.
  change (length (position_history one_step_history) <? 3)%nat with false.
  cbv zeta iota. rewrite Hx, Hy.
  replace ((2 / 5) ^ 2 + 0 ^ 2) with ((2 / 5) * (2 / 5)) by field.
  rewrite sqrt_square by lra.
  rewrite (py_int_floor 25) by lra.
  change (Z.max 25 (Z.min 25 (25 * 2))) with 25%Z.
  unfold Rmax, Rmin.
  destruct (Rle_dec (25 + 2 * (2 / 5)) (2 * 25)); [|lra].
  destruct (Rle_dec 25 (25 + 2 * (2 / 5))); lra.
Qed.

(** ** Slices and thresholded planes *)

Lemma Forall_firstn {A} (P : A -> Prop) (n : nat) (l : list A) :
  Forall P l -> Forall P (firstn n l).
Proof.
  intros H. rewrite <- (firstn_skipn n l) in H.
  now apply Forall_app in H.
Qed.

Lemma Forall_skipn {A} (P : A -> Prop) (n : nat) (l : list A) :
  Forall P l -> Forall P (skipn n l).
Proof.
  intros H. rewrite <- (firstn_skipn n l) in H.
  now apply Forall_app in H.
Qed.

Lemma Forall_py_slice {A} (P : A -> Prop) (lo hi : Z) (l : list A) :
  Forall P l -> Forall P (py_slice lo hi l).
Proof. intros H. unfold py_slice. now apply Forall_firstn, Forall_skipn. Qed.

Lemma Forall_slice2 (P : R -> Prop) y_lo y_hi x_lo x_hi (a : PixelPlane) :
  Forall (Forall P) a -> Forall (Forall P) (slice2 y_lo y_hi x_lo x_hi a).
Proof.
  intros H. unfold slice2. apply Forall_map.
  apply Forall_py_slice.
  eapply Forall_impl; [|exact H]. intros row. apply Forall_py_slice.
Qed.

Lemma py_slice_empty {A} (lo hi : Z) (l : list A) :
  (slice_index (Z.of_nat (length l)) hi
   <= slice_index (Z.of_nat (length l)) lo)%Z ->
  py_slice lo hi l = [].
Proof.
  intros H. unfold py_slice.
  replace (Z.to_nat _) with 0%nat by lia. reflexivity.
Qed.

Lemma sum_list_zero (l : list R) : Forall (fun v => v = 0) l -> sum_list l = 0.
Proof. induction 1 as [|x l Hx _ IH]; simpl; [reflexivity|lra]. Qed.

(** A plane with no pixel above the threshold has no mass left after
    thresholding. *)
Lemma np_sum_above_threshold_zero (threshold : R) (a : PixelPlane) :
  Forall (Forall (fun v => v <= threshold)) a ->
  np_sum (above_threshold threshold a) = 0.
Proof.
  intros H. unfold np_sum, above_threshold. apply sum_list_zero.
  apply Forall_concat, Forall_map.
  eapply Forall_impl; [|exact H]. intros row Hrow. apply Forall_map.
  eapply Forall_impl; [|exact Hrow]. intros v Hv. cbv beta.
  unfold Rmax. destruct (Rle_dec (v - threshold) 0); lra.
Qed.

Lemma Rltb_irrefl (x : R) : Rltb x x = false.
Proof. unfold Rltb. destruct (Rlt_dec x x); [lra|reflexivity]. Qed.

Lemma center_of_mass_no_signal lib a threshold x0 y0 :
  Forall (Forall (fun v => v <= threshold)) a ->
  center_of_mass_candidate lib a threshold x0 y0 = None.
Proof.
  intros H. unfold center_of_mass_candidate.
  now rewrite np_sum_above_threshold_zero, Rltb_irrefl.
Qed.

Lemma peak_no_signal a threshold x0 y0 :
  Forall (Forall (fun v => v <= threshold)) a ->
  peak_candidate a threshold x0 y0 = None.
Proof.
  intros H. unfold peak_candidate. cbv zeta.
  rewrite np_sum_above_threshold_zero by now apply Forall_slice2.
  now rewrite Rltb_irrefl.
Qed.

(** ** Loss of tracking *)

(** When no pixel of the cutout is above the threshold (no signal that
    steps 5 and 6 could centroid) and the momentum prediction does not
    apply, the call returns the expected position unchanged after one push
    of it with confidence 1/10, or with no push at all when the cutout is
    empty. *)
Lemma track_lost_returns_expected (lib : Library) (t : Tracker)
    (image_data : PixelPlane) (expected_pos : Position) (base_radius : Z) :
  let sr := search_region t image_data expected_pos base_radius in
  let threshold := fst (_calculate_adaptive_threshold lib (cutout sr)) in
  Forall (Forall (fun v => v <= threshold)) (cutout sr) ->
  momentum_applies sr expected_pos = false ->
  track_star_position lib t image_data expected_pos base_radius
  = (if (size (cutout sr) =? 0)%nat then t
     else _update_tracking_history t expected_pos (1 / 10),
     expected_pos).
Proof.
  cbv zeta. intros Hquiet Hmom.
  unfold track_star_position.
  destruct (size _ =? 0)%nat; [reflexivity|].
  destruct (_calculate_adaptive_threshold lib _) as [threshold peak].
  simpl fst in Hquiet.
  rewrite center_of_mass_no_signal, peak_no_signal by exact Hquiet.
  now rewrite Hmom.
Qed.

(** Before two positions are recorded the search region is centred on the
    expected position, with the base radius. *)
Lemma search_region_fresh (t : Tracker) (a : PixelPlane) (ex ey r : Z) :
  (length (position_history t) < 2)%nat ->
  search_region t a (IZR ex, IZR ey) r
  = mkSearchRegion (IZR ex, IZR ey) r
      (Z.max 0 (ex - r)) (Z.max 0 (ey - r))
      (slice2 (Z.max 0 (ey - r)) (Z.min (shape0 a) (ey + r))
              (Z.max 0 (ex - r)) (Z.min (shape1 a) (ex + r)) a).
Proof.
  intros H. unfold search_region, _predict_position_with_momentum,
    _calculate_adaptive_search_radius.
  replace (length (position_history t) <? 2)%nat with true
    by (symmetry; apply Nat.ltb_lt; lia).
  replace (length (position_history t) <? 3)%nat with true
    by (symmetry; apply Nat.ltb_lt; lia).
  destruct (Position_eq_dec _ _) as [_|C]; [|congruence].
  cbn [fst snd]. now rewrite !py_int_IZR.
Qed.

Lemma momentum_idle (t : Tracker) (a : PixelPlane) (e : Position) (r : Z) :
  (length (position_history t) < 2)%nat ->
  momentum_applies (search_region t a e r) e = false.
Proof.
  intros H. unfold momentum_applies, search_region,
    _predict_position_with_momentum. cbn [predicted_pos].
  replace (length (position_history t) <? 2)%nat with true
    by (symmetry; apply Nat.ltb_lt; lia).
  destruct (Position_eq_dec e e); [reflexivity|congruence].
Qed.

Lemma np_std_singleton (x : R) : np_std [x] = 0.
Proof.
  unfold np_std, np_mean, sum_list. simpl.
  apply sqrt_of_square; [lra|field].
Qed.

Lemma one_pixel_threshold :
  fst (_calculate_adaptive_threshold example_library one_pixel_plane) = 7.
Proof.
  unfold _calculate_adaptive_threshold.
  cbn [sigma_clipped_stats example_library one_pixel_plane concat app].
  rewrite np_std_singleton.
  change (np_median one_pixel_plane) with 7.
  cbn [fst].
  repeat match goal with
         | |- context [if ?b then _ else _] => destruct b
         end; lra.
Qed.

Lemma track_lost_returns_expected_witness :
  track_star_position example_library empty_tracker one_pixel_plane (0, 0) 25
  = (_update_tracking_history empty_tracker (0, 0) (1 / 10), (0, 0)).
Proof.
  assert (Hfresh : (length (position_history empty_tracker) < 2)%nat)
    by (simpl; lia).
  pose proof (track_lost_returns_expected example_library empty_tracker
                one_pixel_plane (0, 0) 25) as E.
  cbv zeta in E. rewrite E.
  - now rewrite (search_region_fresh _ _ 0 0 25 Hfresh).
  - rewrite (search_region_fresh _ _ 0 0 25 Hfresh). cbn [cutout].
    change (slice2 _ _ _ _ one_pixel_plane) with one_pixel_plane.
    rewrite one_pixel_threshold.
    unfold one_pixel_plane.
    apply Forall_cons; [|apply Forall_nil].
    apply Forall_cons; [lra|apply Forall_nil].
  - now apply momentum_idle.
Defined.

(** ** Recording of the attempts (claim C5) *)

(** X2.  Whenever the cutout is not empty, the call makes exactly one push, of
    the position it returns, with one of the four confidences. *)
Lemma track_star_position_pushes_once (lib : Library) (t : Tracker)
    (image_data : PixelPlane) (expected_pos : Position) (base_radius : Z) :
  size (cutout (search_region t image_data expected_pos base_radius))
    <> 0%nat ->
  exists c, In c [8 / 10; 6 / 10; 3 / 10; 1 / 10]
    /\ track_star_position lib t image_data expected_pos base_radius
       = (_update_tracking_history t
            (snd (track_star_position lib t image_data expected_pos
                    base_radius)) c,
          snd (track_star_position lib t image_data expected_pos
                 base_radius)).
Proof.
  intros Hsize. unfold track_star_position.
  destruct (Nat.eqb_spec (size (cutout (search_region t image_data
              expected_pos base_radius))) 0) as [E|_]; [contradiction|].
  destruct (_calculate_adaptive_threshold lib _) as [threshold peak].
  repeat match goal with
         | |- context [match ?x with _ => _ end] => destruct x
         end; simpl; eauto 10.
Qed.

(** C5, at the input where the code departs from it.  An expected position
    (60, 60) outside a plane of 20 by 20 pixels leaves an empty cutout; the
    call returns the expected position and the histories are unchanged,
    whereas a push of any confidence would have changed them. *)
Theorem track_outside_frame_records_nothing (lib : Library) :
  track_star_position lib empty_tracker dark_plane (60, 60) 25
  = (empty_tracker, (60, 60))
  /\ (forall c, _update_tracking_history empty_tracker (60, 60) c
                <> empty_tracker).
Proof.
  split.
  - unfold track_star_position.
    rewrite (search_region_fresh _ _ 60 60 25) by (simpl; lia).
    cbn [cutout]. unfold slice2.
    rewrite (py_slice_empty _ _ dark_plane) by (vm_compute; discriminate).
    reflexivity.
  - intros c H. apply (f_equal tracking_confidence) in H. discriminate H.
Qed.

(** ** Disabled sky subtraction (claim C3) *)

Lemma Rltb_true (x y : R) : x < y -> Rltb x y = true.
Proof. intros H. unfold Rltb. destruct (Rlt_dec x y); [reflexivity|lra]. Qed.

Lemma Rltb_false (x y : R) : y <= x -> Rltb x y = false.
Proof. intros H. unfold Rltb. destruct (Rlt_dec x y); [lra|reflexivity]. Qed.

Lemma Rleb_true (x y : R) : x <= y -> Rleb x y = true.
Proof. intros H. unfold Rleb. destruct (Rle_dec x y); [reflexivity|lra]. Qed.

Lemma Rleb_false (x y : R) : y < x -> Rleb x y = false.
Proof. intros H. unfold Rleb. destruct (Rle_dec x y); [lra|reflexivity]. Qed.

(** X9.  On a grayscale plane, with a positive aperture radius and
    [inner_annulus >= outer_annulus], the measurement returns, the corrected
    flux is the raw flux and the sky values are zero. *)
Lemma gray_photometry_without_sky (lib : Library) (p : ApertureParams)
    (image_data : PixelPlane) (star_pos : Position) :
  0 < inner_radius p ->
  outer_annulus p <= inner_annulus p ->
  exists m,
    perform_aperture_photometry lib p image_data star_pos = Ok m
    /\ star_flux_corrected (gray_only m) = star_flux_raw (gray_only m)
    /\ sky_per_pixel (gray_only m) = 0
    /\ sky_std (gray_only m) = 0
    /\ sky_background_total (gray_only m) = 0.
Proof.
  intros Hr Hsky. destruct star_pos as [x y].
  unfold perform_aperture_photometry, CircularAperture.
  rewrite (Rltb_true _ _ Hr), (Rleb_true _ _ Hsky). simpl.
  eexists. split; [reflexivity|]. simpl. auto.
Qed.

(** C3, where the code departs from it.  On an RGB plane the annulus is
    built before anything else and without the test that the grayscale
    measurement makes: whenever [inner_annulus >= outer_annulus] the RGB
    measurement raises [ValueError], for every plane and position. *)
Theorem rgb_photometry_without_sky_raises (lib : Library)
    (p : ApertureParams) (rgb_data : PixelPlane * PixelPlane * PixelPlane)
    (gray_data : PixelPlane) (star_pos : Position) :
  outer_annulus p <= inner_annulus p ->
  perform_rgb_photometry lib p rgb_data gray_data star_pos = Raise ValueError.
Proof.
  intros Hsky. destruct star_pos as [x y], rgb_data as [[red green] blue].
  unfold perform_rgb_photometry, CircularAperture, CircularAnnulus.
  destruct (Rltb 0 (inner_radius p)); [|reflexivity]. simpl.
  destruct (Rltb 0 (inner_annulus p)); [|reflexivity].
  now rewrite (Rltb_false _ _ Hsky).
Qed.

Lemma rgb_photometry_without_sky_raises_witness :
  perform_rgb_photometry example_library (mkApertureParams 9 12 12)
    (dark_plane, dark_plane, dark_plane) dark_plane (10, 10)
  = Raise ValueError.
Proof.
  apply (rgb_photometry_without_sky_raises example_library
           (mkApertureParams 9 12 12)).
  simpl. lra.
Defined.

(** ** Sky subtraction (claim C8) *)

Lemma poisson_of_max (raw : R) : poisson_of raw = sqrt (Rmax raw 0).
Proof.
  unfold poisson_of, Rltb, Rmax.
  destruct (Rlt_dec 0 raw), (Rle_dec raw 0); try lra.
  - now rewrite Rabs_pos_eq by lra.
  - now rewrite sqrt_0.
Qed.

Lemma PI_bounds : 3.14159 < PI < 3.1416.
Proof.
  generalize (PI_2_3_7_ineq 2).
  unfold sum_f_R0, tg_alt, PI_2_3_7_tg, Ratan_seq.
  simpl. intros [Hlo Hhi]. split; lra.
Qed.

(** The grayscale measurement with sky subtraction, for an annulus whose
    summed area is a number: the background is the sky median times the
    summed aperture area that the library reports. *)
Lemma perform_aperture_photometry_with_sky (lib : Library)
    (p : ApertureParams) (image_data : PixelPlane) (star_pos : Position)
    (annulus_area : R) :
  0 < inner_radius p ->
  0 < inner_annulus p ->
  inner_annulus p < outer_annulus p ->
  annulus_sum_aper_area lib image_data star_pos
    (inner_annulus p) (outer_annulus p) = Some annulus_area ->
  let raw := aperture_sum lib image_data star_pos (inner_radius p) in
  let median := annulus_median lib image_data star_pos
                  (inner_annulus p) (outer_annulus p) in
  let background :=
    median * sum_aper_area lib image_data star_pos (inner_radius p) in
  perform_aperture_photometry lib p image_data star_pos
  = Ok (mkGrayPhotometry (fst star_pos) (snd star_pos)
          (mkChannel raw background median
             (annulus_std lib image_data star_pos
                (inner_annulus p) (outer_annulus p))
             (raw - background) (poisson_of raw))
          (PI * inner_radius p ^ 2)
          (IZR (py_int annulus_area))).
Proof.
  intros Hr Hin Hout Harea. destruct star_pos as [x y]. cbv zeta.
  unfold perform_aperture_photometry, CircularAperture, CircularAnnulus.
  rewrite (Rltb_true _ _ Hr), (Rltb_true _ _ Hin), (Rltb_true _ _ Hout).
  rewrite (Rleb_false _ _ Hout).
  cbn [bind r r_in r_out fst snd]. rewrite Harea. reflexivity.
Qed.

(** The grayscale measurement with sky subtraction, for an annulus whose
    summed area is not a number: [int] raises. *)
Lemma perform_aperture_photometry_off_plane (lib : Library)
    (p : ApertureParams) (image_data : PixelPlane) (star_pos : Position) :
  0 < inner_radius p ->
  0 < inner_annulus p ->
  inner_annulus p < outer_annulus p ->
  annulus_sum_aper_area lib image_data star_pos
    (inner_annulus p) (outer_annulus p) = None ->
  perform_aperture_photometry lib p image_data star_pos = Raise ValueError.
Proof.
  intros Hr Hin Hout Harea. destruct star_pos as [x y].
  unfold perform_aperture_photometry, CircularAperture, CircularAnnulus.
  rewrite (Rltb_true _ _ Hr), (Rltb_true _ _ Hin), (Rltb_true _ _ Hout).
  rewrite (Rleb_false _ _ Hout).
  cbn [bind r r_in r_out fst snd]. rewrite Harea. reflexivity.
Qed.

(** The RGB measurement with sky subtraction: every channel is measured by
    [measure_channel], with the analytic area of the aperture. *)
Lemma perform_rgb_photometry_with_sky (lib : Library) (p : ApertureParams)
    (red green blue gray_data : PixelPlane) (star_pos : Position) :
  0 < inner_radius p ->
  0 < inner_annulus p ->
  inner_annulus p < outer_annulus p ->
  let ap := mkAperture star_pos (inner_radius p) in
  let an := mkAnnulus star_pos (inner_annulus p) (outer_annulus p) in
  perform_rgb_photometry lib p (red, green, blue) gray_data star_pos
  = Ok (mkRGBPhotometry (fst star_pos) (snd star_pos)
          (area ap) (annulus_area an)
          (measure_channel lib red ap an)
          (measure_channel lib green ap an)
          (measure_channel lib blue ap an)
          (measure_channel lib gray_data ap an)).
Proof.
  intros Hr Hin Hout. destruct star_pos as [x y]. cbv zeta.
  unfold perform_rgb_photometry, CircularAperture, CircularAnnulus.
  rewrite (Rltb_true _ _ Hr), (Rltb_true _ _ Hin), (Rltb_true _ _ Hout).
  reflexivity.
Qed.

(** The figures of the worked example: a raw flux of 1000 and a background
    of 5 per pixel over the disk of radius 9. *)
Lemma worked_example_figures (c : Channel) :
  star_flux_raw c = 1000 ->
  sky_background_total c = 5 * (PI * 9 ^ 2) ->
  star_flux_corrected c = star_flux_raw c - sky_background_total c ->
  poisson_noise c = sqrt (Rmax (star_flux_raw c) 0) ->
  Rabs (sky_background_total c - 1272.35) < 0.01
  /\ Rabs (star_flux_corrected c - - 272.35) < 0.01
  /\ Rabs (poisson_noise c - 31.62) < 0.01.
Proof.
  intros Hraw Hbg Hcorr Hnoise. pose proof PI_bounds as [Hlo Hhi].
  rewrite Hnoise, Hcorr, Hbg, Hraw.
  assert (Hs : 31.62 < sqrt (Rmax 1000 0) < 31.63).
  { rewrite Rmax_left by lra. split.
    - rewrite <- (sqrt_square 31.62) by lra. apply sqrt_lt_1; lra.
    - rewrite <- (sqrt_square 31.63) by lra. apply sqrt_lt_1; lra. }
  repeat split; apply Rabs_def1; lra.
Qed.

Lemma measure_channel_analytic (lib : Library) (p : ApertureParams)
    (a : PixelPlane) (pos : Position) :
  analytic_background p
    (measure_channel lib a (mkAperture pos (inner_radius p))
       (mkAnnulus pos (inner_annulus p) (outer_annulus p))).
Proof.
  unfold analytic_background, measure_channel, area. simpl.
  repeat split. apply poisson_of_max.
Qed.

(** C8, as the code has it.  Let [0 < inner_radius] and
    [0 < inner_annulus < outer_annulus].  The grayscale measurement
    returns exactly when the summed area of the sky annulus is a number,
    that is, when the annulus meets the plane, and raises [ValueError]
    otherwise; the RGB measurement returns.  Every measurement that returns
    has [corrected_flux = raw_flux - background_total] and
    [poisson_noise = sqrt(max(raw_flux, 0))].  In the RGB measurement the
    background of every channel is the sky median times the analytic area
    [pi * inner_radius^2].  In the grayscale measurement it is the sky
    median times the summed aperture area reported by the photometry
    library, while the analytic area is reported as [aperture_area].  Where
    the background is [5 * pi * 9^2] and the raw flux 1000, the background
    is within 0.01 of 1272.35, the corrected flux of -272.35 and the noise
    of 31.62. *)
Theorem sky_subtraction_formulas (lib : Library) (p : ApertureParams)
    (red green blue gray_data : PixelPlane) (star_pos : Position) :
  0 < inner_radius p ->
  0 < inner_annulus p ->
  inner_annulus p < outer_annulus p ->
  (forall annulus_area,
     annulus_sum_aper_area lib gray_data star_pos
       (inner_annulus p) (outer_annulus p) = Some annulus_area ->
     exists m,
       perform_aperture_photometry lib p gray_data star_pos = Ok m
       /\ sky_background_total (gray_only m)
          = sky_per_pixel (gray_only m)
            * sum_aper_area lib gray_data star_pos (inner_radius p)
       /\ star_flux_corrected (gray_only m)
          = star_flux_raw (gray_only m) - sky_background_total (gray_only m)
       /\ poisson_noise (gray_only m)
          = sqrt (Rmax (star_flux_raw (gray_only m)) 0)
       /\ aperture_area m = PI * inner_radius p ^ 2
       /\ (sum_aper_area lib gray_data star_pos (inner_radius p)
             = PI * inner_radius p ^ 2 ->
           analytic_background p (gray_only m)))
  /\ (annulus_sum_aper_area lib gray_data star_pos
        (inner_annulus p) (outer_annulus p) = None ->
      perform_aperture_photometry lib p gray_data star_pos
      = Raise ValueError)
  /\ (exists m,
        perform_rgb_photometry lib p (red, green, blue) gray_data star_pos
        = Ok m
        /\ Forall (analytic_background p)
             [r_channel m; g_channel m; b_channel m; gray_channel m])
  /\ (forall c, analytic_background p c ->
        inner_radius p = 9 -> star_flux_raw c = 1000 ->
        sky_per_pixel c = 5 ->
        Rabs (sky_background_total c - 1272.35) < 0.01
        /\ Rabs (star_flux_corrected c - - 272.35) < 0.01
        /\ Rabs (poisson_noise c - 31.62) < 0.01).
Proof.
  intros Hr Hin Hout. split; [|split; [|split]].
  - intros annulus_area Harea. eexists. split.
    + apply (perform_aperture_photometry_with_sky lib p gray_data star_pos
               annulus_area); assumption.
    + cbn [gray_only aperture_area sky_background_total sky_per_pixel
           star_flux_corrected star_flux_raw poisson_noise].
      split; [reflexivity|]. split; [reflexivity|].
      split; [apply poisson_of_max|]. split; [reflexivity|].
      intros E. unfold analytic_background.
      cbn [sky_background_total sky_per_pixel star_flux_corrected
           star_flux_raw poisson_noise].
      rewrite E. repeat split. apply poisson_of_max.
  - now apply perform_aperture_photometry_off_plane.
  - eexists. split.
    + now apply perform_rgb_photometry_with_sky.
    + cbn [r_channel g_channel b_channel gray_channel].
      repeat apply Forall_cons; try apply Forall_nil;
        apply measure_channel_analytic.
  - intros c (Hbg & Hcorr & Hnoise) H9 Hraw Hsky.
    apply worked_example_figures; try assumption.
    now rewrite Hbg, Hsky, H9.
Qed.

Lemma sky_subtraction_formulas_witness :
  exists m,
    perform_rgb_photometry flat_library (mkApertureParams 9 1 2)
      (star_plane, star_plane, star_plane) star_plane (5, 5) = Ok m
    /\ star_flux_raw (r_channel m) = 1000
    /\ sky_per_pixel (r_channel m) = 5
    /\ Rabs (sky_background_total (r_channel m) - 1272.35) < 0.01
    /\ Rabs (star_flux_corrected (r_channel m) - - 272.35) < 0.01
    /\ Rabs (poisson_noise (r_channel m) - 31.62) < 0.01.
Proof.
  destruct (sky_subtraction_formulas flat_library (mkApertureParams 9 1 2)
              star_plane star_plane star_plane star_plane (5, 5))
    as (_ & _ & (m & Hm & Hall) & Hfig); try (simpl; lra).
  exists m. split; [exact Hm|].
  rewrite perform_rgb_photometry_with_sky in Hm by (simpl; lra).
  injection Hm as <-.
  assert (Hraw : np_sum star_plane = 1000)
    by (unfold np_sum, star_plane; cbn; lra).
  split; [exact Hraw|]. split; [reflexivity|].
  apply Hfig; [apply (Forall_inv Hall)|reflexivity|exact Hraw|reflexivity].
Defined.

(** On the flat plane of 10 by 10 pixels of value 5, the disk of radius 9
    around (5, 5) holds every pixel (the farthest pixel corner is 7.8
    pixels away), and the annulus from radius 1 to radius 2 lies within
    the plane.  The sky median is 5 and the summed aperture area is that of
    the 100 pixels: the background of the grayscale measurement is 500,
    not [5 * pi * 81]. *)
Lemma gray_background_not_analytic :
  exists m,
    perform_aperture_photometry flat_library (mkApertureParams 9 1 2)
      flat_plane (5, 5) = Ok m
    /\ sky_per_pixel (gray_only m) = 5
    /\ sky_background_total (gray_only m) = 500
    /\ sky_background_total (gray_only m)
       <> sky_per_pixel (gray_only m) * (PI * 9 ^ 2).
Proof.
  pose proof PI_bounds as [Hlo Hhi].
  assert (Harea : Rmin (PI * 9 ^ 2) (INR (size flat_plane)) = 100).
  { change (size flat_plane) with 100%nat.
    replace (INR 100) with 100 by (rewrite INR_IZR_INZ; reflexivity).
    apply Rmin_right. lra. }
  eexists. split.
  - apply (perform_aperture_photometry_with_sky flat_library
             (mkApertureParams 9 1 2) flat_plane (5, 5)
             (PI * (2 ^ 2 - 1 ^ 2))); try (simpl; lra).
    reflexivity.
  - cbn [gray_only sky_background_total sky_per_pixel inner_radius
         inner_annulus outer_annulus flat_library annulus_median
         sum_aper_area].
    change (hd 0 (concat flat_plane)) with 5.
    rewrite Harea. repeat split; lra.
Qed.

(** ** Batch processing *)

Lemma batch_stable_refl (s : Session) : batch_stable s s.
Proof. repeat split. Qed.

Lemma batch_stable_trans (s1 s2 s3 : Session) :
  batch_stable s1 s2 -> batch_stable s2 s3 -> batch_stable s1 s3.
Proof.
  unfold batch_stable. intros (?&?&?&?&?&?) (?&?&?&?&?&?).
  repeat split; congruence.
Qed.

Lemma batch_frame_result_stable (lib : Library) (s s' : Session) item :
  batch_stable s s' ->
  batch_frame_result lib s' item = batch_frame_result lib s item.
Proof.
  intros (Hn & Ha & Hp & _). destruct item as [i [f pos]].
  unfold batch_frame_result. now rewrite Hn, Ha, Hp.
Qed.

(** One frame of a batch: the result is the closed form, and the state
    changes in the histories and the log alone. *)
Lemma process_single_image_batch (lib : Library) (user : Reposition)
    (s : Session) (f : FitsFile) (pos : option Position) (i : nat) :
  batch_processing_mode s = true ->
  let (s', result) := process_single_image lib user s f pos i in
  result = batch_frame_result lib s (i, (f, pos))
  /\ batch_stable s s'
  /\ photometry_results s' = photometry_results s.
Proof.
  intros Hb. unfold process_single_image, batch_frame_result, locate.
  rewrite Hb.
  destruct (decoded f) as [d|]; [|now repeat split].
  destruct pos as [p|]; cbn [subscript bind].
  - destruct (i =? 0)%nat; cbn [bind].
    + destruct (measure lib (aperture_params s) d p); now repeat split.
    + destruct (index (preselected_positions s) 0) as [[first|]|e];
        cbn [subscript bind]; try now repeat split.
      destruct (measure lib (aperture_params s) d p); now repeat split.
  - destruct (i =? 0)%nat; now repeat split.
Qed.

(** A batch that is neither stopped nor paused runs over all its items,
    and appends the result of each frame that has one. *)
Lemma batch_loop_results (lib : Library) (user : Reposition) items :
  forall s,
    batch_processing_mode s = true ->
    stop_processing s = false ->
    paused s = false ->
    exists s',
      batch_loop lib user s items = Finished s'
      /\ batch_stable s s'
      /\ photometry_results s'
         = photometry_results s ++ results_of lib s items.
Proof.
  induction items as [|[i [f pos]] rest IH]; intros s Hb Hstop Hpause.
  - exists s. cbn. rewrite app_nil_r. auto using batch_stable_refl.
  - cbn [batch_loop]. rewrite Hstop, Hpause.
    pose proof (process_single_image_batch lib user s f pos i Hb) as Hstep.
    destruct (process_single_image lib user s f pos i) as [s1 result].
    destruct Hstep as (Hres & Hst & Hsame).
    set (s2 := match result with
               | Some r =>
                   set_photometry_results (photometry_results s1 ++ [r]) s1
               | None => s1
               end).
    assert (Hst2 : batch_stable s s2).
    { destruct result; [|exact Hst]. exact Hst. }
    destruct Hst2 as (Hn & Ha & Hp & Hb2 & Hs2 & Hp2) eqn:E. clear E.
    destruct (IH s2) as (s' & Hloop & Hst' & Hres'); try congruence.
    exists s'. split; [exact Hloop|]. split.
    + eapply batch_stable_trans; [|exact Hst']. repeat split; assumption.
    + rewrite Hres'. unfold results_of at 2. cbn [flat_map].
      fold (results_of lib s rest). rewrite <- Hres.
      replace (results_of lib s2 rest) with (results_of lib s rest).
      2:{ unfold results_of. apply flat_map_ext. intros item.
          rewrite (batch_frame_result_stable lib s s2);
            [reflexivity|repeat split; assumption]. }
      rewrite app_assoc. f_equal.
      subst s2. destruct result; cbn; [now rewrite Hsame|].
      now rewrite Hsame, app_nil_r.
Qed.

(** ** The items of a batch *)

Lemma in_combine_seq {A} (l : list A) :
  forall a n i x,
    In (i, x) (combine (seq a n) l) ->
    (a <= i)%nat /\ nth_error l (i - a) = Some x.
Proof.
  induction l as [|y l IH]; intros a n i x H.
  - destruct (seq a n); contradiction.
  - destruct n as [|n]; [contradiction|]. cbn in H. destruct H as [H|H].
    + injection H as <- <-. rewrite Nat.sub_diag. auto.
    + apply IH in H. destruct H as [Hle Hnth]. split; [lia|].
      replace (i - a)%nat with (S (i - S a)) by lia. exact Hnth.
Qed.

Lemma nth_error_combine {A B} (l : list A) (l' : list B) :
  forall i x y,
    nth_error (combine l l') i = Some (x, y) ->
    nth_error l i = Some x /\ nth_error l' i = Some y.
Proof.
  revert l'. induction l as [|a l IH]; intros [|b l'] [|i] x y H;
    try discriminate.
  - injection H as <- <-. auto.
  - cbn in *. now apply IH.
Qed.

Lemma batch_items_length (s : Session) :
  length (batch_items s)
  = Nat.min (length (fits_files s)) (length (preselected_positions s)).
Proof.
  unfold batch_items.
  rewrite !length_combine, length_seq, length_firstn. lia.
Qed.

(** An item of the batch is a file and the position stored at its index. *)
Lemma batch_items_in (s : Session) i f pos :
  In (i, (f, pos)) (batch_items s) ->
  (i < Nat.min (length (fits_files s))
               (length (preselected_positions s)))%nat
  /\ nth_error (fits_files s) i = Some f
  /\ nth_error (preselected_positions s) i = Some pos.
Proof.
  intros H. unfold batch_items in H. apply in_combine_seq in H.
  destruct H as [_ H]. rewrite Nat.sub_0_r in H.
  apply nth_error_combine in H. destruct H as [Hf Hp].
  rewrite nth_error_firstn in Hf.
  destruct (Nat.ltb_spec i (length (preselected_positions s)));
    [|discriminate].
  repeat split; try assumption.
  assert (i < length (fits_files s))%nat
    by (apply nth_error_Some; congruence).
  lia.
Qed.

Lemma results_of_in (lib : Library) (s : Session) items r :
  In r (results_of lib s items) <->
  exists item, In item items /\ batch_frame_result lib s item = Some r.
Proof.
  unfold results_of. rewrite in_flat_map. split.
  - intros (item & Hin & Hr). exists item. split; [exact Hin|].
    destruct (batch_frame_result lib s item); [|contradiction].
    destruct Hr as [->|[]]. reflexivity.
  - intros (item & Hin & Hr). exists item. split; [exact Hin|].
    rewrite Hr. now left.
Qed.

(** A result of a batch frame carries the index of the frame, the
    position stored for it, and its file could be decoded. *)
Lemma batch_frame_result_some (lib : Library) (s : Session) i f pos r :
  batch_frame_result lib s (i, (f, pos)) = Some r ->
  image_index r = i /\ pos = Some (tracked_position r)
  /\ decoded f <> None.
Proof.
  unfold batch_frame_result.
  destruct (decoded f) as [d|]; [|discriminate].
  destruct pos as [p|]; [|discriminate].
  destruct (if (i =? 0)%nat then _ else _); [|discriminate].
  destruct (measure lib (aperture_params s) d p); [|discriminate].
  intros H. injection H as <-. cbn. repeat split. discriminate.
Qed.

Lemma process_batch_photometry_results (lib : Library) (user : Reposition)
    (s : Session) :
  batch_processing_mode s = true ->
  stop_processing s = false ->
  paused s = false ->
  exists s',
    process_batch_photometry lib user s = Finished s'
    /\ photometry_results s'
       = photometry_results s ++ results_of lib s (batch_items s).
Proof.
  intros Hb Hstop Hpause.
  destruct (batch_loop_results lib user (batch_items s) s Hb Hstop Hpause)
    as (s' & Hloop & _ & Hres).
  exists (set_batch_processing_mode false s'). split.
  - unfold process_batch_photometry. now rewrite Hloop.
  - exact Hres.
Qed.

Lemma measure_gray_default (lib : Library) (a : PixelPlane) (p : Position)
    (annulus_area : R) :
  annulus_sum_aper_area lib a p 12 17 = Some annulus_area ->
  exists m, measure lib default_aperture_params (GrayData a) p
            = Ok (GrayResult m).
Proof.
  intros Harea. unfold measure.
  rewrite (perform_aperture_photometry_with_sky lib default_aperture_params
             a p annulus_area) by (try exact Harea; simpl; lra).
  eexists. reflexivity.
Qed.

(** ** The movement of a frame (claim C2) *)

(** X13.  In sequential mode the movement of a frame after the first is the
    distance from the position stored for the frame before it. *)
Lemma sequential_movement_from_previous (lib : Library) (s : Session)
    (star_pos prev_pos : Position) (f : FitsFile) (a : PixelPlane) phot :
  (0 < current_frame_index s)%nat ->
  (1 < length (frame_positions s))%nat ->
  nth_error (frame_positions s) (current_frame_index s - 1)
    = Some (Some prev_pos) ->
  nth_error (fits_files s) (current_frame_index s) = Some f ->
  current_image_grayscale s = Some a ->
  measure lib (aperture_params s)
    (match current_image_rgb s with
     | Some (red, green, blue) => RGBData red green blue
     | None => GrayData a
     end) star_pos = Ok phot ->
  exists r,
    photometry_results (process_current_frame lib s star_pos)
    = photometry_results s ++ [r]
    /\ image_index r = current_frame_index s
    /\ tracked_position r = star_pos
    /\ movement_pixels r = distance star_pos prev_pos.
Proof.
  intros Hi Hlen Hprev Hf Hgray Hphot. unfold process_current_frame, index.
  rewrite Hf, Hgray. cbn [bind subscript]. rewrite Hphot. cbn [bind].
  replace (0 <? current_frame_index s)%nat with true
    by (symmetry; now apply Nat.ltb_lt).
  replace (1 <? length (frame_positions s))%nat with true
    by (symmetry; now apply Nat.ltb_lt).
  cbn [andb]. rewrite Hprev. cbn. eexists. repeat split.
Qed.

(** X14.  In batch mode the movement of a frame after the first is the distance
    from the first stored position. *)
Lemma batch_movement_from_first (lib : Library) (s : Session) i f pos r :
  (0 < i)%nat ->
  batch_frame_result lib s (i, (f, pos)) = Some r ->
  exists first,
    nth_error (preselected_positions s) 0 = Some (Some first)
    /\ movement_pixels r = distance (tracked_position r) first.
Proof.
  intros Hi. unfold batch_frame_result, index.
  destruct (decoded f) as [d|]; [|discriminate].
  destruct pos as [p|]; [|discriminate].
  replace (i =? 0)%nat with false by (symmetry; apply Nat.eqb_neq; lia).
  destruct (nth_error (preselected_positions s) 0) as [[first|]|];
    cbn [bind subscript]; try discriminate.
  destruct (measure lib (aperture_params s) d p); [|discriminate].
  intros H. injection H as <-. exists first. auto.
Qed.

(** C2, at the input where the code departs from it.  In a batch over the
    positions (0, 0), (3, 4), (6, 8) the result of frame 2 has a movement
    of 10 pixels, the distance from the position of frame 0; the distance
    from the position of frame 1 is 5. *)
Theorem batch_movement_not_from_previous :
  exists r,
    snd (process_single_image example_library nobody drift_session
           (good_file "c.fit") (Some (6, 8)) 2) = Some r
    /\ tracked_position r = (6, 8)
    /\ movement_pixels r = 10
    /\ distance (6, 8) (3, 4) = 5.
Proof.
  destruct (measure_gray_default example_library dark_plane (6, 8) _ eq_refl)
    as [m Hm].
  unfold process_single_image, locate.
  cbn [decoded good_file batch_processing_mode drift_session batch_session
       preselected_positions index nth_error subscript bind Nat.eqb
       aperture_params].
  rewrite Hm. eexists. split; [reflexivity|]. cbn. split; [reflexivity|].
  unfold distance. cbn [fst snd].
  split; apply sqrt_of_square; lra.
Qed.

(** ** The frames of a batch (claim C10) *)

(** One frame of a batch leaves exactly one trace: its record, which the
    loop appends, or one failure message in the log. *)
Lemma process_single_image_batch_log (lib : Library) (user : Reposition)
    (s : Session) (f : FitsFile) (pos : option Position) (i : nat) :
  batch_processing_mode s = true ->
  let (s', result) := process_single_image lib user s f pos i in
  match result with
  | Some _ => status_log s' = status_log s
  | None =>
      exists e,
        status_log s' = status_log s ++ [ErrorProcessing (filename f) e]
  end.
Proof.
  intros Hb. unfold process_single_image, locate. rewrite Hb.
  destruct (decoded f) as [d|]; [|now exists OSError].
  destruct pos as [p|]; cbn [subscript bind].
  - destruct (i =? 0)%nat; cbn [bind].
    + destruct (measure lib (aperture_params s) d p) as [phot|e];
        [reflexivity|now exists e].
    + destruct (index (preselected_positions s) 0) as [[first|]|e];
        cbn [subscript bind]; try (eexists; reflexivity).
      destruct (measure lib (aperture_params s) d p) as [phot|e];
        [reflexivity|now exists e].
  - destruct (i =? 0)%nat; now exists TypeError.
Qed.

Lemma process_single_image_batch_result (lib : Library) (user : Reposition)
    (s : Session) (f : FitsFile) (pos : option Position) (i : nat) :
  batch_processing_mode s = true ->
  snd (process_single_image lib user s f pos i)
  = batch_frame_result lib s (i, (f, pos)).
Proof.
  intros Hb.
  pose proof (process_single_image_batch lib user s f pos i Hb) as H.
  destruct (process_single_image lib user s f pos i) as [s' result].
  apply H.
Qed.

(** The failure messages of a batch: one for each frame without a record,
    and no others. *)
Lemma batch_loop_log (lib : Library) (user : Reposition) items :
  forall s,
    batch_processing_mode s = true ->
    stop_processing s = false ->
    paused s = false ->
    exists s' errors,
      batch_loop lib user s items = Finished s'
      /\ status_log s' = status_log s ++ errors
      /\ (length (results_of lib s items) + length errors
          = length items)%nat
      /\ (forall i f pos,
            In (i, (f, pos)) items ->
            batch_frame_result lib s (i, (f, pos)) = None ->
            exists e, In (ErrorProcessing (filename f) e) errors)
      /\ Forall (fun m =>
           exists i f pos e,
             In (i, (f, pos)) items
             /\ batch_frame_result lib s (i, (f, pos)) = None
             /\ m = ErrorProcessing (filename f) e) errors.
Proof.
  induction items as [|[i [f pos]] rest IH]; intros s Hb Hstop Hpause.
  - exists s, []. cbn. rewrite app_nil_r.
    split; [reflexivity|]. split; [reflexivity|]. split; [reflexivity|].
    split; [intros ? ? ? []|constructor].
  - cbn [batch_loop]. rewrite Hstop, Hpause.
    pose proof (process_single_image_batch lib user s f pos i Hb) as Hstep.
    pose proof (process_single_image_batch_log lib user s f pos i Hb) as Hlog.
    destruct (process_single_image lib user s f pos i) as [s1 result].
    destruct Hstep as (Hres & Hst & Hsame).
    set (s2 := match result with
               | Some r =>
                   set_photometry_results (photometry_results s1 ++ [r]) s1
               | None => s1
               end).
    assert (Hst2 : batch_stable s s2).
    { destruct result; [|exact Hst]. exact Hst. }
    assert (Hlog2 : status_log s2 = status_log s1).
    { subst s2. now destruct result. }
    assert (Hsame2 : forall item,
               batch_frame_result lib s2 item = batch_frame_result lib s item).
    { intros item. now apply batch_frame_result_stable. }
    destruct Hst2 as (Hn & Ha & Hp & Hb2 & Hs2 & Hp2).
    destruct (IH s2) as (s' & errors & Hloop & Herr & Hcount & Hnone & Hall);
      try congruence.
    replace (results_of lib s2 rest) with (results_of lib s rest) in Hcount
      by (unfold results_of; apply flat_map_ext; intros item;
          now rewrite Hsame2).
    unfold results_of at 1. cbn [flat_map]. fold (results_of lib s rest).
    rewrite <- Hres.
    assert (Hrest : Forall (fun m =>
              exists i0 f0 pos0 e,
                In (i0, (f0, pos0)) ((i, (f, pos)) :: rest)
                /\ batch_frame_result lib s (i0, (f0, pos0)) = None
                /\ m = ErrorProcessing (filename f0) e) errors).
    { eapply Forall_impl; [|exact Hall].
      intros m (i0 & f0 & pos0 & e & Hin & Hr & ->).
      exists i0, f0, pos0, e. rewrite Hsame2 in Hr.
      split; [now right|]. now split. }
    destruct result as [r|].
    + exists s', errors. split; [exact Hloop|]. split; [congruence|].
      split; [cbn [length app]; lia|]. split; [|exact Hrest].
      intros i0 f0 pos0 [Hin|Hin] Hr.
      * injection Hin as <- <- <-. congruence.
      * apply (Hnone i0 f0 pos0 Hin). now rewrite Hsame2.
    + destruct Hlog as [e He].
      exists s', (ErrorProcessing (filename f) e :: errors).
      split; [exact Hloop|]. split.
      { rewrite Herr, Hlog2, He, <- app_assoc. reflexivity. }
      split; [cbn [length app]; lia|]. split.
      * intros i0 f0 pos0 [Hin|Hin] Hr.
        -- injection Hin as <- <- <-. exists e. now left.
        -- destruct (Hnone i0 f0 pos0 Hin) as [e0 He0];
             [now rewrite Hsame2|].
           exists e0. now right.
      * constructor; [|exact Hrest].
        exists i, f, pos, e. split; [now left|]. now split.
Qed.

Lemma nth_error_combine_some {A B} (l : list A) (l' : list B) :
  forall i x y,
    nth_error l i = Some x -> nth_error l' i = Some y ->
    nth_error (combine l l') i = Some (x, y).
Proof.
  revert l'. induction l as [|a l IH]; intros [|b l'] [|i] x y Hx Hy;
    try discriminate.
  - injection Hx as <-. injection Hy as <-. reflexivity.
  - cbn in *. now apply IH.
Qed.

Lemma nth_error_seq_some (n i : nat) :
  (i < n)%nat -> nth_error (seq 0 n) i = Some i.
Proof.
  intros H. rewrite (nth_error_nth' (seq 0 n) 0%nat) by now rewrite length_seq.
  now rewrite seq_nth.
Qed.

(** Every frame that has both a file and a stored position is an item of
    the batch. *)
Lemma batch_items_nth (s : Session) i f pos :
  nth_error (fits_files s) i = Some f ->
  nth_error (preselected_positions s) i = Some pos ->
  In (i, (f, pos)) (batch_items s).
Proof.
  intros Hf Hp. apply (nth_error_In _ i). unfold batch_items.
  assert (Hi : (i < length (preselected_positions s))%nat)
    by (apply nth_error_Some; congruence).
  assert (Hpair :
            nth_error
              (combine (firstn (length (preselected_positions s))
                          (fits_files s)) (preselected_positions s)) i
            = Some (f, pos)).
  { apply nth_error_combine_some; [|exact Hp].
    rewrite nth_error_firstn.
    replace (i <? length (preselected_positions s))%nat with true
      by (symmetry; now apply Nat.ltb_lt).
    exact Hf. }
  apply nth_error_combine_some; [|exact Hpair].
  apply nth_error_seq_some. apply nth_error_Some. congruence.
Qed.

(** C10.  A batch that is neither stopped nor paused runs to the end of its
    loop, and the loop has exactly
    [min(number of frames, number of stored positions)] iterations.  Each
    iteration leaves one trace, a record appended to the results or an
    [ErrorProcessing] message appended to the log, and the records and
    messages that the batch adds number exactly that minimum.  Frame [i]
    with a file and a stored position has the outcome of
    [process_single_image] on them: its record is among the records added,
    or a failure message of its file is among the messages added.  Every
    record added is the record of such a frame, with the index of the frame
    and the stored position as its tracked position; every message added
    is the failure of such a frame.  So a frame at or beyond the length of
    the position list leaves neither a record nor a message, and a frame
    whose stored position is [None] leaves no record: it raises in
    [process_single_image], whose handler logs the error and returns no
    result. *)
Theorem batch_covers_common_prefix (lib : Library) (user : Reposition)
    (s : Session) :
  batch_processing_mode s = true ->
  stop_processing s = false ->
  paused s = false ->
  exists s' added errors,
    process_batch_photometry lib user s = Finished s'
    /\ photometry_results s' = photometry_results s ++ added
    /\ status_log s' = status_log s ++ errors
    /\ (length added + length errors
        = Nat.min (length (fits_files s))
                  (length (preselected_positions s)))%nat
    /\ (forall i f pos,
          nth_error (fits_files s) i = Some f ->
          nth_error (preselected_positions s) i = Some pos ->
          match snd (process_single_image lib user s f pos i) with
          | Some r => In r added
          | None => exists e, In (ErrorProcessing (filename f) e) errors
          end)
    /\ Forall (fun r =>
         (image_index r
          < Nat.min (length (fits_files s))
                    (length (preselected_positions s)))%nat
         /\ nth_error (preselected_positions s) (image_index r)
            = Some (Some (tracked_position r))
         /\ exists f,
              nth_error (fits_files s) (image_index r) = Some f
              /\ snd (process_single_image lib user s f
                        (Some (tracked_position r)) (image_index r))
                 = Some r) added
    /\ Forall (fun m =>
         exists i f pos e,
           nth_error (fits_files s) i = Some f
           /\ nth_error (preselected_positions s) i = Some pos
           /\ snd (process_single_image lib user s f pos i) = None
           /\ m = ErrorProcessing (filename f) e) errors
    /\ (forall f i, exists e,
          process_single_image lib user s f None i
          = (log_status (ErrorProcessing (filename f) e) s, None)).
Proof.
  intros Hb Hstop Hpause.
  destruct (batch_loop_results lib user (batch_items s) s Hb Hstop Hpause)
    as (s' & Hloop & _ & Hres).
  destruct (batch_loop_log lib user (batch_items s) s Hb Hstop Hpause)
    as (s'' & errors & Hloop' & Herr & Hcount & Hnone & Hall).
  assert (s'' = s') by congruence. subst s''.
  exists (set_batch_processing_mode false s'),
    (results_of lib s (batch_items s)), errors.
  split; [unfold process_batch_photometry; now rewrite Hloop|].
  split; [exact Hres|]. split; [exact Herr|].
  split; [now rewrite Hcount, batch_items_length|].
  split; [|split; [|split]].
  - intros i f pos Hf Hp.
    rewrite (process_single_image_batch_result lib user s f pos i Hb).
    pose proof (batch_items_nth s i f pos Hf Hp) as Hin.
    destruct (batch_frame_result lib s (i, (f, pos))) as [r|] eqn:Hr.
    + apply results_of_in. now exists (i, (f, pos)).
    + now apply (Hnone i f pos).
  - apply Forall_forall. intros r Hr.
    apply results_of_in in Hr. destruct Hr as ([i [f pos]] & Hin & Hr).
    pose proof (batch_frame_result_some lib s i f pos r Hr)
      as (Hi & Hpos & _).
    apply batch_items_in in Hin. destruct Hin as (Hlt & Hf & Hp).
    subst i pos. split; [exact Hlt|]. split; [exact Hp|].
    exists f. split; [exact Hf|].
    now rewrite (process_single_image_batch_result lib user s f _ _ Hb).
  - eapply Forall_impl; [|exact Hall].
    intros m (i & f & pos & e & Hin & Hr & ->).
    apply batch_items_in in Hin. destruct Hin as (_ & Hf & Hp).
    exists i, f, pos, e. split; [exact Hf|]. split; [exact Hp|].
    split; [|reflexivity].
    now rewrite (process_single_image_batch_result lib user s f pos i Hb).
  - intros f i. unfold process_single_image, locate. rewrite Hb.
    destruct (decoded f); [|now exists OSError].
    destruct (i =? 0)%nat; now exists TypeError.
Qed.

Lemma batch_covers_common_prefix_witness :
  exists s' added errors,
    process_batch_photometry example_library nobody gap_session
    = Finished s'
    /\ photometry_results s' = added
    /\ status_log s' = errors
    /\ (length added + length errors = 2)%nat
    /\ Forall (fun r => (image_index r < 2)%nat
                        /\ nth_error [Some (5, 5); None] (image_index r)
                           = Some (Some (tracked_position r))) added
    /\ exists e, In (ErrorProcessing "b.fit" e) errors.
Proof.
  destruct (batch_covers_common_prefix example_library nobody gap_session)
    as (s' & added & errors & Hrun & Hres & Herr & Hcount & Hframe & Hadded
        & _); try reflexivity.
  exists s', added, errors.
  split; [exact Hrun|]. split; [exact Hres|]. split; [exact Herr|].
  split; [exact Hcount|]. split.
  - eapply Forall_impl; [|exact Hadded]. intros r (Hlt & Hp & _). auto.
  - exact (Hframe 1%nat (good_file "b.fit") None eq_refl eq_refl).
Defined.

(** ** Frames that cannot be decoded (claim C6) *)

(** C6, as the code has it.  A frame that cannot be decoded, the first
    one included, makes [process_single_image] log the error and return no
    result; nothing is raised.  A batch that is neither stopped nor paused
    then runs to the end: every frame that can be decoded and measured,
    and whose position and the first position are stored, has its record
    in the results whatever happened to the other frames, and every new
    record belongs to a frame that could be decoded. *)
Theorem decode_failure_is_skipped (lib : Library) (user : Reposition)
    (s : Session) :
  batch_processing_mode s = true ->
  stop_processing s = false ->
  paused s = false ->
  (forall f pos i,
     decoded f = None ->
     process_single_image lib user s f pos i
     = (log_status (ErrorProcessing (filename f) OSError) s, None))
  /\ exists s',
       process_batch_photometry lib user s = Finished s'
       /\ (forall i f d p first phot,
             In (i, (f, Some p)) (batch_items s) ->
             decoded f = Some d ->
             nth_error (preselected_positions s) 0 = Some (Some first) ->
             measure lib (aperture_params s) d p = Ok phot ->
             In (mkResultRecord i (filename f) (star_name s) p
                   (if (i =? 0)%nat then 0 else distance p first)
                   (is_rgb_data d) phot)
                (photometry_results s'))
       /\ (forall r,
             In r (photometry_results s') ->
             In r (photometry_results s)
             \/ exists f, nth_error (fits_files s) (image_index r) = Some f
                          /\ decoded f <> None).
Proof.
  intros Hb Hstop Hpause. split.
  - intros f pos i Hdec. unfold process_single_image. now rewrite Hdec.
  - destruct (process_batch_photometry_results lib user s Hb Hstop Hpause)
      as (s' & Hrun & Hres).
    exists s'. split; [exact Hrun|]. rewrite Hres. split.
    + intros i f d p first phot Hin Hdec Hfirst Hphot.
      apply in_or_app. right. apply results_of_in.
      exists (i, (f, Some p)). split; [exact Hin|].
      unfold batch_frame_result, index. rewrite Hdec, Hfirst, Hphot.
      now destruct (i =? 0)%nat.
    + intros r Hr. apply in_app_or in Hr. destruct Hr as [Hr|Hr]; [now left|].
      right. apply results_of_in in Hr.
      destruct Hr as ([i [f pos]] & Hin & Hr).
      apply batch_frame_result_some in Hr. destruct Hr as (<- & _ & Hdec).
      apply batch_items_in in Hin. exists f. tauto.
Qed.

Lemma decode_failure_is_skipped_witness :
  process_single_image example_library nobody blind_first_session
    (unreadable_file "a.fit") (Some (5, 5)) 0
  = (log_status (ErrorProcessing "a.fit" OSError) blind_first_session, None)
  /\ exists s' r,
       process_batch_photometry example_library nobody blind_first_session
       = Finished s'
       /\ In r (photometry_results s')
       /\ image_index r = 1%nat.
Proof.
  destruct (decode_failure_is_skipped example_library nobody
              blind_first_session)
    as (Hfail & s' & Hrun & Hkept & _); try reflexivity.
  split; [now apply Hfail|].
  destruct (measure_gray_default example_library dark_plane (5, 5) _ eq_refl)
    as [m Hm].
  exists s'. eexists. split; [exact Hrun|]. split.
  - apply (Hkept 1%nat (good_file "b.fit") (GrayData dark_plane) (5, 5)
             (5, 5) (GrayResult m)); try reflexivity; [|exact Hm].
    cbn. right. now left.
  - reflexivity.
Defined.

(** The first frame of [blind_first_session] cannot be decoded, and the
    batch still runs to the end and returns the record of frame 1. *)
Lemma first_frame_failure_not_fatal :
  exists s' r,
    process_batch_photometry example_library nobody blind_first_session
    = Finished s'
    /\ photometry_results s' = [r]
    /\ image_index r = 1%nat.
Proof.
  destruct (process_batch_photometry_results example_library nobody
              blind_first_session) as (s' & Hrun & Hres); try reflexivity.
  destruct (measure_gray_default example_library dark_plane (5, 5) _ eq_refl)
    as [m Hm].
  exists s'. eexists. split; [exact Hrun|]. split.
  - rewrite Hres.
    unfold results_of, batch_items, batch_frame_result.
    cbn [blind_first_session batch_session fits_files
         preselected_positions photometry_results length firstn combine
         seq flat_map decoded unreadable_file good_file app index
         nth_error subscript bind Nat.eqb aperture_params].
    rewrite Hm. reflexivity.
  - reflexivity.
Qed.

(** ** Facts about padding and assignment *)

Lemma pad_to_length {A} (k : nat) (l : list (option A)) :
  length (pad_to k l) = Nat.max (length l) (S k).
Proof. unfold pad_to. rewrite length_app, repeat_length. lia. Qed.

Lemma list_set_length {A} (k : nat) (v : A) (l : list A) :
  length (list_set k v l) = length l.
Proof.
  revert k. induction l as [|a l IH]; intros [|k]; simpl; auto.
Qed.

Lemma firstn_list_set {A} (k : nat) (v : A) (l : list A) :
  (k < length l)%nat ->
  firstn (k + 1) (list_set k v l) = firstn k l ++ [v].
Proof.
  revert k. induction l as [|a l IH]; intros [|k] H; simpl in *; try lia.
  - reflexivity.
  - f_equal. apply IH. lia.
Qed.

Lemma nth_error_list_set {A} (k : nat) (v : A) (l : list A) (j : nat) :
  nth_error (list_set k v l) j
  = if (j =? k)%nat && (k <? length l)%nat then Some v else nth_error l j.
Proof.
  revert k j. induction l as [|a l IH]; intros [|k] [|j]; simpl; auto.
  all: try (rewrite IH; reflexivity).
  all: rewrite ?andb_false_r; reflexivity.
Qed.

Lemma overwrite_and_truncate {A} (k : nat) (v : option A)
    (l : list (option A)) :
  pop_down_to (k + 1) (list_set k v (pad_to k l))
  = firstn k (pad_to k l) ++ [v]
  /\ length (pop_down_to (k + 1) (list_set k v (pad_to k l))) = (k + 1)%nat.
Proof.
  assert (H : (k < length (pad_to k l))%nat)
    by (rewrite pad_to_length; lia).
  unfold pop_down_to. split.
  - now apply firstn_list_set.
  - rewrite length_firstn, list_set_length. lia.
Qed.

(** ** Overwriting during a pause (claim C1) *)

(** What the two handlers of a click during a pause store and remove.  Let
    [k] be the current frame of a paused session.  A click handled by
    [update_position_after_navigation] stores
    the clicked position at index [k] and keeps the earlier positions.
    When the session was paused from sequential mode, the positions are cut
    to length [k + 1] and the results to their first [k + 1] entries (fewer
    when fewer exist), so the results are never longer than the positions.
    When it was paused from pre-selection, the positions are cut to length
    [k + 1] and the results are untouched.  A click handled by
    [update_preselection_position_during_pause] stores the (refined)
    position at index [k] and removes nothing: every other position and
    every result is kept. *)
Lemma overwrite_during_pause (lib : Library) (s : Session) (x y : R) :
  paused s = true ->
  let k := current_frame_index s in
  (paused_tracking_mode s = Some sequential ->
   exists s',
     update_position_after_navigation s x y = Ok s'
     /\ frame_positions s'
        = firstn k (pad_to k (frame_positions s)) ++ [Some (x, y)]
     /\ length (frame_positions s') = (k + 1)%nat
     /\ photometry_results s' = firstn (k + 1) (photometry_results s)
     /\ (length (photometry_results s') <= length (frame_positions s'))%nat)
  /\ (paused_tracking_mode s = Some preselection ->
      exists s',
        update_position_after_navigation s x y = Ok s'
        /\ preselected_positions s'
           = firstn k (pad_to k (preselected_positions s)) ++ [Some (x, y)]
        /\ length (preselected_positions s') = (k + 1)%nat
        /\ photometry_results s' = photometry_results s)
  /\ (let s' := update_preselection_position_during_pause lib s x y false in
      length (preselected_positions s')
      = Nat.max (length (preselected_positions s)) (k + 1)
      /\ nth_error (preselected_positions s') k
         = Some (Some (snd (refine_click lib s x y)))
      /\ (forall j, j <> k ->
            nth_error (preselected_positions s') j
            = nth_error (pad_to k (preselected_positions s)) j)
      /\ photometry_results s' = photometry_results s).
Proof.
  intros Hpaused k. subst k. split; [|split].
  - intros Hmode. unfold update_position_after_navigation.
    rewrite Hpaused, Hmode. eexists. split; [reflexivity|].
    unfold mark_frames_for_reprocessing_from.
    cbn [paused_tracking_mode set_frame_positions frame_positions
         set_photometry_results photometry_results].
    rewrite Hmode.
    cbn [paused_tracking_mode set_frame_positions frame_positions
         set_photometry_results photometry_results].
    destruct (overwrite_and_truncate (current_frame_index s) (Some (x, y))
                (frame_positions s)) as [Heq Hlen].
    split; [exact Heq|]. split; [exact Hlen|]. split; [reflexivity|].
    apply Nat.le_trans with (current_frame_index s + 1)%nat.
    + unfold pop_down_to. rewrite length_firstn. lia.
    + apply Nat.eq_le_incl. symmetry. exact Hlen.
  - intros Hmode. unfold update_position_after_navigation.
    rewrite Hpaused, Hmode. eexists. split; [reflexivity|].
    unfold mark_frames_for_reprocessing_from.
    cbn [paused_tracking_mode set_preselected_positions
         preselected_positions photometry_results].
    rewrite Hmode.
    cbn [set_preselected_positions preselected_positions
         photometry_results].
    destruct (overwrite_and_truncate (current_frame_index s) (Some (x, y))
                (preselected_positions s)) as [Heq Hlen].
    repeat split; assumption.
  - cbv zeta. unfold update_preselection_position_during_pause.
    destruct (refine_click lib s x y) as [t refined].
    cbn [set_preselected_positions preselected_positions set_tracker
         photometry_results current_frame_index snd].
    set (k := current_frame_index s).
    rewrite list_set_length, pad_to_length.
    repeat split.
    + f_equal. lia.
    + rewrite nth_error_list_set, Nat.eqb_refl, pad_to_length.
      replace (k <? Nat.max _ _)%nat with true
        by (symmetry; apply Nat.ltb_lt; lia).
      reflexivity.
    + intros j Hj. rewrite nth_error_list_set.
      replace (j =? k)%nat with false
        by (symmetry; now apply Nat.eqb_neq).
      reflexivity.
Qed.

Lemma overwrite_during_pause_witness :
  exists s',
    update_position_after_navigation paused_sequential_session 9 9 = Ok s'
    /\ frame_positions s' = [Some (1, 1); Some (9, 9)]
    /\ length (photometry_results s') = 2%nat.
Proof.
  destruct (overwrite_during_pause example_library
              paused_sequential_session 9 9) as (Hseq & _ & _);
    [reflexivity|].
  destruct Hseq as (s' & Hrun & Hpos & _ & Hres & _); [reflexivity|].
  exists s'. split; [exact Hrun|]. split; [exact Hpos|].
  rewrite Hres. reflexivity.
Defined.

(** A click on frame 0 of the paused pre-selection replaces the position
    of frame 0 and keeps the positions of frames 1 and 2: the list is not
    cut to length 1. *)
Lemma preselection_pause_keeps_later_positions :
  preselected_positions
    (update_preselection_position_during_pause example_library
       paused_preselection_session 9 9 false)
  = [Some (9, 9); Some (2, 2); Some (3, 3)]
  /\ length (preselected_positions
               (update_preselection_position_during_pause example_library
                  paused_preselection_session 9 9 false))
     <> (current_frame_index paused_preselection_session + 1)%nat.
Proof. split; [reflexivity|discriminate]. Qed.




(** * Part III: further properties of the tracker *)

Lemma Rleb_elim (x y : R) : Rleb x y = true -> x <= y.
Proof. unfold Rleb. destruct (Rle_dec x y); [auto|discriminate]. Qed.

Lemma Rltb_elim (x y : R) : Rltb x y = true -> x < y.
Proof. unfold Rltb. destruct (Rlt_dec x y); [auto|discriminate]. Qed.

Lemma adaptive_radius_between (t : Tracker) (base : Z) :
  (0 <= base)%Z ->
  (base <= _calculate_adaptive_search_radius t base <= 2 * base)%Z.
Proof.
  intros H. unfold _calculate_adaptive_search_radius.
  destruct (length (position_history t) <? 3)%nat; lia.
Qed.

Lemma distance_self (p : Position) : distance p p = 0.
Proof.
  unfold distance. replace ((fst p - fst p) ^ 2 + (snd p - snd p) ^ 2)
    with 0 by ring. apply sqrt_0.
Qed.

Lemma acceptable_elim (a : PixelPlane) (radius : Z) (e p : Position) :
  acceptable a radius e p = true ->
  distance p e <= IZR radius * (3 / 2)
  /\ 5 < fst p < IZR (shape1 a - 5)
  /\ 5 < snd p < IZR (shape0 a - 5).
Proof.
  unfold acceptable. rewrite !andb_true_iff.
  intros ((((H1 & H2) & H3) & H4) & H5).
  apply Rleb_elim in H1.
  apply Rltb_elim in H2, H3, H4, H5. auto.
Qed.

(** X1.  The position that the tracker returns is of one of three kinds: the
    expected position itself; the momentum prediction, within the adaptive
    radius of the expected position; or a centroid within one and a half
    adaptive radii of the expected position and more than 5 pixels inside
    every edge of the plane.  For a non-negative base radius it is
    therefore never farther than three base radii from the expected
    position. *)
Theorem tracked_position_stays_close (lib : Library) (t : Tracker)
    (image_data : PixelPlane) (expected_pos : Position) (base_radius : Z) :
  let sr := search_region t image_data expected_pos base_radius in
  let p := snd (track_star_position lib t image_data expected_pos
                  base_radius) in
  (p = expected_pos
   \/ (p = predicted_pos sr
       /\ distance p expected_pos <= IZR (adaptive_radius sr))
   \/ (distance p expected_pos <= IZR (adaptive_radius sr) * (3 / 2)
       /\ 5 < fst p < IZR (shape1 image_data - 5)
       /\ 5 < snd p < IZR (shape0 image_data - 5)))
  /\ ((0 <= base_radius)%Z ->
      distance p expected_pos <= 3 * IZR base_radius).
Proof.
  cbv zeta.
  set (sr := search_region t image_data expected_pos base_radius).
  assert (Hkind :
    let p := snd (track_star_position lib t image_data expected_pos
                    base_radius) in
    p = expected_pos
    \/ (p = predicted_pos sr
        /\ distance p expected_pos <= IZR (adaptive_radius sr))
    \/ (distance p expected_pos <= IZR (adaptive_radius sr) * (3 / 2)
        /\ 5 < fst p < IZR (shape1 image_data - 5)
        /\ 5 < snd p < IZR (shape0 image_data - 5))).
  { cbv zeta. unfold track_star_position. fold sr.
    destruct (size (cutout sr) =? 0)%nat; [now left|].
    destruct (_calculate_adaptive_threshold lib (cutout sr))
      as [threshold peak].
    destruct (center_of_mass_candidate lib (cutout sr) threshold
                (x_min sr) (y_min sr)) as [p1|].
    - destruct (acceptable image_data (adaptive_radius sr) expected_pos p1)
        eqn:E1.
      { right. right. now apply acceptable_elim in E1. }
      destruct (peak_candidate (cutout sr) threshold (x_min sr) (y_min sr))
        as [p2|].
      + destruct (acceptable image_data (adaptive_radius sr) expected_pos
                    p2) eqn:E2.
        { right. right. now apply acceptable_elim in E2. }
        destruct (momentum_applies sr expected_pos) eqn:Em; [|now left].
        right. left. split; [reflexivity|].
        unfold momentum_applies in Em. apply andb_true_iff in Em.
        destruct Em as [_ Em]. now apply Rleb_elim in Em.
      + destruct (momentum_applies sr expected_pos) eqn:Em; [|now left].
        right. left. split; [reflexivity|].
        unfold momentum_applies in Em. apply andb_true_iff in Em.
        destruct Em as [_ Em]. now apply Rleb_elim in Em.
    - destruct (peak_candidate (cutout sr) threshold (x_min sr) (y_min sr))
        as [p2|].
      + destruct (acceptable image_data (adaptive_radius sr) expected_pos
                    p2) eqn:E2.
        { right. right. now apply acceptable_elim in E2. }
        destruct (momentum_applies sr expected_pos) eqn:Em; [|now left].
        right. left. split; [reflexivity|].
        unfold momentum_applies in Em. apply andb_true_iff in Em.
        destruct Em as [_ Em]. now apply Rleb_elim in Em.
      + destruct (momentum_applies sr expected_pos) eqn:Em; [|now left].
        right. left. split; [reflexivity|].
        unfold momentum_applies in Em. apply andb_true_iff in Em.
        destruct Em as [_ Em]. now apply Rleb_elim in Em. }
  split; [exact Hkind|]. intros Hbase.
  assert (Hr : 0 <= IZR (adaptive_radius sr) <= 2 * IZR base_radius).
  { pose proof (adaptive_radius_between t base_radius Hbase) as [H1 H2].
    change (adaptive_radius sr)
      with (_calculate_adaptive_search_radius t base_radius).
    apply IZR_le in H1, H2. apply IZR_le in Hbase.
    rewrite mult_IZR in H2. lra. }
  cbv zeta in Hkind. destruct Hkind as [-> | [[_ H] | [H _]]].
  - rewrite distance_self. lra.
  - lra.
  - lra.
Qed.

Lemma tracked_position_stays_close_witness :
  distance (snd (track_star_position example_library empty_tracker
                   one_pixel_plane (0, 0) 25)) (0, 0) <= 3 * 25.
Proof.
  apply (tracked_position_stays_close example_library empty_tracker
           one_pixel_plane (0, 0) 25). lia.
Defined.

Lemma track_star_position_pushes_once_witness :
  exists c,
    In c [8 / 10; 6 / 10; 3 / 10; 1 / 10]
    /\ track_star_position example_library empty_tracker one_pixel_plane
         (0, 0) 25
       = (_update_tracking_history empty_tracker
            (snd (track_star_position example_library empty_tracker
                    one_pixel_plane (0, 0) 25)) c,
          snd (track_star_position example_library empty_tracker
                 one_pixel_plane (0, 0) 25)).
Proof.
  apply (track_star_position_pushes_once example_library empty_tracker
           one_pixel_plane (0, 0) 25).
  rewrite (search_region_fresh _ _ 0 0 25) by (simpl; lia).
  discriminate.
Defined.

(** ** Momentum prediction *)

Lemma momentum_weights_positive (n : nat) :
  Forall (fun w => 0 < w) (momentum_weights n).
Proof.
  unfold momentum_weights. apply Forall_map, Forall_forall.
  intros i Hi. apply in_seq in Hi.
  assert (0 < INR n) by (apply lt_0_INR; lia).
  pose proof (pos_INR i).
  apply Rdiv_lt_0_compat; lra.
Qed.

Lemma momentum_weights_length (n : nat) : length (momentum_weights n) = n.
Proof. unfold momentum_weights. now rewrite length_map, length_seq. Qed.

(** A weighted sum with positive weights lies between the least and the
    greatest value times the sum of the weights. *)
Lemma weighted_sum_between (a b : R) (vs ws : list R) :
  length vs = length ws ->
  Forall (fun v => a <= v <= b) vs ->
  Forall (fun w => 0 < w) ws ->
  a * sum_list ws <= weighted_sum vs ws <= b * sum_list ws
  /\ (vs <> [] -> 0 < sum_list ws).
Proof.
  revert ws. induction vs as [|v vs IH]; intros [|w ws] Hlen Hv Hw;
    try discriminate.
  - unfold weighted_sum. simpl. split; [lra|congruence].
  - inversion Hv as [|? ? Hv1 Hv2]. inversion Hw as [|? ? Hw1 Hw2]. subst.
    injection Hlen as Hlen.
    destruct (IH ws Hlen Hv2 Hw2) as [[Hlo Hhi] Hpos].
    unfold weighted_sum in *. simpl.
    assert (0 <= sum_list ws).
    { destruct vs as [|v' vs'].
      - destruct ws; [simpl; lra|discriminate].
      - apply Rlt_le, Hpos. discriminate. }
    split; [split; nra|]. intros _. lra.
Qed.

(** X3.  The predicted position is the expected position moved by a weighted
    average of the recorded velocities: in each coordinate the step lies
    between the least and the greatest recorded velocity. *)
Theorem momentum_step_is_an_average (t : Tracker) (expected_pos : Position)
    (ax bx ay b_y : R) :
  (2 <= length (position_history t))%nat ->
  velocity_history t <> [] ->
  Forall (fun v => ax <= fst v <= bx /\ ay <= snd v <= b_y)
         (velocity_history t) ->
  let p := _predict_position_with_momentum t expected_pos in
  fst expected_pos + ax <= fst p <= fst expected_pos + bx
  /\ snd expected_pos + ay <= snd p <= snd expected_pos + b_y.
Proof.
  intros Hlen Hne Hall. cbv zeta. unfold _predict_position_with_momentum.
  replace (length (position_history t) <? 2)%nat with false
    by (symmetry; apply Nat.ltb_ge; lia).
  destruct (velocity_history t) as [|v vs] eqn:E; [congruence|].
  set (ws := momentum_weights (length (v :: vs))).
  assert (Hw : Forall (fun w => 0 < w) ws)
    by apply momentum_weights_positive.
  assert (Hx : Forall (fun x => ax <= x <= bx) (map fst (v :: vs))).
  { apply Forall_map. eapply Forall_impl; [|exact Hall]. now intros ? []. }
  assert (Hy : Forall (fun y => ay <= y <= b_y) (map snd (v :: vs))).
  { apply Forall_map. eapply Forall_impl; [|exact Hall]. now intros ? []. }
  assert (Hl1 : length (map fst (v :: vs)) = length ws)
    by (unfold ws; now rewrite momentum_weights_length, length_map).
  assert (Hl2 : length (map snd (v :: vs)) = length ws)
    by (unfold ws; now rewrite momentum_weights_length, length_map).
  destruct (weighted_sum_between ax bx _ ws Hl1 Hx Hw) as [[Hxl Hxh] Hpos].
  destruct (weighted_sum_between ay b_y _ ws Hl2 Hy Hw) as [[Hyl Hyh] _].
  assert (Hs : 0 < sum_list ws) by (apply Hpos; discriminate).
  cbn [fst snd].
  assert (Hdiv : forall lo hi s, lo * sum_list ws <= s <= hi * sum_list ws ->
                   lo <= s / sum_list ws <= hi).
  { intros lo hi s [H1 H2]. split.
    - apply Rmult_le_reg_r with (sum_list ws); [exact Hs|].
      unfold Rdiv. rewrite Rmult_assoc, Rinv_l by lra. lra.
    - apply Rmult_le_reg_r with (sum_list ws); [exact Hs|].
      unfold Rdiv. rewrite Rmult_assoc, Rinv_l by lra. lra. }
  pose proof (Hdiv ax bx _ (conj Hxl Hxh)).
  pose proof (Hdiv ay b_y _ (conj Hyl Hyh)).
  lra.
Qed.

(** A star that moved by (2, 1) in each of the last three frames. *)
Lemma momentum_step_is_an_average_witness :
  _predict_position_with_momentum
    (history_of [(0, 0); (2, 1); (4, 2); (6, 3)]) (6, 3) = (8, 4).
Proof.
  pose proof (momentum_step_is_an_average
                (history_of [(0, 0); (2, 1); (4, 2); (6, 3)]) (6, 3)
                2 2 1 1) as H.
  cbv zeta in H.
  destruct H as [[Hx1 Hx2] [Hy1 Hy2]].
  - simpl. lia.
  - discriminate.
  - cbn. repeat (apply Forall_cons; [cbn; lra|]). apply Forall_nil.
  - cbn [fst snd] in *.
    destruct (_predict_position_with_momentum _ _) as [px py].
    cbn [fst snd] in *. f_equal; lra.
Defined.

(** ** The most recent entry of the histories *)

Lemma last_evict {A} (l : list A) (x d : A) : last (evict (l ++ [x])) d = x.
Proof.
  unfold evict, tracking_history_size.
  destruct (Nat.ltb_spec 5 (length (l ++ [x]))) as [H|H];
    [|apply last_last].
  destruct l as [|a l]; [simpl in H; lia|].
  simpl. apply last_last.
Qed.

Lemma evict_length {A} (l : list A) :
  length (evict l) = if (5 <? length l)%nat then (length l - 1)%nat
                     else length l.
Proof.
  unfold evict, tracking_history_size.
  destruct (5 <? length l)%nat; [|reflexivity].
  destruct l; simpl; lia.
Qed.

(** X4.  After a push the most recent recorded position is the pushed one.
    When the position and confidence histories had equal length, as they
    have after every reset and every push, the most recent recorded
    confidence is the pushed one and the two histories are again of equal
    length. *)
Theorem push_is_most_recent (t : Tracker) (p d : Position) (c dc : R) :
  let t' := _update_tracking_history t p c in
  last (position_history t') d = p
  /\ (length (position_history t) = length (tracking_confidence t) ->
      last (tracking_confidence t') dc = c
      /\ length (position_history t') = length (tracking_confidence t')).
Proof.
  cbv zeta. unfold _update_tracking_history.
  cbn [position_history tracking_confidence].
  fold (evict (position_history t ++ [p])).
  split; [apply last_evict|]. intros H.
  rewrite (joint_evict (position_history t ++ [p])
             (tracking_confidence t ++ [c]))
    by (rewrite !length_app, H; reflexivity).
  split; [apply last_evict|].
  rewrite !evict_length, !length_app, H. reflexivity.
Qed.

Lemma push_is_most_recent_witness :
  last (tracking_confidence
          (_update_tracking_history swinging_history (1, 1) (6 / 10))) 0
  = 6 / 10
  /\ length (position_history
               (_update_tracking_history swinging_history (1, 1) (6 / 10)))
     = length (tracking_confidence
                 (_update_tracking_history swinging_history (1, 1)
                    (6 / 10))).
Proof.
  apply (push_is_most_recent swinging_history (1, 1) (0, 0) (6 / 10) 0).
  reflexivity.
Defined.

Lemma update_tracking_history_bound_witness :
  (length (tracking_confidence
             (_update_tracking_history swinging_history (1%R, 1%R)
                (6 / 10)%R))
   <= 5)%nat.
Proof.
  apply (update_tracking_history_bound swinging_history (1, 1) (6 / 10));
    [reflexivity|simpl; lia|simpl; lia].
Defined.

(** ** Loss of tracking, on the histories (claim C4) *)

(** On a cutout that is not empty, with histories of equal length, a lost
    star is recorded: the most recent position is the expected one and the
    most recent confidence is 0.1. *)
Lemma track_lost_records_fallback (lib : Library) (t : Tracker)
    (image_data : PixelPlane) (expected_pos d : Position) (base_radius : Z)
    (dc : R) :
  let sr := search_region t image_data expected_pos base_radius in
  let threshold := fst (_calculate_adaptive_threshold lib (cutout sr)) in
  let t' := fst (track_star_position lib t image_data expected_pos
                   base_radius) in
  Forall (Forall (fun v => v <= threshold)) (cutout sr) ->
  momentum_applies sr expected_pos = false ->
  size (cutout sr) <> 0%nat ->
  length (position_history t) = length (tracking_confidence t) ->
  snd (track_star_position lib t image_data expected_pos base_radius)
  = expected_pos
  /\ last (position_history t') d = expected_pos
  /\ last (tracking_confidence t') dc = 1 / 10
  /\ length (position_history t') = length (tracking_confidence t').
Proof.
  cbv zeta. intros Hquiet Hmom Hsize Hlen.
  rewrite (track_lost_returns_expected lib t image_data expected_pos
             base_radius Hquiet Hmom).
  destruct (Nat.eqb_spec (size (cutout (search_region t image_data
              expected_pos base_radius))) 0) as [E|_]; [contradiction|].
  cbn [fst snd]. split; [reflexivity|].
  unfold _update_tracking_history.
  cbn [position_history tracking_confidence].
  fold (evict (position_history t ++ [expected_pos])).
  rewrite (joint_evict (position_history t ++ [expected_pos])
             (tracking_confidence t ++ [1 / 10]))
    by (rewrite !length_app, Hlen; reflexivity).
  split; [apply last_evict|]. split; [apply last_evict|].
  rewrite !evict_length, !length_app, Hlen. reflexivity.
Qed.

Lemma track_lost_records_fallback_witness :
  last (tracking_confidence
          (fst (track_star_position example_library empty_tracker
                  one_pixel_plane (0, 0) 25))) 0
  = 1 / 10.
Proof.
  assert (Hfresh : (length (position_history empty_tracker) < 2)%nat)
    by (simpl; lia).
  apply (track_lost_records_fallback example_library empty_tracker
           one_pixel_plane (0, 0) (0, 0) 25 0).
  - rewrite (search_region_fresh _ _ 0 0 25 Hfresh). cbn [cutout].
    change (slice2 _ _ _ _ one_pixel_plane) with one_pixel_plane.
    rewrite one_pixel_threshold.
    unfold one_pixel_plane.
    apply Forall_cons; [|apply Forall_nil].
    apply Forall_cons; [lra|apply Forall_nil].
  - now apply momentum_idle.
  - rewrite (search_region_fresh _ _ 0 0 25 Hfresh). cbn [cutout].
    change (slice2 _ _ _ _ one_pixel_plane) with one_pixel_plane.
    discriminate.
  - reflexivity.
Defined.

(** C4, at the input where the code departs from it.  The tracker has
    recorded one earlier attempt, at (10, 10) with confidence 0.8, and is
    asked for the expected position (60, 60) on a plane of 20 by 20
    pixels.  The cutout is empty, so no pixel of it is above the threshold,
    and with one recorded position the momentum prediction does not apply:
    the conditions of the claim hold.  The call returns the expected
    position unchanged, but it records nothing for the attempt: the
    histories are those before the call, the confidence most recently
    recorded is still the 0.8 of the earlier attempt, which is above 0.1,
    and a push of any confidence would have left other histories. *)
Theorem track_lost_records_no_confidence (lib : Library) :
  let t := _update_tracking_history empty_tracker (10, 10) (8 / 10) in
  let sr := search_region t dark_plane (60, 60) 25 in
  let threshold := fst (_calculate_adaptive_threshold lib (cutout sr)) in
  let t' := fst (track_star_position lib t dark_plane (60, 60) 25) in
  Forall (Forall (fun v => v <= threshold)) (cutout sr)
  /\ momentum_applies sr (60, 60) = false
  /\ snd (track_star_position lib t dark_plane (60, 60) 25) = (60, 60)
  /\ t' = t
  /\ tracking_confidence t' = [8 / 10]
  /\ 1 / 10 < last (tracking_confidence t') 0
  /\ (forall c, _update_tracking_history t (60, 60) c <> t').
Proof.
  cbv zeta.
  set (t := _update_tracking_history empty_tracker (10, 10) (8 / 10)).
  assert (Hfresh : (length (position_history t) < 2)%nat)
    by (simpl; lia).
  assert (Hcut : cutout (search_region t dark_plane (60, 60) 25) = []).
  { rewrite (search_region_fresh _ _ 60 60 25 Hfresh).
    cbn [cutout]. unfold slice2.
    now rewrite (py_slice_empty _ _ dark_plane)
      by (vm_compute; discriminate). }
  assert (Hrun : track_star_position lib t dark_plane (60, 60) 25
                 = (t, (60, 60))).
  { unfold track_star_position. now rewrite Hcut. }
  rewrite Hrun, Hcut. cbn [fst snd].
  split; [constructor|]. split; [now apply momentum_idle|].
  split; [reflexivity|]. split; [reflexivity|]. split; [reflexivity|].
  split; [cbn; lra|].
  intros c H. apply (f_equal tracking_confidence) in H. discriminate H.
Qed.

(** ** The adaptive threshold *)

(** X6.  The threshold lies between two and three standard deviations above
    the median whenever the standard deviation is not negative, as it
    always is for the plain statistics; the peak returned is the maximum of
    the cutout. *)
Theorem adaptive_threshold_between (lib : Library) (cutout : PixelPlane) :
  let median := snd (fst (cutout_stats lib cutout)) in
  let std := snd (cutout_stats lib cutout) in
  let threshold := fst (_calculate_adaptive_threshold lib cutout) in
  (0 <= std -> median + 2 * std <= threshold <= median + 3 * std)
  /\ (sigma_clipped_stats lib cutout = None ->
      np_median cutout <= threshold)
  /\ snd (_calculate_adaptive_threshold lib cutout) = np_max cutout.
Proof.
  cbv zeta. unfold _calculate_adaptive_threshold, cutout_stats.
  destruct (sigma_clipped_stats lib cutout) as [[[mean median] std]|].
  - cbn [fst snd]. split; [|split; [discriminate|reflexivity]].
    intros Hstd.
    destruct (Rltb 10 _); [lra|]. destruct (Rltb 5 _); lra.
  - cbn [fst snd].
    assert (Hstd : 0 <= np_std (concat cutout))
      by (unfold np_std; apply sqrt_pos).
    split; [|split; [|reflexivity]].
    + intros _. destruct (Rltb 10 _); [lra|]. destruct (Rltb 5 _); lra.
    + intros _. destruct (Rltb 10 _); [lra|]. destruct (Rltb 5 _); lra.
Qed.

Lemma adaptive_threshold_between_witness :
  7 + 2 * 0 <= fst (_calculate_adaptive_threshold example_library
                      one_pixel_plane) <= 7 + 3 * 0.
Proof.
  assert (Hstd : snd (cutout_stats example_library one_pixel_plane) = 0).
  { unfold cutout_stats.
    cbn [sigma_clipped_stats example_library one_pixel_plane concat app snd].
    apply np_std_singleton. }
  pose proof (adaptive_threshold_between example_library one_pixel_plane)
    as (H & _ & _).
  cbv zeta in H. rewrite Hstd in H.
  change (snd (fst (cutout_stats example_library one_pixel_plane)))
    with 7 in H.
  apply H. lra.
Defined.

(** ** The books of a measurement *)

Lemma poisson_of_balanced (raw : R) :
  0 <= poisson_of raw /\ poisson_of raw ^ 2 = Rmax raw 0.
Proof.
  rewrite poisson_of_max. split; [apply sqrt_pos|].
  rewrite <- Rsqr_pow2. apply Rsqr_sqrt. apply Rmax_r.
Qed.

Lemma measure_channel_balanced (lib : Library) (a : PixelPlane)
    (ap : Aperture) (an : Annulus) :
  channel_balanced (measure_channel lib a ap an).
Proof.
  unfold channel_balanced, measure_channel.
  cbn [star_flux_raw star_flux_corrected sky_background_total
       poisson_noise].
  split; [ring|]. apply poisson_of_balanced.
Qed.

(** X7.  Every measurement that returns balances its books, on grayscale and
    on RGB planes, with and without sky subtraction: the raw flux is the
    corrected flux plus the background, the square of the noise is the raw
    flux (zero for a raw flux that is not positive), the reported aperture
    area is [pi * inner_radius^2] and the reported position is the star
    position. *)
Theorem measurements_balance (lib : Library) (p : ApertureParams)
    (red green blue gray_data : PixelPlane) (star_pos : Position) :
  (forall m,
     perform_aperture_photometry lib p gray_data star_pos = Ok m ->
     channel_balanced (gray_only m)
     /\ aperture_area m = PI * inner_radius p ^ 2
     /\ (x_position m, y_position m) = star_pos)
  /\ (forall m,
        perform_rgb_photometry lib p (red, green, blue) gray_data star_pos
        = Ok m ->
        Forall channel_balanced
          [r_channel m; g_channel m; b_channel m; gray_channel m]
        /\ rgb_aperture_area m = PI * inner_radius p ^ 2
        /\ (rgb_x_position m, rgb_y_position m) = star_pos).
Proof.
  destruct star_pos as [x y]. split.
  - intros m. unfold perform_aperture_photometry, CircularAperture,
      CircularAnnulus.
    destruct (Rltb 0 (inner_radius p)); [|discriminate]. cbn [bind r].
    destruct (Rleb (outer_annulus p) (inner_annulus p)).
    + intros H. injection H as <-. unfold channel_balanced, area. cbn.
      split; [split; [ring|apply poisson_of_balanced]|auto].
    + destruct (Rltb 0 (inner_annulus p)); [|discriminate].
      destruct (Rltb (inner_annulus p) (outer_annulus p)); [|discriminate].
      cbn [bind r_in r_out].
      destruct (annulus_sum_aper_area lib gray_data (x, y)
                  (inner_annulus p) (outer_annulus p));
        cbn [int_of_float bind]; [|discriminate].
      intros H. injection H as <-.
      unfold channel_balanced, area. cbn.
      split; [split; [ring|apply poisson_of_balanced]|auto].
  - intros m. unfold perform_rgb_photometry, CircularAperture,
      CircularAnnulus.
    destruct (Rltb 0 (inner_radius p)); [|discriminate]. cbn [bind].
    destruct (Rltb 0 (inner_annulus p)); [|discriminate].
    destruct (Rltb (inner_annulus p) (outer_annulus p)); [|discriminate].
    cbn [bind]. intros H. injection H as <-.
    cbn [r_channel g_channel b_channel gray_channel rgb_aperture_area
         rgb_x_position rgb_y_position].
    split; [|split; reflexivity].
    repeat apply Forall_cons; try apply Forall_nil;
      apply measure_channel_balanced.
Qed.

Lemma measurements_balance_witness :
  exists m,
    perform_aperture_photometry example_library default_aperture_params
      dark_plane (10, 10) = Ok m
    /\ channel_balanced (gray_only m).
Proof.
  assert (H : exists m,
             perform_aperture_photometry example_library
               default_aperture_params dark_plane (10, 10) = Ok m).
  { eexists.
    apply (perform_aperture_photometry_with_sky example_library
             default_aperture_params dark_plane (10, 10)
             (PI * (17 ^ 2 - 12 ^ 2))); try (simpl; lra).
    reflexivity. }
  destruct H as [m Hm]. exists m. split; [exact Hm|].
  apply (measurements_balance example_library default_aperture_params
           dark_plane dark_plane dark_plane dark_plane (10, 10)).
  exact Hm.
Defined.

(** X8.  The measurements return exactly in these cases: on a grayscale
    plane for a positive aperture radius together with either disabled sky
    subtraction ([inner_annulus >= outer_annulus]) or a positive inner
    annulus radius and a sky annulus whose summed area is a number (an
    annulus that meets the plane); on an RGB plane for
    [0 < inner_radius] and [0 < inner_annulus < outer_annulus].  In every
    other case they raise [ValueError]: from the constructor of an
    aperture, or from [int] of an annulus area that is not a number. *)
Theorem measurements_return_iff (lib : Library) (p : ApertureParams)
    (rgb_data : PixelPlane * PixelPlane * PixelPlane)
    (gray_data : PixelPlane) (star_pos : Position) :
  ((exists m, perform_aperture_photometry lib p gray_data star_pos = Ok m)
   <-> 0 < inner_radius p
       /\ (outer_annulus p <= inner_annulus p
           \/ (0 < inner_annulus p
               /\ annulus_sum_aper_area lib gray_data star_pos
                    (inner_annulus p) (outer_annulus p) <> None)))
  /\ ((exists m,
         perform_rgb_photometry lib p rgb_data gray_data star_pos = Ok m)
      <-> 0 < inner_radius p
          /\ 0 < inner_annulus p < outer_annulus p)
  /\ (perform_aperture_photometry lib p gray_data star_pos
        = Raise ValueError
      \/ exists m, perform_aperture_photometry lib p gray_data star_pos
                   = Ok m)
  /\ (perform_rgb_photometry lib p rgb_data gray_data star_pos
        = Raise ValueError
      \/ exists m, perform_rgb_photometry lib p rgb_data gray_data star_pos
                   = Ok m).
Proof.
  destruct star_pos as [x y], rgb_data as [[red green] blue].
  unfold perform_aperture_photometry, perform_rgb_photometry,
    CircularAperture, CircularAnnulus, Rltb, Rleb.
  destruct (Rlt_dec 0 (inner_radius p)) as [Hr|Hr];
    destruct (Rle_dec (outer_annulus p) (inner_annulus p)) as [Hs|Hs];
    destruct (Rlt_dec 0 (inner_annulus p)) as [Hi|Hi];
    destruct (Rlt_dec (inner_annulus p) (outer_annulus p)) as [Ho|Ho];
    cbn [bind r_in r_out]; try lra;
    try (destruct (annulus_sum_aper_area lib gray_data (x, y)
                     (inner_annulus p) (outer_annulus p)) as [a|] eqn:Ha;
         cbn [int_of_float bind]);
    repeat split; intros;
    try match goal with
        | H : exists _, Raise _ = Ok _ |- _ =>
            destruct H as [? H]; discriminate H
        end;
    try lra; try tauto; try congruence;
    try (eexists; reflexivity);
    try (left; reflexivity); try (right; eexists; reflexivity);
    try (right; split; [assumption|congruence]);
    try (destruct H as [_ [H|[_ H]]]; [lra|congruence]).
Qed.

Lemma gray_photometry_without_sky_witness :
  exists m,
    perform_aperture_photometry example_library (mkApertureParams 9 12 12)
      dark_plane (10, 10) = Ok m
    /\ star_flux_corrected (gray_only m) = star_flux_raw (gray_only m)
    /\ sky_per_pixel (gray_only m) = 0
    /\ sky_std (gray_only m) = 0
    /\ sky_background_total (gray_only m) = 0.
Proof.
  apply (gray_photometry_without_sky example_library
           (mkApertureParams 9 12 12) dark_plane (10, 10)); simpl; lra.
Defined.

(** * Part IV: further properties of the session *)

(** ** What a batch keeps *)

Lemma same_inputs_refl (s : Session) : same_inputs s s.
Proof. repeat split. Qed.

Lemma same_inputs_trans (s1 s2 s3 : Session) :
  same_inputs s1 s2 -> same_inputs s2 s3 -> same_inputs s1 s3.
Proof.
  unfold same_inputs.
  intros (?&?&?&?&?&?&?&?&?&?&?) (?&?&?&?&?&?&?&?&?&?&?).
  repeat split; congruence.
Qed.

(** A frame changes the histories and the log at most: the results, the
    positions and the flags are those of before, in every mode. *)
Lemma process_single_image_frame (lib : Library) (user : Reposition)
    (s : Session) (f : FitsFile) (pos : option Position) (i : nat) :
  let s' := fst (process_single_image lib user s f pos i) in
  same_inputs s s'
  /\ photometry_results s' = photometry_results s
  /\ batch_processing_mode s' = batch_processing_mode s.
Proof.
  cbv zeta. unfold process_single_image.
  destruct (decoded f); [|now repeat split].
  destruct (locate lib user s f0 f pos i) as [[t [[p m]|]]|e];
    try now repeat split.
  destruct (measure lib (aperture_params s) f0 p); now repeat split.
Qed.

Lemma batch_loop_keeps (lib : Library) (user : Reposition) items :
  forall s,
    let s' := outcome_session (batch_loop lib user s items) in
    same_inputs s s'
    /\ batch_processing_mode s' = batch_processing_mode s
    /\ exists added, photometry_results s' = photometry_results s ++ added.
Proof.
  induction items as [|[i [f pos]] rest IH]; intros s; cbv zeta.
  - cbn. split; [apply same_inputs_refl|]. split; [reflexivity|].
    exists []. now rewrite app_nil_r.
  - cbn [batch_loop].
    destruct (stop_processing s).
    { cbn. split; [apply same_inputs_refl|]. split; [reflexivity|].
      exists []. now rewrite app_nil_r. }
    destruct (paused s).
    { cbn. split; [apply same_inputs_refl|]. split; [reflexivity|].
      exists []. now rewrite app_nil_r. }
    pose proof (process_single_image_frame lib user s f pos i) as Hstep.
    destruct (process_single_image lib user s f pos i) as [s1 result].
    cbv zeta in Hstep. cbn [fst] in Hstep.
    destruct Hstep as (Hin & Hres & Hmode).
    set (s2 := match result with
               | Some r =>
                   set_photometry_results (photometry_results s1 ++ [r]) s1
               | None => s1
               end).
    assert (H2 : same_inputs s s2
                 /\ batch_processing_mode s2 = batch_processing_mode s
                 /\ exists added,
                      photometry_results s2 = photometry_results s ++ added).
    { subst s2. destruct result as [r|].
      - split; [exact Hin|]. split; [exact Hmode|].
        exists [r]. cbn. now rewrite Hres.
      - split; [exact Hin|]. split; [exact Hmode|].
        exists []. now rewrite app_nil_r. }
    destruct H2 as (Hin2 & Hmode2 & added2 & Hres2).
    destruct (IH s2) as (Hin3 & Hmode3 & added3 & Hres3).
    split; [eapply same_inputs_trans; eassumption|].
    split; [congruence|].
    exists (added2 ++ added3). rewrite Hres3, Hres2. now rewrite app_assoc.
Qed.

Lemma process_batch_photometry_inputs (lib : Library) (user : Reposition)
    (s : Session) :
  same_inputs s (outcome_session (process_batch_photometry lib user s)).
Proof.
  unfold process_batch_photometry.
  pose proof (batch_loop_keeps lib user (batch_items s) s) as H.
  cbv zeta in H. destruct H as (Hin & _).
  destruct (batch_loop lib user s (batch_items s)); exact Hin.
Qed.



(** ** Running a batch twice *)

Lemma results_of_same (lib : Library) (s s' : Session) items :
  star_name s' = star_name s ->
  aperture_params s' = aperture_params s ->
  preselected_positions s' = preselected_positions s ->
  results_of lib s' items = results_of lib s items.
Proof.
  intros Hn Ha Hp. unfold results_of. apply flat_map_ext.
  intros [i [f pos]]. unfold batch_frame_result. now rewrite Hn, Ha, Hp.
Qed.

(** X11.  Running the automatic batch a second time over the same frames and
    positions gives the same results as the first run: no state of the
    first run leaks into the second. *)
Theorem batch_rerun_identical (lib : Library) (user : Reposition)
    (s : Session) :
  paused s = false ->
  exists s1 s2,
    run_automatic_batch lib user s = Finished s1
    /\ run_automatic_batch lib user s1 = Finished s2
    /\ photometry_results s2 = photometry_results s1.
Proof.
  intros Hpaused. unfold run_automatic_batch.
  destruct (process_batch_photometry_results lib user
              (start_automatic_batch_processing s))
    as (s1 & Hrun1 & Hres1); try reflexivity; [exact Hpaused|].
  pose proof (process_batch_photometry_inputs lib user
                (start_automatic_batch_processing s)) as Hkeep.
  rewrite Hrun1 in Hkeep. cbn [outcome_session] in Hkeep.
  destruct Hkeep as (Hf & Hn & Ha & _ & _ & _ & Hp & _ & _ & _ & Hpos).
  cbn [start_automatic_batch_processing fits_files star_name
       aperture_params paused preselected_positions] in Hf, Hn, Ha, Hp, Hpos.
  destruct (process_batch_photometry_results lib user
              (start_automatic_batch_processing s1))
    as (s2 & Hrun2 & Hres2); try reflexivity.
  { cbn. congruence. }
  exists s1, s2. split; [exact Hrun1|]. split; [exact Hrun2|].
  rewrite Hres2, Hres1. cbn [start_automatic_batch_processing
                             photometry_results app].
  replace (batch_items (start_automatic_batch_processing s1))
    with (batch_items (start_automatic_batch_processing s)).
  2:{ unfold batch_items. cbn [start_automatic_batch_processing fits_files
                               preselected_positions].
      now rewrite Hf, Hpos. }
  apply results_of_same; cbn; assumption.
Qed.

Lemma batch_rerun_identical_witness :
  exists s1 s2,
    run_automatic_batch example_library nobody drift_session = Finished s1
    /\ run_automatic_batch example_library nobody s1 = Finished s2
    /\ photometry_results s2 = photometry_results s1.
Proof.
  apply (batch_rerun_identical example_library nobody drift_session).
  reflexivity.
Defined.

(** ** A click in sequential mode *)

Lemma bind_ok {A B} (m : Result A) (k : A -> Result B) (b : B) :
  bind m k = Ok b -> exists a, m = Ok a /\ k a = Ok b.
Proof. destruct m as [a|e]; [eauto|discriminate]. Qed.

(** X12.  A click in sequential mode stores the clicked position as the next
    entry of [frame_positions].  Then either exactly one record is
    appended to the results, for the current frame and the clicked
    position and with movement 0 on frame 0, and no failure message is
    logged; or the results are unchanged and one failure message, for
    frame [current_frame_index + 1], is logged.  ([status_log] holds the
    failure messages of [log_status] only; the progress messages that the
    handler logs on every click are not part of it.)  Results that were not
    longer than the positions are not longer afterwards. *)
Theorem sequential_click_outcome (lib : Library) (s : Session)
    (star_pos : Position) :
  let s' := on_sequential_tracking_click lib s star_pos in
  frame_positions s' = frame_positions s ++ [Some star_pos]
  /\ ((exists r,
         photometry_results s' = photometry_results s ++ [r]
         /\ image_index r = current_frame_index s
         /\ tracked_position r = star_pos
         /\ (current_frame_index s = 0%nat -> movement_pixels r = 0)
         /\ status_log s' = status_log s)
      \/ (photometry_results s' = photometry_results s
          /\ exists e,
               status_log s'
               = status_log s
                 ++ [ErrorProcessingFrame (current_frame_index s + 1) e]))
  /\ ((length (photometry_results s) <= length (frame_positions s))%nat ->
      (length (photometry_results s') <= length (frame_positions s'))%nat).
Proof.
  cbv zeta. unfold on_sequential_tracking_click, process_current_frame.
  set (s0 := set_frame_positions (frame_positions s ++ [Some star_pos]) s).
  match goal with
  | |- context [match ?b with Ok _ => _ | Raise _ => _ end] =>
      destruct b as [r|e] eqn:E
  end.
  - cbn [set_photometry_results frame_positions photometry_results
         status_log]. subst s0.
    cbn [set_frame_positions frame_positions photometry_results status_log].
    split; [reflexivity|]. split.
    + left. exists r. split; [reflexivity|].
      apply bind_ok in E. destruct E as (f & _ & E).
      apply bind_ok in E. destruct E as (gray & _ & E).
      apply bind_ok in E. destruct E as (phot & _ & E).
      apply bind_ok in E. destruct E as (movement & Hm & E).
      injection E as <-. cbn. repeat split.
      intros H0. cbn [set_frame_positions current_frame_index] in Hm.
      rewrite H0 in Hm. cbn in Hm. now injection Hm.
    + rewrite !length_app. cbn. lia.
  - cbn [log_status frame_positions photometry_results status_log].
    subst s0.
    cbn [set_frame_positions frame_positions photometry_results status_log
         current_frame_index].
    split; [reflexivity|]. split.
    + right. split; [reflexivity|]. now exists e.
    + rewrite length_app. cbn. lia.
Qed.

Lemma sequential_click_outcome_witness :
  (length (photometry_results
             (on_sequential_tracking_click example_library
                second_frame_session (3%R, 4%R)))
   <= length (frame_positions
                (on_sequential_tracking_click example_library
                   second_frame_session (3%R, 4%R))))%nat.
Proof.
  apply (sequential_click_outcome example_library second_frame_session).
  simpl. lia.
Defined.

Lemma sequential_movement_from_previous_witness :
  exists r,
    photometry_results
      (process_current_frame example_library second_frame_session (3, 4))
    = photometry_results second_frame_session ++ [r]
    /\ image_index r = 1%nat
    /\ tracked_position r = (3, 4)
    /\ movement_pixels r = distance (3, 4) (0, 0).
Proof.
  destruct (measure_gray_default example_library dark_plane (3, 4) _ eq_refl)
    as [m Hm].
  apply (sequential_movement_from_previous example_library
           second_frame_session (3, 4) (0, 0) (good_file "b.fit")
           dark_plane (GrayResult m)); try reflexivity; try (simpl; lia).
  exact Hm.
Defined.

Lemma batch_movement_from_first_witness :
  exists r first,
    batch_frame_result example_library drift_session
      (2%nat, (good_file "c.fit", Some (6, 8))) = Some r
    /\ nth_error (preselected_positions drift_session) 0
       = Some (Some first)
    /\ movement_pixels r = distance (tracked_position r) first.
Proof.
  destruct (measure_gray_default example_library dark_plane (6, 8) _ eq_refl)
    as [m Hm].
  assert (E : batch_frame_result example_library drift_session
                (2%nat, (good_file "c.fit", Some (6, 8)))
              = Some (mkResultRecord 2 "c.fit" "star" (6, 8)
                        (distance (6, 8) (0, 0)) false (GrayResult m))).
  { unfold batch_frame_result.
    cbn [decoded good_file drift_session batch_session
         preselected_positions index nth_error subscript bind Nat.eqb
         aperture_params].
    rewrite Hm. reflexivity. }
  destruct (batch_movement_from_first example_library drift_session 2
              (good_file "c.fit") (Some (6, 8)) _ (Nat.lt_0_succ 1) E)
    as (first & Hf & Hmv).
  eexists. exists first. split; [exact E|]. split; assumption.
Defined.

(** ** Clearing and resuming *)

Lemma firstn_firstn_same {A} (k : nat) (l : list A) :
  firstn k (firstn k l) = firstn k l.
Proof. rewrite firstn_firstn. now rewrite Nat.min_id. Qed.

Lemma filter_filter_same {A} (f : A -> bool) (l : list A) :
  filter f (filter f l) = filter f l.
Proof.
  induction l as [|a l IH]; [reflexivity|]. simpl.
  destruct (f a) eqn:E; simpl; [rewrite E|]; now rewrite ?IH.
Qed.

Lemma nth_error_firstn_end {A} (k : nat) (l : list A) :
  nth_error (firstn k l) k = None.
Proof. rewrite nth_error_firstn, Nat.ltb_irrefl. reflexivity. Qed.

(** X15.  Clearing from the current frame [k] leaves at most [k] positions in
    either list, keeps exactly the results of the frames before [k], in
    their order, and does nothing when it is done a second time. *)
Theorem clear_data_from_current_frame_cuts (s : Session) :
  let k := current_frame_index s in
  let s' := clear_data_from_current_frame s in
  (length (preselected_positions s') <= k)%nat
  /\ (length (frame_positions s') <= k)%nat
  /\ Forall (fun r => (image_index r < k)%nat) (photometry_results s')
  /\ (forall r, In r (photometry_results s) -> (image_index r < k)%nat ->
        In r (photometry_results s'))
  /\ clear_data_from_current_frame s' = s'.
Proof.
  cbv zeta. unfold clear_data_from_current_frame.
  cbn [set_frame_positions set_photometry_results set_preselected_positions
       frame_positions preselected_positions photometry_results
       current_frame_index].
  rewrite !length_firstn. split; [lia|]. split; [lia|]. split; [|split].
  - apply Forall_forall. intros r Hr. apply filter_In in Hr.
    now apply Nat.ltb_lt.
  - intros r Hin Hlt. apply filter_In. split; [exact Hin|].
    now apply Nat.ltb_lt.
  - cbn. now rewrite !firstn_firstn_same, filter_filter_same.
Qed.

(** X16.  Resuming from a pause by a click on frame [k] always returns.  It
    lifts the pause, forgets the paused mode, cuts both position lists to
    their first [k] entries and drops the results of frame [k] and later.
    The clicked position is not stored: neither list has an entry for
    frame [k] afterwards. *)
Theorem resume_from_pause_drops_click (lib : Library) (s : Session)
    (x y : R) :
  paused s = true ->
  let k := current_frame_index s in
  exists s',
    resume_from_pause lib s x y = Ok s'
    /\ paused s' = false
    /\ paused_tracking_mode s' = None
    /\ frame_positions s' = firstn k (frame_positions s)
    /\ preselected_positions s' = firstn k (preselected_positions s)
    /\ photometry_results s'
       = filter (fun r => (image_index r <? k)%nat) (photometry_results s)
    /\ nth_error (frame_positions s') k = None
    /\ nth_error (preselected_positions s') k = None.
Proof.
  intros Hpaused. cbv zeta. unfold resume_from_pause. rewrite Hpaused.
  set (s1 := set_paused false (clear_data_from_current_frame s)).
  assert (Hdone : forall s2,
            frame_positions s2 = firstn (current_frame_index s)
                                   (frame_positions s) ->
            preselected_positions s2 = firstn (current_frame_index s)
                                         (preselected_positions s) ->
            nth_error (frame_positions s2) (current_frame_index s) = None
            /\ nth_error (preselected_positions s2) (current_frame_index s)
               = None).
  { intros s2 -> ->. split; apply nth_error_firstn_end. }
  destruct (paused_tracking_mode s1) as [[| | |]|] eqn:Em.
  - destruct (refine_click lib s1 x y) as [t refined].
    unfold update_position_after_navigation. cbn.
    eexists. split; [reflexivity|]. cbn. repeat split;
      apply nth_error_firstn_end.
  - eexists. split; [reflexivity|]. cbn. repeat split;
      apply nth_error_firstn_end.
  - destruct (refine_click lib s1 x y) as [t refined].
    unfold update_position_after_navigation. cbn.
    eexists. split; [reflexivity|]. cbn. repeat split;
      apply nth_error_firstn_end.
  - eexists. split; [reflexivity|]. cbn. repeat split;
      apply nth_error_firstn_end.
  - eexists. split; [reflexivity|]. cbn. repeat split;
      apply nth_error_firstn_end.
Qed.

Lemma resume_from_pause_drops_click_witness :
  exists s',
    resume_from_pause example_library paused_sequential_session 9 9 = Ok s'
    /\ frame_positions s' = [Some (1, 1)]
    /\ length (photometry_results s') = 1%nat.
Proof.
  destruct (resume_from_pause_drops_click example_library
              paused_sequential_session 9 9)
    as (s' & Hrun & _ & _ & Hpos & _ & Hres & _); [reflexivity|].
  exists s'. split; [exact Hrun|]. split; [exact Hpos|].
  rewrite Hres. reflexivity.
Defined.

(** X17.  A position clicked on frame [k] while the pre-selection is paused does
    not survive the resume: [resume_preselection] cuts the list to the
    entries before [k], and those are the ones from before the click. *)
Theorem pause_click_then_resume (lib : Library) (s : Session) (x y : R) :
  let k := current_frame_index s in
  let s' :=
    resume_preselection
      (update_preselection_position_during_pause lib s x y false) in
  preselected_positions s' = firstn k (pad_to k (preselected_positions s))
  /\ length (preselected_positions s') = k
  /\ (forall j, (j < k)%nat ->
        nth_error (preselected_positions s') j
        = nth_error (pad_to k (preselected_positions s)) j)
  /\ photometry_results s' = photometry_results s.
Proof.
  cbv zeta. unfold resume_preselection,
    update_preselection_position_during_pause.
  destruct (refine_click lib s x y) as [t refined].
  cbn [set_preselected_positions set_tracker preselected_positions
       current_frame_index photometry_results].
  set (k := current_frame_index s).
  assert (Hk : (k < length (pad_to k (preselected_positions s)))%nat)
    by (rewrite pad_to_length; lia).
  assert (E : pop_down_to k
                (list_set k (Some refined)
                   (pad_to k (preselected_positions s)))
              = firstn k (pad_to k (preselected_positions s))).
  { unfold pop_down_to.
    pose proof (firstn_list_set k (Some refined)
                  (pad_to k (preselected_positions s)) Hk) as H.
    apply (f_equal (firstn k)) in H.
    rewrite firstn_firstn in H.
    replace (Nat.min k (k + 1)) with k in H by lia.
    rewrite H, firstn_app, firstn_firstn_same.
    rewrite length_firstn.
    replace (k - Nat.min k _)%nat with 0%nat by lia.
    cbn. now rewrite app_nil_r. }
  rewrite E. split; [reflexivity|]. split; [|split; [|reflexivity]].
  - rewrite length_firstn. lia.
  - intros j Hj. rewrite nth_error_firstn.
    replace (j <? k)%nat with true by (symmetry; now apply Nat.ltb_lt).
    reflexivity.
Qed.

(** ** Frame navigation *)

Lemma load_frame_for_preselection_pause_same (w : Window) (i : nat) :
  same_data w (load_frame_for_preselection_pause w i)
  /\ current_frame_index (session (load_frame_for_preselection_pause w i))
     = current_frame_index (session w).
Proof.
  unfold load_frame_for_preselection_pause.
  destruct (nth_error _ i) as [f|]; [|now repeat split].
  destruct (decoded f); now repeat split.
Qed.

Lemma load_frame_for_pause_navigation_same (w : Window) (i : nat) :
  same_data w (load_frame_for_pause_navigation w i)
  /\ current_frame_index (session (load_frame_for_pause_navigation w i))
     = current_frame_index (session w).
Proof.
  unfold load_frame_for_pause_navigation.
  destruct (nth_error _ i) as [f|]; [|now repeat split].
  destruct (decoded f); now repeat split.
Qed.

Lemma navigate_to_same (w : Window) (i : nat) :
  same_data w (navigate_to w i)
  /\ current_frame_index (session (navigate_to w i)) = i.
Proof.
  unfold navigate_to.
  set (w1 := mkWindow _ _ _ _ _).
  destruct (preselection_mode w && preselection_paused w).
  - destruct (load_frame_for_preselection_pause_same w1 i) as [H1 H2].
    split; [exact H1|exact H2].
  - destruct (fits_files (session w)) eqn:E.
    + now repeat split.
    + destruct (load_frame_for_pause_navigation_same w1 i) as [H1 H2].
      split; [exact H1|exact H2].
Qed.

(** X18.  Going back and skipping only inspect: the files, both position lists,
    the results and the histories are untouched.  The index moves by one
    frame at most and stays below the number of frames; going back at
    frame 0 and skipping at the last frame do nothing; and where
    navigation is allowed, skipping and then going back returns to the
    frame it started from. *)
Theorem navigation_only_inspects (w : Window) :
  let k := current_frame_index (session w) in
  let n := length (fits_files (session w)) in
  same_data w (go_back_frame w)
  /\ same_data w (skip_frame w)
  /\ (current_frame_index (session (go_back_frame w)) = k
      \/ current_frame_index (session (go_back_frame w)) = (k - 1)%nat)
  /\ (current_frame_index (session (skip_frame w)) = k
      \/ current_frame_index (session (skip_frame w)) = (k + 1)%nat)
  /\ ((k < n)%nat ->
      (current_frame_index (session (skip_frame w)) < n)%nat)
  /\ (k = 0%nat -> go_back_frame w = w)
  /\ ((n <= k + 1)%nat -> skip_frame w = w)
  /\ (preselection_mode w && negb (preselection_paused w) = false ->
      (k + 1 < n)%nat ->
      current_frame_index (session (go_back_frame (skip_frame w))) = k).
Proof.
  cbv zeta.
  assert (Hback : forall v,
            same_data v (go_back_frame v)
            /\ (current_frame_index (session (go_back_frame v))
                = current_frame_index (session v)
                \/ current_frame_index (session (go_back_frame v))
                   = (current_frame_index (session v) - 1)%nat)).
  { intros v. unfold go_back_frame.
    destruct (_ <=? 0)%nat; [repeat split; now left|].
    destruct (preselection_mode v && negb (preselection_paused v));
      [repeat split; now left|].
    destruct (navigate_to_same v (current_frame_index (session v) - 1))
      as [H1 H2]. split; [exact H1|now right]. }
  assert (Hskip : same_data w (skip_frame w)
            /\ (current_frame_index (session (skip_frame w))
                = current_frame_index (session w)
                \/ ((current_frame_index (session w) + 1
                     < length (fits_files (session w)))%nat
                    /\ current_frame_index (session (skip_frame w))
                       = (current_frame_index (session w) + 1)%nat))).
  { unfold skip_frame.
    destruct (Nat.leb_spec (length (fits_files (session w)))
                (current_frame_index (session w) + 1));
      [repeat split; now left|].
    destruct (preselection_mode w && negb (preselection_paused w));
      [repeat split; now left|].
    destruct (navigate_to_same w (current_frame_index (session w) + 1))
      as [H1 H2]. split; [exact H1|]. right. split; [lia|exact H2]. }
  destruct (Hback w) as [Hb1 Hb2]. destruct Hskip as [Hs1 Hs2].
  split; [exact Hb1|]. split; [exact Hs1|]. split; [exact Hb2|].
  split; [tauto|]. split; [|split; [|split]].
  - intros Hk. destruct Hs2 as [->|[Hlt ->]]; lia.
  - intros Hk. unfold go_back_frame. now rewrite Hk.
  - intros Hn. unfold skip_frame.
    now replace (_ <=? _)%nat with true by (symmetry; now apply Nat.leb_le).
  - intros Hallowed Hlt.
    assert (E : current_frame_index (session (skip_frame w))
                = (current_frame_index (session w) + 1)%nat
                /\ same_data w (skip_frame w)).
    { unfold skip_frame.
      replace (_ <=? _)%nat with false
        by (symmetry; apply Nat.leb_gt; lia).
      rewrite Hallowed.
      destruct (navigate_to_same w (current_frame_index (session w) + 1))
        as [H1 H2]. now split. }
    destruct E as [Ek (_ & _ & _ & _ & _ & Hm & Hp)].
    unfold go_back_frame. rewrite Ek, Hm, Hp, Hallowed.
    replace (_ <=? 0)%nat with false by (symmetry; apply Nat.leb_gt; lia).
    destruct (navigate_to_same (skip_frame w)
                (current_frame_index (session w) + 1 - 1)) as [_ H].
    rewrite H. lia.
Qed.

Lemma navigation_only_inspects_witness :
  current_frame_index
    (session (go_back_frame (skip_frame paused_preselection_window)))
  = 0%nat.
Proof.
  apply (navigation_only_inspects paused_preselection_window).
  - reflexivity.
  - simpl. lia.
Defined.

(** * Part V: the consensus scorer *)

Lemma sort_descending_head {A} (key : A -> R) (l : list A) :
  match hd_error (sort_descending key l) with
  | Some c => In c l /\ forall c', In c' l -> key c' <= key c
  | None => l = []
  end.
Proof.
  induction l as [|a l IH]; [reflexivity|].
  cbn [sort_descending fold_right]. fold (sort_descending key l).
  destruct (sort_descending key l) as [|y s].
  - cbn in IH. subst l. cbn. split; [now left|].
    intros c' [<-|[]]. lra.
  - cbn [hd_error] in IH. destruct IH as [Hin Hmax].
    cbn [insert_descending]. unfold Rltb.
    destruct (Rlt_dec (key a) (key y)) as [Hlt|Hge]; cbn [hd_error].
    + split; [now right|]. intros c' [<-|Hc']; [lra|now apply Hmax].
    + split; [now left|]. intros c' [<-|Hc']; [lra|].
      specialize (Hmax c' Hc'). lra.
Qed.

Lemma distance_nonneg (a b : Position) : 0 <= distance a b.
Proof. unfold distance. apply sqrt_pos. Qed.

(** X19.  The consensus scorer returns no candidate exactly when it is given
    none.  Otherwise it returns one of the candidates it was given, and no
    candidate has a higher score.  With a positive search radius and
    confidences between 0 and 1 every score lies between 0 and 1. *)
Theorem best_candidate_has_top_score (candidates : list Candidate)
    (search_x search_y search_radius : R) :
  0 < search_radius ->
  let score := total_score candidates search_x search_y search_radius in
  (_select_best_candidate candidates search_x search_y search_radius = None
   <-> candidates = [])
  /\ (forall c,
        _select_best_candidate candidates search_x search_y search_radius
        = Some c ->
        In c candidates
        /\ forall c', In c' candidates -> score c' <= score c)
  /\ (forall c, 0 <= confidence c <= 1 -> 0 <= score c <= 1).
Proof.
  intros Hr. cbv zeta. split; [|split].
  - unfold _select_best_candidate.
    destruct candidates as [|a l]; [tauto|].
    pose proof (sort_descending_head
                  (total_score (a :: l) search_x search_y search_radius)
                  (a :: l)) as H.
    destruct (hd_error _); split; try discriminate; intros; congruence.
  - intros c. unfold _select_best_candidate.
    destruct candidates as [|a l]; [discriminate|].
    pose proof (sort_descending_head
                  (total_score (a :: l) search_x search_y search_radius)
                  (a :: l)) as H.
    destruct (hd_error _) as [c0|]; [|discriminate].
    intros E. injection E as <-. exact H.
  - intros c [Hc0 Hc1]. unfold total_score.
    set (d1 := distance _ (np_median _, np_median _)).
    set (d2 := distance _ (search_x, search_y)).
    assert (H1 : 0 <= d1) by apply distance_nonneg.
    assert (H2 : 0 <= d2) by apply distance_nonneg.
    assert (H3 : 0 <= d2 / search_radius).
    { apply Rmult_le_pos; [exact H2|].
      apply Rlt_le, Rinv_0_lt_compat, Hr. }
    assert (Hs1 : 0 <= Rmax 0 (1 - d1 / 5) <= 1).
    { split; [apply Rmax_l|]. apply Rmax_lub; lra. }
    assert (Hs2 : 0 <= Rmax 0 (1 - d2 / search_radius) <= 1).
    { split; [apply Rmax_l|]. apply Rmax_lub; lra. }
    lra.
Qed.

Lemma best_candidate_has_top_score_witness :
  exists c,
    _select_best_candidate three_candidates 10 10 25 = Some c
    /\ In c three_candidates
    /\ 0 <= total_score three_candidates 10 10 25 c <= 1.
Proof.
  destruct (best_candidate_has_top_score three_candidates 10 10 25)
    as (Hnone & Hbest & Hrange); [lra|].
  destruct (_select_best_candidate three_candidates 10 10 25) as [c|] eqn:E.
  - exists c. split; [reflexivity|].
    destruct (Hbest c eq_refl) as [Hin _]. split; [exact Hin|].
    apply Hrange.
    destruct Hin as [<-|[<-|[<-|[]]]]; cbn; lra.
  - destruct Hnone as [Hnil _]. discriminate (Hnil eq_refl).
Defined.

(** * Part VI: the search region *)

Lemma py_slice_window {A} (c radius bound : Z) (l : list A) :
  (0 <= radius)%Z -> (0 <= c)%Z -> (0 <= bound)%Z ->
  (Z.of_nat (length (py_slice (Z.max 0 (c - radius))
                       (Z.min bound (c + radius)) l))
   <= 2 * radius)%Z.
Proof.
  intros Hr Hc Hb. unfold py_slice, slice_index.
  replace (Z.max 0 (c - radius) <? 0)%Z with false
    by (symmetry; apply Z.ltb_ge; lia).
  replace (Z.min bound (c + radius) <? 0)%Z with false
    by (symmetry; apply Z.ltb_ge; lia).
  rewrite length_firstn, length_skipn. lia.
Qed.

Lemma py_slice_shorter {A} (lo hi : Z) (l : list A) :
  (length (py_slice lo hi l) <= length l)%nat.
Proof.
  unfold py_slice. rewrite length_firstn, length_skipn. lia.
Qed.

Lemma py_int_nonneg (x : R) : 0 <= x -> (0 <= py_int x)%Z.
Proof.
  intros H. unfold py_int. destruct (Rle_dec 0 x); [|contradiction].
  apply Zfloor_lub. exact H.
Qed.

Lemma predicted_is_search_centre (t : Tracker) (e : Position) :
  (if Position_eq_dec (_predict_position_with_momentum t e) e then e
   else _predict_position_with_momentum t e)
  = _predict_position_with_momentum t e.
Proof. destruct (Position_eq_dec _ _); congruence. Qed.

(** X20.  The cutout is a part of the plane: whatever holds of every pixel of
    the plane holds of every pixel of the cutout, and it has no more rows
    than the plane.  For a non-negative base radius and a search centre
    with non-negative coordinates, the cutout has at most
    [2 * adaptive_radius] rows of at most [2 * adaptive_radius] pixels
    each. *)
Theorem search_cutout_within (t : Tracker) (image_data : PixelPlane)
    (expected_pos : Position) (base_radius : Z) (P : R -> Prop) :
  let sr := search_region t image_data expected_pos base_radius in
  (Forall (Forall P) image_data -> Forall (Forall P) (cutout sr))
  /\ (length (cutout sr) <= length image_data)%nat
  /\ ((0 <= base_radius)%Z ->
      0 <= fst (predicted_pos sr) -> 0 <= snd (predicted_pos sr) ->
      (Z.of_nat (length (cutout sr)) <= 2 * adaptive_radius sr)%Z
      /\ Forall (fun row =>
                   (Z.of_nat (length row) <= 2 * adaptive_radius sr)%Z)
                (cutout sr)).
Proof.
  cbv zeta. unfold search_region.
  cbn [cutout predicted_pos adaptive_radius].
  rewrite predicted_is_search_centre.
  split; [apply Forall_slice2|]. split.
  - unfold slice2. rewrite length_map. apply py_slice_shorter.
  - intros Hbase Hx Hy.
    pose proof (adaptive_radius_between t base_radius Hbase) as [Hlo _].
    assert (Hrad : (0 <= _calculate_adaptive_search_radius t base_radius)%Z)
      by lia.
    split.
    + unfold slice2. rewrite length_map.
      apply py_slice_window; [exact Hrad|now apply py_int_nonneg|].
      unfold shape0. lia.
    + unfold slice2. apply Forall_map, Forall_forall. intros row _.
      apply py_slice_window; [exact Hrad|now apply py_int_nonneg|].
      unfold shape1. lia.
Qed.

Lemma search_cutout_within_witness :
  (Z.of_nat (length (cutout (search_region empty_tracker dark_plane
                               (10%R, 10%R) 4))) <= 2 * 4)%Z.
Proof.
  apply (search_cutout_within empty_tracker dark_plane (10%R, 10%R) 4
           (fun _ => True)); [lia| |];
    rewrite (search_region_fresh _ _ 10 10 4) by (simpl; lia);
    cbn [predicted_pos fst snd]; lra.
Defined.

(** * Part VII: position files *)

Lemma round_half_even_near (x : R) :
  - (1 / 2) <= IZR (round_half_even x) - x <= 1 / 2.
Proof.
  unfold round_half_even. pose proof (Zfloor_bound x) as [Hlo Hhi].
  unfold Rltb.
  destruct (Rlt_dec (x - IZR (Zfloor x)) (1 / 2)) as [H1|H1].
  - lra.
  - destruct (Rlt_dec (1 / 2) (x - IZR (Zfloor x))) as [H2|H2].
    + rewrite plus_IZR. lra.
    + destruct (Z.even (Zfloor x)); [|rewrite plus_IZR]; lra.
Qed.

Lemma round_half_even_IZR (z : Z) : round_half_even (IZR z) = z.
Proof.
  unfold round_half_even. rewrite ZfloorZ.
  replace (IZR z - IZR z) with 0 by ring.
  rewrite Rltb_true by lra. reflexivity.
Qed.

Lemma two_decimals_near (x : R) : Rabs (two_decimals x - x) <= 1 / 200.
Proof.
  unfold two_decimals.
  pose proof (round_half_even_near (x * 100)) as H.
  apply Rabs_le. lra.
Qed.

Lemma two_decimals_idem (x : R) :
  two_decimals (two_decimals x) = two_decimals x.
Proof.
  unfold two_decimals at 1 3.
  replace (two_decimals x * 100) with (IZR (round_half_even (x * 100)))
    by (unfold two_decimals; field).
  now rewrite round_half_even_IZR.
Qed.

Lemma rounded_idem (p : Position) : rounded (rounded p) = rounded p.
Proof. unfold rounded. cbn [fst snd]. now rewrite !two_decimals_idem. Qed.

Lemma star_name_cell_nonempty (stripped : String.string) :
  String.eqb (star_name_cell stripped) "" = false.
Proof.
  unfold star_name_cell.
  destruct (String.eqb stripped "") eqn:E; [reflexivity|exact E].
Qed.

Lemma selected_map_Some {A} (l : list A) : selected (map Some l) = l.
Proof. induction l as [|a l IH]; cbn; [reflexivity|now rewrite IH]. Qed.

Lemma map_Some_selected {A} (l : list (option A)) :
  Forall (fun p => p <> None) l -> map Some (selected l) = l.
Proof.
  induction 1 as [|p l Hp _ IH]; [reflexivity|].
  destruct p as [a|]; [cbn; now rewrite IH|congruence].
Qed.

Lemma read_positions_app (l1 l2 : list PositionRow) :
  read_positions (l1 ++ l2) = read_positions l1 ++ read_positions l2.
Proof. apply map_app. Qed.

(** The rows written from frame [a] on. *)
Lemma position_rows_read (s : Session) (stripped : String.string)
    (sliders : ApertureParams) (ps : list (option Position)) (a : nat) :
  read_positions
    (flat_map (position_row s stripped sliders)
       (combine (seq a (length ps)) ps))
  = map rounded (selected (firstn (length (fits_files s) - a) ps)).
Proof.
  revert a. induction ps as [|p ps IH]; intros a.
  - now rewrite firstn_nil.
  - cbn [length seq combine flat_map]. rewrite read_positions_app, IH.
    unfold position_row. cbn [fst snd].
    destruct (nth_error (fits_files s) a) as [f|] eqn:Hf.
    + assert (Ha : (a < length (fits_files s))%nat)
        by (apply nth_error_Some; congruence).
      replace (length (fits_files s) - a)%nat
        with (S (length (fits_files s) - S a)) by lia.
      cbn [firstn]. destruct p as [[x y]|]; reflexivity.
    + apply nth_error_None in Hf.
      replace (length (fits_files s) - a)%nat with 0%nat by lia.
      replace (length (fits_files s) - S a)%nat with 0%nat by lia.
      destruct p as [[x y]|]; reflexivity.
Qed.

Lemma position_rows_index (s : Session) (stripped : String.string)
    (sliders : ApertureParams) (ps : list (option Position)) :
  forall (a j : nat) (row : PositionRow),
    nth_error
      (flat_map (position_row s stripped sliders)
         (combine (seq a (length ps)) ps)) j = Some row ->
    (a + j <= row_image_index row)%nat
    /\ (exists p,
          nth_error ps (row_image_index row - a) = Some (Some p)
          /\ (row_x_position row, row_y_position row) = rounded p)
    /\ (forall k, nth_error ps k = Some None -> (k <= j)%nat ->
          (a + j < row_image_index row)%nat).
Proof.
  induction ps as [|p ps IH]; intros a j row Hrow.
  - destruct j; discriminate Hrow.
  - cbn [length seq combine flat_map] in Hrow.
    assert (Hshift : forall j',
              nth_error
                (flat_map (position_row s stripped sliders)
                   (combine (seq (S a) (length ps)) ps)) j' = Some row ->
              (S a + j' <= row_image_index row)%nat
              /\ (exists q,
                    nth_error (p :: ps) (row_image_index row - a)
                    = Some (Some q)
                    /\ (row_x_position row, row_y_position row)
                       = rounded q)
              /\ (forall k, nth_error ps k = Some None -> (k <= j')%nat ->
                    (S a + j' < row_image_index row)%nat)).
    { intros j' H. destruct (IH _ _ _ H) as (Hle & (q & Hq & Hxy) & Hgap).
      split; [exact Hle|]. split; [|exact Hgap].
      exists q. split; [|exact Hxy].
      replace (row_image_index row - a)%nat
        with (S (row_image_index row - S a)) by lia.
      exact Hq. }
    unfold position_row at 1 in Hrow. cbn [fst snd] in Hrow.
    destruct p as [[x y]|];
      [destruct (nth_error (fits_files s) a) as [f|]|].
    + destruct j as [|j'].
      * cbn in Hrow. injection Hrow as <-. cbn [row_image_index
          row_x_position row_y_position].
        split; [lia|]. split.
        -- exists (x, y). rewrite Nat.sub_diag. split; reflexivity.
        -- intros k Hk Hle. assert (k = 0%nat) by lia. subst k.
           discriminate Hk.
      * cbn [app nth_error] in Hrow.
        destruct (Hshift _ Hrow) as (Hle & Hq & Hgap).
        split; [lia|]. split; [exact Hq|].
        intros k Hk Hkj. destruct k as [|k']; [discriminate Hk|].
        cbn in Hk. specialize (Hgap k' Hk). lia.
    + cbn [app] in Hrow. destruct (Hshift _ Hrow) as (Hle & Hq & _).
      split; [lia|]. split; [exact Hq|]. intros; lia.
    + cbn [app] in Hrow. destruct (Hshift _ Hrow) as (Hle & Hq & _).
      split; [lia|]. split; [exact Hq|]. intros; lia.
Qed.

Lemma position_rows_cells (s : Session) (stripped : String.string)
    (sliders : ApertureParams) :
  Forall (fun row =>
            row_star_name row = star_name_cell stripped
            /\ aperture_inner_radius row
               = two_decimals (inner_radius sliders)
            /\ aperture_inner_annulus row
               = two_decimals (inner_annulus sliders)
            /\ aperture_outer_annulus row
               = two_decimals (outer_annulus sliders))
         (position_rows s stripped sliders).
Proof.
  apply Forall_forall. intros row Hin. unfold position_rows in Hin.
  apply in_flat_map in Hin. destruct Hin as (item & _ & Hin).
  unfold position_row in Hin.
  destruct (snd item) as [[x y]|]; [|contradiction].
  destruct (nth_error (fits_files s) (fst item)); [|contradiction].
  destruct Hin as [<-|[]]. repeat split.
Qed.

Lemma load_star_positions_rows (first : PositionRow)
    (rest : list PositionRow) (s0 : Session) :
  let s' := load_star_positions (first :: rest) s0 in
  preselected_positions s' = map Some (read_positions (first :: rest))
  /\ aperture_params s'
     = mkApertureParams (aperture_inner_radius first)
         (aperture_inner_annulus first) (aperture_outer_annulus first)
  /\ fits_files s' = fits_files s0
  /\ (String.eqb (row_star_name first) "" = false ->
      star_name s' = row_star_name first).
Proof.
  cbv zeta. unfold load_star_positions.
  cbn [first_star_name].
  destruct (String.eqb (row_star_name first) "") eqn:E.
  - destruct (String.eqb (first_star_name rest) "");
      repeat split; discriminate.
  - rewrite E. repeat split.
Qed.

Lemma start_batch_processing_rows (first : PositionRow)
    (rest : list PositionRow) (confirmed : bool) (s0 : Session) :
  let s' := start_batch_processing (first :: rest) confirmed s0 in
  preselected_positions s' = map Some (read_positions (first :: rest))
  /\ aperture_params s' = aperture_params s0
  /\ fits_files s' = fits_files s0.
Proof.
  cbv zeta. unfold start_batch_processing.
  destruct (String.eqb (first_star_name (first :: rest)) ""), confirmed;
    repeat split.
Qed.

(** X21.  Saving and loading keeps the frames aligned when every frame has a
    position: for a complete list of positions on no more frames than are
    loaded, the file is written, and either loader gives back a list of
    the same length whose entry for frame [i] is the position of frame
    [i] with both coordinates rounded to two decimals, hence within half
    a hundredth of a pixel of it.  [load_star_positions] also takes the
    star name and the rounded slider values from the file;
    [start_batch_processing] keeps the aperture of the session. *)
Theorem positions_file_round_trip (s s0 : Session)
    (stripped : String.string) (sliders : ApertureParams)
    (response : Conflict) (confirmed : bool) :
  preselected_positions s <> [] ->
  response <> Cancel ->
  (length (preselected_positions s) <= length (fits_files s))%nat ->
  Forall (fun p => p <> None) (preselected_positions s) ->
  exists rows,
    auto_save_star_positions s stripped sliders response = Some rows
    /\ let s' := load_star_positions rows s0 in
       length (preselected_positions s') = length (preselected_positions s)
       /\ (forall i p,
             nth_error (preselected_positions s) i = Some (Some p) ->
             nth_error (preselected_positions s') i
             = Some (Some (rounded p))
             /\ Rabs (fst (rounded p) - fst p) <= 1 / 200
             /\ Rabs (snd (rounded p) - snd p) <= 1 / 200)
       /\ star_name s' = star_name_cell stripped
       /\ aperture_params s'
          = mkApertureParams (two_decimals (inner_radius sliders))
              (two_decimals (inner_annulus sliders))
              (two_decimals (outer_annulus sliders))
       /\ preselected_positions (start_batch_processing rows confirmed s0)
          = preselected_positions s'
       /\ aperture_params (start_batch_processing rows confirmed s0)
          = aperture_params s0.
Proof.
  intros Hne Hresp Hlen Hall.
  exists (position_rows s stripped sliders). split.
  { unfold auto_save_star_positions.
    destruct (preselected_positions s); [congruence|].
    destruct response; congruence. }
  assert (Hread : map Some (read_positions (position_rows s stripped sliders))
                  = map (option_map rounded) (preselected_positions s)).
  { unfold position_rows. rewrite position_rows_read, Nat.sub_0_r.
    rewrite firstn_all2 by exact Hlen.
    rewrite <- (map_Some_selected _ Hall) at 2.
    rewrite !map_map. reflexivity. }
  pose proof (position_rows_cells s stripped sliders) as Hcells.
  destruct (position_rows s stripped sliders) as [|first rest] eqn:Hrows.
  { destruct (preselected_positions s); [congruence|discriminate Hread]. }
  apply Forall_inv in Hcells. destruct Hcells as (Hname & Hr1 & Hr2 & Hr3).
  destruct (load_star_positions_rows first rest s0)
    as (Hpos & Hap & _ & Hstar).
  destruct (start_batch_processing_rows first rest confirmed s0)
    as (Hpos' & Hap' & _).
  cbv zeta. rewrite Hpos, Hap, Hpos', Hread, Hr1, Hr2, Hr3.
  split; [apply length_map|]. split.
  { intros i p Hi. split.
    - rewrite nth_error_map, Hi. reflexivity.
    - unfold rounded. cbn [fst snd]. split; apply two_decimals_near. }
  split.
  { rewrite Hstar; [exact Hname|].
    rewrite Hname. apply star_name_cell_nonempty. }
  repeat split. exact Hap'.
Qed.

Lemma positions_file_round_trip_witness :
  exists rows,
    auto_save_star_positions drift_session "star" default_aperture_params
      NoConflict = Some rows
    /\ length (preselected_positions (load_star_positions rows drift_session))
       = 3%nat.
Proof.
  destruct (positions_file_round_trip drift_session drift_session "star"
              default_aperture_params NoConflict true)
    as (rows & Hsave & Hlen & _).
  - discriminate.
  - discriminate.
  - cbn. lia.
  - repeat (apply Forall_cons; [discriminate|]). apply Forall_nil.
  - exists rows. split; [exact Hsave|exact Hlen].
Defined.

(** X22.  The loaders do not read the [image_index] column: the position of row
    [j] becomes the position of frame [j].  When the position of a frame
    [k] is missing from the saved list, every row [j >= k] of the file
    belongs to a later frame [i > j], and both loaders store the position
    that was saved for frame [i] as the position of frame [j]. *)
Theorem saved_gap_shifts_positions (s s0 : Session)
    (stripped : String.string) (sliders : ApertureParams)
    (confirmed : bool) (k j : nat) (row : PositionRow) :
  let rows := position_rows s stripped sliders in
  nth_error (preselected_positions s) k = Some None ->
  (k <= j)%nat ->
  nth_error rows j = Some row ->
  exists p,
    (j < row_image_index row)%nat
    /\ nth_error (preselected_positions s) (row_image_index row)
       = Some (Some p)
    /\ nth_error (preselected_positions (load_star_positions rows s0)) j
       = Some (Some (rounded p))
    /\ nth_error
         (preselected_positions (start_batch_processing rows confirmed s0))
         j
       = Some (Some (rounded p)).
Proof.
  cbv zeta. intros Hk Hkj Hrow.
  destruct (position_rows_index s stripped sliders (preselected_positions s)
              0 j row Hrow) as (_ & (p & Hp & Hxy) & Hgap).
  rewrite Nat.sub_0_r in Hp. specialize (Hgap k Hk Hkj).
  exists p. split; [exact Hgap|]. split; [exact Hp|].
  fold (position_rows s stripped sliders) in Hrow.
  destruct (position_rows s stripped sliders) as [|first rest] eqn:Hrows.
  { destruct j; discriminate Hrow. }
  destruct (load_star_positions_rows first rest s0) as (Hpos & _).
  destruct (start_batch_processing_rows first rest confirmed s0)
    as (Hpos' & _).
  rewrite Hpos, Hpos'. unfold read_positions.
  rewrite map_map, nth_error_map, Hrow. cbn [option_map].
  rewrite Hxy. split; reflexivity.
Qed.

Lemma saved_gap_shifts_positions_witness :
  exists p,
    nth_error (preselected_positions cleared_session) 2 = Some (Some p)
    /\ nth_error
         (preselected_positions
            (load_star_positions
               (position_rows cleared_session "star"
                  default_aperture_params) cleared_session)) 1
       = Some (Some (rounded p)).
Proof.
  destruct (saved_gap_shifts_positions cleared_session cleared_session
              "star" default_aperture_params true 1 1
              (mkPositionRow 2 "c.fit" "star" (two_decimals 3)
                 (two_decimals 3) (two_decimals 9) (two_decimals 12)
                 (two_decimals 17)))
    as (p & _ & Hp & Hload & _).
  - reflexivity.
  - lia.
  - reflexivity.
  - exists p. split; [exact Hp|exact Hload].
Defined.

(** X23.  A second round trip changes nothing: when the positions loaded from a
    saved file are saved again (under any star name, with the loaded
    aperture on the sliders) and loaded again, the positions and the
    aperture are the ones of the first load. *)
Theorem reloaded_positions_stable (s s0 : Session)
    (stripped stripped' : String.string) (sliders : ApertureParams) :
  let rows := position_rows s stripped sliders in
  let s1 := load_star_positions rows s0 in
  let rows' := position_rows s1 stripped' (aperture_params s1) in
  rows <> [] ->
  (length rows <= length (fits_files s0))%nat ->
  read_positions rows' = read_positions rows
  /\ preselected_positions (load_star_positions rows' s1)
     = preselected_positions s1
  /\ aperture_params (load_star_positions rows' s1) = aperture_params s1.
Proof.
  cbv zeta. intros Hne Hlen.
  pose proof (position_rows_cells s stripped sliders) as Hcells.
  assert (Hread : exists l,
            read_positions (position_rows s stripped sliders)
            = map rounded l).
  { eexists. unfold position_rows. apply position_rows_read. }
  destruct Hread as (l & Hread).
  destruct (position_rows s stripped sliders) as [|first rest] eqn:Hrows;
    [congruence|].
  apply Forall_inv in Hcells. destruct Hcells as (_ & Hr1 & Hr2 & Hr3).
  destruct (load_star_positions_rows first rest s0)
    as (Hpos & Hap & Hfiles & _).
  set (s1 := load_star_positions (first :: rest) s0) in *.
  assert (Hread' : read_positions (position_rows s1 stripped'
                                     (aperture_params s1))
                   = read_positions (first :: rest)).
  { unfold position_rows at 1. rewrite position_rows_read, Nat.sub_0_r.
    rewrite Hpos, Hfiles.
    rewrite firstn_all2
      by (rewrite length_map; unfold read_positions;
          rewrite length_map; exact Hlen).
    rewrite selected_map_Some, Hread, map_map.
    apply map_ext. intros p. apply rounded_idem. }
  pose proof (position_rows_cells s1 stripped' (aperture_params s1))
    as Hcells'.
  destruct (position_rows s1 stripped' (aperture_params s1))
    as [|first' rest'] eqn:Hrows'; [discriminate Hread'|].
  apply Forall_inv in Hcells'. destruct Hcells' as (_ & Hq1 & Hq2 & Hq3).
  destruct (load_star_positions_rows first' rest' s1) as (Hpos2 & Hap2 & _).
  split; [exact Hread'|]. split.
  - rewrite Hpos2, Hread', Hpos. reflexivity.
  - rewrite Hap2, Hq1, Hq2, Hq3, Hap. cbn [inner_radius inner_annulus
      outer_annulus]. rewrite Hr1, Hr2, Hr3, !two_decimals_idem.
    reflexivity.
Qed.

Lemma reloaded_positions_stable_witness :
  let rows := position_rows cleared_session "star" default_aperture_params in
  let s1 := load_star_positions rows cleared_session in
  preselected_positions
    (load_star_positions (position_rows s1 "star" (aperture_params s1)) s1)
  = preselected_positions s1.
Proof.
  apply (reloaded_positions_stable cleared_session cleared_session
           "star" "star" default_aperture_params).
  - discriminate.
  - cbn. lia.
Defined.

(** * Part VIII: the workflow buttons *)

Lemma load_frame_for_pause_navigation_flags (w : Window) (i : nat) :
  let s' := session (load_frame_for_pause_navigation w i) in
  stop_processing s' = stop_processing (session w)
  /\ paused s' = paused (session w)
  /\ paused_tracking_mode s' = paused_tracking_mode (session w)
  /\ batch_processing_mode s' = batch_processing_mode (session w).
Proof.
  cbv zeta. unfold load_frame_for_pause_navigation.
  destruct (nth_error _ i) as [f|]; [|now repeat split].
  destruct (decoded f); now repeat split.
Qed.

Lemma pause_processing_pauses (a : App) :
  let s := session (window a) in
  let a' := pause_processing a in
  let s' := session (window a') in
  stop_processing s' = stop_processing s
  /\ same_data (window a) (window a')
  /\ paused s' = true
  /\ paused_tracking_mode s' = Some (fst (paused_mode_and_frame a))
  /\ paused_frame_index a' = Some (snd (paused_mode_and_frame a))
  /\ (fits_files s <> [] ->
      current_frame_index s' = snd (paused_mode_and_frame a)).
Proof.
  cbv zeta. unfold pause_processing.
  generalize (fst (paused_mode_and_frame a)) as mode.
  generalize (snd (paused_mode_and_frame a)) as frame.
  intros frame mode.
  cbn [on_session set_window window session fits_files
       set_paused_tracking_mode set_paused paused_frame_index].
  destruct (fits_files (session (window a))) as [|f fs] eqn:Hf.
  - cbn. repeat split. congruence.
  - match goal with
    | |- context [load_frame_for_pause_navigation ?w ?i] =>
        destruct (load_frame_for_pause_navigation_same w i)
          as ((E1 & E2 & E3 & E4 & E5 & E6 & E7) & E8);
        destruct (load_frame_for_pause_navigation_flags w i)
          as (F1 & F2 & F3 & F4);
        remember (load_frame_for_pause_navigation w i) as L eqn:HL
    end.
    clear HL. cbn in E1, E2, E3, E4, E5, E6, E7, E8, F1, F2, F3, F4.
    cbn [set_window window paused_frame_index].
    unfold same_data.
    rewrite E1, E2, E3, E4, E5, E6, E7, E8, F1, F2, F3.
    repeat split.
Qed.

(** X24.  The stop button never stops: [stop_photometry_processing] leaves
    [stop_processing] and all data as they are.  When nothing runs it does
    nothing; when the run is paused it arms the resume click and changes
    nothing else; otherwise it pauses, recording the mode in the order
    pre-selection, batch, sequential, regular and the frame shown, which
    is frame 0 for a batch. *)
Theorem stop_button_only_pauses (a : App) :
  let s := session (window a) in
  let running :=
    processing a || batch_processing_mode s || preselection_mode (window a)
  in
  let a' := stop_photometry_processing a in
  let s' := session (window a') in
  stop_processing s' = stop_processing s
  /\ same_data (window a) (window a')
  /\ (running = false -> a' = a)
  /\ (running = true -> paused s = true ->
      window a' = window a /\ waiting_for_resume_click a' = true)
  /\ (running = true -> paused s = false ->
      paused s' = true
      /\ paused_tracking_mode s' = Some (fst (paused_mode_and_frame a))
      /\ paused_frame_index a' = Some (snd (paused_mode_and_frame a))
      /\ (batch_processing_mode s = true ->
          preselection_mode (window a) = false ->
          paused_frame_index a' = Some 0%nat)
      /\ (fits_files s <> [] ->
          current_frame_index s' = snd (paused_mode_and_frame a))).
Proof.
  cbv zeta. unfold stop_photometry_processing.
  set (running := processing a
                  || batch_processing_mode (session (window a))
                  || preselection_mode (window a)).
  replace (negb (processing a)
           && negb (batch_processing_mode (session (window a)))
           && negb (preselection_mode (window a)))
    with (negb running)
    by (unfold running; destruct (processing a),
          (batch_processing_mode (session (window a))),
          (preselection_mode (window a)); reflexivity).
  destruct running eqn:Hrun; cbn [negb].
  2: { repeat split; intros; congruence. }
  destruct (paused (session (window a))) eqn:Hpa.
  - unfold resume_from_button. rewrite Hpa. cbn.
    repeat split; intros; congruence.
  - destruct (pause_processing_pauses a)
      as (Hstop & Hsame & Hpaused & Hmode & Hframe & Hidx).
    split; [exact Hstop|]. split; [exact Hsame|].
    split; [discriminate|]. split; [discriminate|].
    intros _ _. split; [exact Hpaused|]. split; [exact Hmode|].
    split; [exact Hframe|]. split; [|exact Hidx].
    intros Hb Hm. rewrite Hframe. unfold paused_mode_and_frame.
    rewrite Hm, Hb. reflexivity.
Qed.

Lemma stop_button_only_pauses_witness :
  let a := set_preselection_mode true (idle_app false) in
  stop_processing (session (window (stop_photometry_processing a))) = false
  /\ paused (session (window (stop_photometry_processing a))) = true.
Proof.
  cbv zeta.
  destruct (stop_button_only_pauses
              (set_preselection_mode true (idle_app false)))
    as (Hstop & _ & _ & _ & Hpause).
  split; [exact Hstop|]. apply Hpause; reflexivity.
Defined.
(** * Part IX: the pre-selection phase *)

Lemma store_at_end {A} (l : list (option A)) (v : A) :
  list_set (length l) (Some v) (pad_to (length l) l) = l ++ [Some v].
Proof.
  unfold pad_to. replace (S (length l) - length l)%nat with 1%nat by lia.
  cbn [repeat]. induction l as [|a l IH]; cbn; [reflexivity|].
  now rewrite IH.
Qed.

Lemma most_recent_position_snoc (l : list (option Position))
    (p : Position) :
  most_recent_position (l ++ [Some p]) = Some p.
Proof. unfold most_recent_position. now rewrite rev_app_distr. Qed.

Lemma load_first_image_keeps (s : Session) :
  let s' := load_first_image s in
  preselected_positions s' = preselected_positions s
  /\ photometry_results s' = photometry_results s
  /\ star_name s' = star_name s
  /\ fits_files s' = fits_files s
  /\ tracking_enabled s' = tracking_enabled s
  /\ current_frame_index s' = current_frame_index s.
Proof.
  cbv zeta. unfold load_first_image.
  destruct (fits_files s) as [|f fs] eqn:Ef; [now repeat split|].
  destruct (decoded f); cbn; rewrite ?Ef; now repeat split.
Qed.

(** What finishing the phase leaves alone. *)
Lemma finish_preselection_phase_keeps (a : App) :
  let a' := finish_preselection_phase a in
  let s := session (window a) in
  let s' := session (window a') in
  preselection_mode (window a') = false
  /\ preselected_positions s' = preselected_positions s
  /\ photometry_results s' = photometry_results s
  /\ star_name s' = star_name s
  /\ fits_files s' = fits_files s
  /\ tracking_enabled s' = tracking_enabled s
  /\ current_frame_index s' = current_frame_index s
  /\ preselection_paused (window a') = preselection_paused (window a)
  /\ waiting_for_resume_reference a' = waiting_for_resume_reference a
  /\ load_errors (window a') = load_errors (window a).
Proof.
  cbv zeta. unfold finish_preselection_phase.
  destruct (load_first_image_keeps (session (window a)))
    as (H1 & H2 & H3 & H4 & H5 & H6).
  cbn [set_preselection_mode set_window window session].
  destruct (preselected_positions (session (window a))) eqn:E;
    cbn [on_session set_window window session preselection_mode
         preselection_paused load_errors waiting_for_resume_reference];
    rewrite ?E; repeat split; assumption.
Qed.

(** Loading a frame with auto-tracking switched off. *)
Lemma manual_load (lib : Library) (fuel : nat) (b : App) (k : nat) :
  let s := session (window b) in
  (0 < fuel)%nat ->
  tracking_enabled s = false ->
  length (preselected_positions s) = k ->
  let o := load_frame_for_preselection lib fuel b k in
  let s' := session (window (app_of o)) in
  (preselected_positions s' = preselected_positions s
   /\ photometry_results s' = photometry_results s
   /\ star_name s' = star_name s
   /\ fits_files s' = fits_files s
   /\ tracking_enabled s' = tracking_enabled s
   /\ current_frame_index s' = current_frame_index s
   /\ preselection_paused (window (app_of o))
      = preselection_paused (window b)
   /\ waiting_for_resume_reference (app_of o)
      = waiting_for_resume_reference b)
  /\ ((length (fits_files s) <= k)%nat ->
      o = PhaseFinished (app_of o)
      /\ preselection_mode (window (app_of o)) = false)
  /\ (forall f d, nth_error (fits_files s) k = Some f ->
        decoded f = Some d ->
        o = Showing (app_of o)
        /\ preselection_mode (window (app_of o))
           = preselection_mode (window b)
        /\ load_errors (window (app_of o)) = load_errors (window b)
        /\ current_image_grayscale s' = Some (tracking_data_of d))
  /\ (forall f, nth_error (fits_files s) k = Some f ->
        decoded f = None ->
        o = PhaseFinished (app_of o)
        /\ preselection_mode (window (app_of o)) = false
        /\ load_errors (window (app_of o))
           = load_errors (window b) ++ [(k + 1)%nat]).
Proof.
  cbv zeta. intros Hfuel Htr Hlen.
  destruct fuel as [|fuel']; [lia|]. cbn [load_frame_for_preselection].
  destruct (length (fits_files (session (window b))) <=? k)%nat eqn:Hn.
  - apply Nat.leb_le in Hn. cbn [app_of].
    destruct (finish_preselection_phase_keeps b)
      as (H1 & H2 & H3 & H4 & H5 & H6 & H7 & H8 & H9 & H10).
    split; [repeat split; assumption|]. split; [auto|].
    split; intros f ? Hf; try intros ?;
      (assert (k < length (fits_files (session (window b))))%nat
         by (apply nth_error_Some; congruence); lia).
  - apply Nat.leb_gt in Hn.
    rewrite Hlen, Nat.ltb_irrefl.
    destruct (nth_error (fits_files (session (window b))) k) as [f|] eqn:Hf;
      [|apply nth_error_None in Hf; lia].
    cbn [option_map]. destruct (decoded f) as [d|] eqn:Hd.
    + cbn [on_session set_window window session set_current_image
           tracking_enabled]. rewrite Htr. cbn [andb app_of].
      cbn [on_session set_window window session set_current_image
           preselected_positions photometry_results star_name fits_files
           tracking_enabled current_frame_index preselection_paused
           waiting_for_resume_reference preselection_mode load_errors
           current_image_grayscale].
      split; [repeat split; congruence|]. split; [intros; lia|].
      split.
      * intros f0 d0 E0 Hd0. injection E0 as <-.
        rewrite Hd in Hd0. injection Hd0 as <-. repeat split.
      * intros f0 E0 Hd0. injection E0 as <-. congruence.
    + cbn [app_of].
      destruct (finish_preselection_phase_keeps
                  (log_load_error (k + 1) b))
        as (H1 & H2 & H3 & H4 & H5 & H6 & H7 & H8 & H9 & H10).
      cbn in H2, H3, H4, H5, H6, H7, H8, H9, H10.
      split; [repeat split; assumption|]. split; [intros; lia|].
      split.
      * intros f0 d0 E0 Hd0. injection E0 as <-. congruence.
      * intros f0 E0 _. repeat split; assumption.
Qed.

Lemma Forall_firstn_succ {A} (P : A -> Prop) (l : list A) (m : nat) :
  (m < length l)%nat ->
  Forall P (firstn (m + 1) l) ->
  Forall P (firstn m l) /\ exists f, nth_error l m = Some f /\ P f.
Proof.
  revert m. induction l as [|a l IH]; intros m Hm H; [cbn in Hm; lia|].
  destruct m as [|m].
  - cbn in H. apply Forall_inv in H. split; [apply Forall_nil|].
    exists a. split; [reflexivity|exact H].
  - cbn [Nat.add firstn] in H. cbn in Hm.
    destruct (IH m) as (H1 & f & Hf & HP);
      [lia|exact (Forall_inv_tail H)|].
    split; [cbn; apply Forall_cons; [exact (Forall_inv H)|exact H1]|].
    exists f. split; [exact Hf|exact HP].
Qed.

(** A click on the frame that is shown, with auto-tracking switched off:
    the click is stored as the position of the frame, and the next frame
    is loaded. *)
Lemma manual_click (lib : Library) (fuel : nat) (a : App) (x y : R) :
  let s := session (window a) in
  preselection_mode (window a) = true ->
  preselection_paused (window a) = false ->
  waiting_for_resume_reference a = false ->
  tracking_enabled s = false ->
  length (preselected_positions s) = current_frame_index s ->
  exists b,
    on_preselection_click lib fuel a x y false
    = load_frame_for_preselection lib fuel b (current_frame_index s + 1)
    /\ preselected_positions (session (window b))
       = preselected_positions s ++ [Some (x, y)]
    /\ current_frame_index (session (window b))
       = (current_frame_index s + 1)%nat
    /\ photometry_results (session (window b)) = photometry_results s
    /\ star_name (session (window b)) = star_name s
    /\ fits_files (session (window b)) = fits_files s
    /\ tracking_enabled (session (window b)) = false
    /\ window b
       = mkWindow (session (window b)) true false
           (selected_star_pos (window a)) (load_errors (window a))
    /\ waiting_for_resume_reference b = false.
Proof.
  cbv zeta. intros Hm Hp Hw Htr Hlen.
  unfold on_preselection_click, refine_click.
  rewrite Hm, Hp, Hw, Htr. cbn [negb].
  unfold advance_to_next_preselection_frame.
  cbn [on_session set_window window preselection_paused session
       store_position set_tracker set_preselected_positions
       current_frame_index preselected_positions].
  rewrite Hp. eexists. split; [reflexivity|].
  cbn [on_session set_window window session store_position set_tracker
       set_preselected_positions set_current_frame_index
       preselected_positions current_frame_index photometry_results
       star_name fits_files tracking_enabled waiting_for_resume_reference
       preselection_mode preselection_paused selected_star_pos
       load_errors].
  rewrite Hm, Hp, Hw, Htr, <- Hlen, store_at_end. repeat split.
Qed.

Lemma manual_run (lib : Library) (fuel : nat) (a : App)
    (name : String.string) :
  let s := session (window a) in
  fits_files s <> [] ->
  selected_star_pos (window a) <> None ->
  tracking_enabled s = false ->
  preselection_paused (window a) = false ->
  waiting_for_resume_reference a = false ->
  (0 < fuel)%nat ->
  forall clicks,
    (length clicks <= length (fits_files s))%nat ->
    Forall (fun f => decoded f <> None)
           (firstn (length clicks) (fits_files s)) ->
    let o :=
      click_all lib fuel (start_preselection_mode lib fuel a (Some name))
        clicks in
    let s' := session (window (app_of o)) in
    (preselected_positions s' = map Some clicks
     /\ photometry_results s' = []
     /\ star_name s' = name
     /\ fits_files s' = fits_files s
     /\ tracking_enabled s' = false
     /\ current_frame_index s' = length clicks
     /\ preselection_paused (window (app_of o)) = false
     /\ waiting_for_resume_reference (app_of o) = false)
    /\ ((length (fits_files s) <= length clicks)%nat ->
        o = PhaseFinished (app_of o)
        /\ preselection_mode (window (app_of o)) = false)
    /\ (forall f d, nth_error (fits_files s) (length clicks) = Some f ->
          decoded f = Some d ->
          o = Showing (app_of o)
          /\ preselection_mode (window (app_of o)) = true
          /\ load_errors (window (app_of o)) = load_errors (window a)
          /\ current_image_grayscale s' = Some (tracking_data_of d))
    /\ (forall f, nth_error (fits_files s) (length clicks) = Some f ->
          decoded f = None ->
          o = PhaseFinished (app_of o)
          /\ preselection_mode (window (app_of o)) = false
          /\ load_errors (window (app_of o))
             = load_errors (window a) ++ [(length clicks + 1)%nat]).
Proof.
  cbv zeta. intros Hfiles Hsel Htr Hp Hw Hfuel clicks.
  induction clicks as [|c clicks IH] using rev_ind; intros Hlen Hdec.
  - cbn [click_all fold_left length map]. unfold start_preselection_mode.
    destruct (fits_files (session (window a))) as [|f0 fs] eqn:Ef;
      [congruence|].
    destruct (selected_star_pos (window a)) as [sel|] eqn:Es;
      [|congruence].
    match goal with
    | |- context [load_frame_for_preselection lib fuel ?b 0] =>
        pose proof (manual_load lib fuel b 0 Hfuel) as H
    end.
    cbn [window session tracking_enabled preselected_positions length
         fits_files photometry_results star_name current_frame_index
         preselection_paused waiting_for_resume_reference
         preselection_mode load_errors] in H.
    specialize (H Htr eq_refl).
    destruct H as ((H1 & H2 & H3 & H4 & H5 & H6 & H7 & H8) & Hfin & Hshow
                   & Hfail).
    split; [repeat split; congruence|].
    split; [exact Hfin|]. split; [exact Hshow|exact Hfail].
  - rewrite length_app in Hlen, Hdec. cbn [length] in Hlen, Hdec.
    assert (Hlt : (length clicks
                   < length (fits_files (session (window a))))%nat) by lia.
    assert (Hle : (length clicks
                   <= length (fits_files (session (window a))))%nat) by lia.
    destruct (Forall_firstn_succ _ _ (length clicks) Hlt Hdec)
      as (Hdec' & f & Hf & Hfd).
    destruct (decoded f) as [d|] eqn:Hd; [clear Hfd|congruence].
    destruct (IH Hle Hdec')
      as ((I1 & I2 & I3 & I4 & I5 & I6 & I7 & I8) & _ & Hshow & _).
    destruct (Hshow f d Hf Hd) as (Ho & Hmode & Herr & _).
    unfold click_all, Position in *. rewrite fold_left_app.
    cbn [fold_left].
    destruct (manual_click lib fuel _ (fst c) (snd c) Hmode I7 I8 I5)
      as (b & Hclick & B1 & B2 & B3 & B4 & B5 & B6 & B7 & B8);
      [now rewrite I1, length_map, I6|].
    rewrite I6 in Hclick, B2. rewrite Hclick.
    pose proof (manual_load lib fuel b (length clicks + 1) Hfuel B6) as H.
    rewrite B1, length_app, I1, length_map in H. cbn [length] in H.
    specialize (H eq_refl).
    destruct H as ((H1 & H2 & H3 & H4 & H5 & H6 & H7 & H8) & Hfin & Hshow'
                   & Hfail).
    rewrite B5, I4 in Hfin, Hshow', Hfail.
    rewrite B7 in H7, Hshow', Hfail.
    cbn [preselection_mode preselection_paused load_errors] in H7, Hshow',
      Hfail.
    rewrite Herr in Hshow', Hfail.
    rewrite length_app, map_app. cbn [length map].
    rewrite <- surjective_pairing in H1.
    split; [repeat split; first [assumption|congruence]|].
    split; [exact Hfin|]. split; [exact Hshow'|exact Hfail].
Qed.

(** X25.  With auto-tracking switched off, the pre-selection stores exactly the
    clicks: after the phase is started and the user has clicked once on
    each of the first [m] frames (all of which can be decoded), the
    pre-selected positions are the [m] clicks in order, with no [None]
    entry, and there are no results.  The phase is finished exactly when
    every frame has been clicked or the next frame cannot be decoded (its
    number is then logged as a load error); otherwise the next frame is
    shown and waits for its click. *)
Theorem manual_preselection_stores_clicks (lib : Library) (fuel : nat)
    (a : App) (name : String.string) (clicks : list Position) :
  let s := session (window a) in
  fits_files s <> [] ->
  selected_star_pos (window a) <> None ->
  tracking_enabled s = false ->
  preselection_paused (window a) = false ->
  waiting_for_resume_reference a = false ->
  (0 < fuel)%nat ->
  (length clicks <= length (fits_files s))%nat ->
  Forall (fun f => decoded f <> None)
         (firstn (length clicks) (fits_files s)) ->
  let o :=
    click_all lib fuel (start_preselection_mode lib fuel a (Some name))
      clicks in
  let s' := session (window (app_of o)) in
  preselected_positions s' = map Some clicks
  /\ photometry_results s' = []
  /\ current_frame_index s' = length clicks
  /\ (length clicks = length (fits_files s) ->
      o = PhaseFinished (app_of o)
      /\ preselection_mode (window (app_of o)) = false)
  /\ (forall f d, nth_error (fits_files s) (length clicks) = Some f ->
        decoded f = Some d ->
        o = Showing (app_of o)
        /\ preselection_mode (window (app_of o)) = true
        /\ current_image_grayscale s' = Some (tracking_data_of d))
  /\ (forall f, nth_error (fits_files s) (length clicks) = Some f ->
        decoded f = None ->
        o = PhaseFinished (app_of o)
        /\ preselection_mode (window (app_of o)) = false
        /\ load_errors (window (app_of o))
           = load_errors (window a) ++ [(length clicks + 1)%nat]).
Proof.
  cbv zeta. intros Hfiles Hsel Htr Hp Hw Hfuel Hlen Hdec.
  destruct (manual_run lib fuel a name Hfiles Hsel Htr Hp Hw Hfuel clicks
              Hlen Hdec)
    as ((H1 & H2 & _ & _ & _ & H6 & _) & Hfin & Hshow & Hfail).
  split; [exact H1|]. split; [exact H2|]. split; [exact H6|].
  split; [intros E; apply Hfin; lia|]. split; [|exact Hfail].
  intros f d Hf Hd. destruct (Hshow f d Hf Hd) as (E1 & E2 & _ & E4).
  repeat split; assumption.
Qed.

Lemma manual_preselection_stores_clicks_witness :
  let o :=
    click_all example_library 1
      (start_preselection_mode example_library 1 (idle_app false)
         (Some "star"%string))
      [(1, 1); (2, 2); (3, 3)] in
  preselected_positions (session (window (app_of o)))
  = [Some (1, 1); Some (2, 2); Some (3, 3)]
  /\ o = PhaseFinished (app_of o).
Proof.
  cbv zeta.
  destruct (manual_preselection_stores_clicks example_library 1
              (idle_app false) "star" [(1, 1); (2, 2); (3, 3)])
    as (H1 & _ & _ & Hfin & _).
  - discriminate.
  - discriminate.
  - reflexivity.
  - reflexivity.
  - reflexivity.
  - lia.
  - cbn. lia.
  - cbn. repeat (apply Forall_cons; [discriminate|]). apply Forall_nil.
  - split; [exact H1|]. apply Hfin. reflexivity.
Defined.

Lemma last_position_exists (l : list (option Position)) :
  l <> [] -> Forall (fun p => p <> None) l ->
  exists l' p, l = l' ++ [Some p].
Proof.
  intros Hne Hall. destruct (exists_last Hne) as (l' & [p|] & ->).
  - now exists l', p.
  - apply Forall_app in Hall. destruct Hall as [_ Hall].
    apply Forall_inv in Hall. congruence.
Qed.

(** Loading a frame after the first with auto-tracking switched on: the
    frame is tracked from the most recent position, and the next frame is
    loaded. *)
Lemma auto_load (lib : Library) (fuel : nat) (a : App) (k : nat)
    (f : FitsFile) (d : FrameData) (l : list (option Position))
    (prev : Position) :
  let s := session (window a) in
  tracking_enabled s = true ->
  paused s = false ->
  stop_preselection a = false ->
  preselection_paused (window a) = false ->
  (0 < k)%nat ->
  preselected_positions s = l ++ [Some prev] ->
  length (preselected_positions s) = k ->
  current_frame_index s = k ->
  nth_error (fits_files s) k = Some f ->
  decoded f = Some d ->
  exists b,
    load_frame_for_preselection lib (S fuel) a k
    = load_frame_for_preselection lib fuel b (k + 1)
    /\ preselected_positions (session (window b))
       = preselected_positions s
         ++ [Some (snd (track_star_position lib (tracker s)
                          (tracking_data_of d) prev (search_radius s)))]
    /\ current_frame_index (session (window b)) = (k + 1)%nat
    /\ fits_files (session (window b)) = fits_files s
    /\ photometry_results (session (window b)) = photometry_results s
    /\ star_name (session (window b)) = star_name s
    /\ search_radius (session (window b)) = search_radius s
    /\ tracking_enabled (session (window b)) = true
    /\ paused (session (window b)) = false
    /\ stop_preselection b = false
    /\ preselection_paused (window b) = false
    /\ load_errors (window b) = load_errors (window a).
Proof.
  cbv zeta. intros Htr Hpa Hst Hpp Hk Hpos Hlen Hidx Hf Hd.
  cbn [load_frame_for_preselection].
  assert (Hn : (k < length (fits_files (session (window a))))%nat)
    by (apply nth_error_Some; congruence).
  replace (length (fits_files (session (window a))) <=? k)%nat with false
    by (symmetry; apply Nat.leb_gt; exact Hn).
  rewrite Hlen, Nat.ltb_irrefl, Hf. cbn [option_map]. rewrite Hd.
  cbn [on_session set_window window session set_current_image
       tracking_enabled preselected_positions stop_preselection paused
       tracker search_radius].
  rewrite Htr, Hlen, Hst, Hpa.
  replace (0 <? k)%nat with true by (symmetry; apply Nat.ltb_lt; exact Hk).
  cbn [andb negb]. rewrite Hpos, most_recent_position_snoc.
  destruct (track_star_position lib (tracker (session (window a)))
              (tracking_data_of d) prev (search_radius (session (window a))))
    as [t q] eqn:Htrack.
  cbn [set_selected_star_pos on_session set_window window session
       preselection_paused current_frame_index set_current_image
       store_position set_tracker set_preselected_positions].
  rewrite Hpp, Hidx. eexists. split; [reflexivity|].
  cbn [on_session set_window window session store_position set_tracker
       set_preselected_positions set_current_frame_index
       set_current_image set_selected_star_pos
       preselected_positions current_frame_index photometry_results
       star_name fits_files tracking_enabled paused search_radius
       stop_preselection preselection_paused load_errors snd].
  rewrite <- Hlen at 1 2. rewrite Hpos, store_at_end.
  repeat split; assumption.
Qed.

Lemma auto_run (lib : Library) :
  forall (fuel : nat) (a : App) (k : nat),
    let s := session (window a) in
    let n := length (fits_files s) in
    (n - k < fuel)%nat ->
    (0 < k <= n)%nat ->
    tracking_enabled s = true ->
    paused s = false ->
    stop_preselection a = false ->
    preselection_paused (window a) = false ->
    length (preselected_positions s) = k ->
    current_frame_index s = k ->
    Forall (fun p => p <> None) (preselected_positions s) ->
    Forall (fun f => decoded f <> None) (fits_files s) ->
    exists a',
      load_frame_for_preselection lib fuel a k = PhaseFinished a'
      /\ preselection_mode (window a') = false
      /\ length (preselected_positions (session (window a'))) = n
      /\ Forall (fun p => p <> None)
                (preselected_positions (session (window a')))
      /\ firstn k (preselected_positions (session (window a')))
         = preselected_positions s
      /\ current_frame_index (session (window a')) = n
      /\ fits_files (session (window a')) = fits_files s
      /\ photometry_results (session (window a')) = photometry_results s
      /\ star_name (session (window a')) = star_name s
      /\ load_errors (window a') = load_errors (window a)
      /\ (forall j, (k <= j + 1)%nat -> (j + 1 < n)%nat ->
            exists p q f d t,
              nth_error (preselected_positions (session (window a'))) j
              = Some (Some p)
              /\ nth_error (preselected_positions (session (window a')))
                   (j + 1) = Some (Some q)
              /\ nth_error (fits_files s) (j + 1) = Some f
              /\ decoded f = Some d
              /\ q = snd (track_star_position lib t (tracking_data_of d) p
                            (search_radius s))).
Proof.
  induction fuel as [|fuel IH]; intros a k; cbv zeta;
    intros Hfuel Hk Htr Hpa Hst Hpp Hlen Hidx Hall Hdec; [lia|].
  destruct (Nat.eq_dec k (length (fits_files (session (window a)))))
    as [Hend|Hmore].
  - cbn [load_frame_for_preselection].
    replace (length (fits_files (session (window a))) <=? k)%nat with true
      by (symmetry; apply Nat.leb_le; lia).
    destruct (finish_preselection_phase_keeps a)
      as (H1 & H2 & H3 & H4 & H5 & H6 & H7 & H8 & H9 & H10).
    eexists. split; [reflexivity|]. split; [exact H1|].
    rewrite H2, H5, H7, H3, H4.
    split; [congruence|]. split; [exact Hall|].
    split; [apply firstn_all2; lia|]. split; [congruence|].
    split; [reflexivity|]. split; [reflexivity|]. split; [reflexivity|].
    split; [exact H10|]. intros j Hj1 Hj2. lia.
  - assert (Hn : (k < length (fits_files (session (window a))))%nat) by lia.
    destruct (nth_error (fits_files (session (window a))) k) as [f|] eqn:Hf;
      [|apply nth_error_None in Hf; lia].
    assert (Hfd : decoded f <> None).
    { rewrite Forall_forall in Hdec. apply Hdec.
      eapply nth_error_In. exact Hf. }
    destruct (decoded f) as [d|] eqn:Hd; [clear Hfd|congruence].
    destruct (last_position_exists (preselected_positions
                (session (window a)))) as (l & prev & Hpos);
      [intros E; rewrite E in Hlen; cbn in Hlen; lia|exact Hall|].
    destruct (auto_load lib fuel a k f d l prev Htr Hpa Hst Hpp
                ltac:(lia) Hpos Hlen Hidx Hf Hd)
      as (b & Hstep & B1 & B2 & B3 & B4 & B5 & B6 & B7 & B8 & B9 & B10
          & B11).
    rewrite Hstep.
    destruct (IH b (k + 1)%nat) as (a' & Ha' & A1 & A2 & A3 & A4 & A5 & A6
                                    & A7 & A8 & A9 & A10);
      try assumption.
    + rewrite B3. lia.
    + rewrite B3. lia.
    + rewrite B1, length_app. cbn [length]. lia.
    + rewrite B1. apply Forall_app. split; [exact Hall|].
      apply Forall_cons; [discriminate|apply Forall_nil].
    + rewrite B3. exact Hdec.
    + rewrite B3 in A2, A5, A6, A10. rewrite B6 in A10.
      exists a'. split; [exact Ha'|]. split; [exact A1|].
      split; [exact A2|]. split; [exact A3|]. split.
      { apply (f_equal (firstn k)) in A4.
        rewrite firstn_firstn in A4.
        replace (Nat.min k (k + 1)) with k in A4 by lia.
        rewrite A4, B1, firstn_app.
        replace (k - length _)%nat with 0%nat by lia.
        rewrite firstn_all2 by lia. cbn. apply app_nil_r. }
      split; [exact A5|]. split; [exact A6|]. split; [congruence|].
      split; [congruence|]. split; [congruence|].
      intros j Hj1 Hj2.
      destruct (Nat.eq_dec (j + 1) k) as [Ej|Ej];
        [|apply A10; lia].
      exists prev, (snd (track_star_position lib
                           (tracker (session (window a)))
                           (tracking_data_of d) prev
                           (search_radius (session (window a))))),
             f, d, (tracker (session (window a))).
      assert (Hnth : forall i, (i < k + 1)%nat ->
                nth_error (preselected_positions (session (window a'))) i
                = nth_error (preselected_positions (session (window b)))
                    i).
      { intros i Hi. rewrite <- A4, nth_error_firstn.
        replace (i <? k + 1)%nat with true
          by (symmetry; apply Nat.ltb_lt; exact Hi).
        reflexivity. }
      rewrite !Hnth by lia. rewrite B1, Hpos.
      assert (Hl : length l = j).
      { rewrite Hpos, length_app in Hlen. cbn [length] in Hlen. lia. }
      rewrite Ej. split.
      { rewrite <- app_assoc, nth_error_app2 by lia.
        replace (j - length l)%nat with 0%nat by lia. reflexivity. }
      split.
      { rewrite nth_error_app2
          by (rewrite length_app; cbn [length]; lia).
        rewrite length_app. cbn [length].
        replace (k - (length l + 1))%nat with 0%nat by lia. reflexivity. }
      split; [exact Hf|]. split; [exact Hd|reflexivity].
Qed.


Lemma start_shows_first_frame (lib : Library) (fuel : nat) (a : App)
    (name : String.string) (f0 : FitsFile) (d0 : FrameData) :
  let s := session (window a) in
  nth_error (fits_files s) 0 = Some f0 ->
  decoded f0 = Some d0 ->
  selected_star_pos (window a) <> None ->
  (0 < fuel)%nat ->
  exists a0,
    start_preselection_mode lib fuel a (Some name) = Showing a0
    /\ preselection_mode (window a0) = true
    /\ preselection_paused (window a0) = preselection_paused (window a)
    /\ waiting_for_resume_reference a0 = waiting_for_resume_reference a
    /\ preselected_positions (session (window a0)) = []
    /\ current_frame_index (session (window a0)) = 0%nat
    /\ photometry_results (session (window a0)) = []
    /\ tracker (session (window a0)) = empty_tracker
    /\ current_image_grayscale (session (window a0))
       = Some (tracking_data_of d0)
    /\ fits_files (session (window a0)) = fits_files s
    /\ search_radius (session (window a0)) = search_radius s
    /\ tracking_enabled (session (window a0)) = tracking_enabled s
    /\ paused (session (window a0)) = paused s
    /\ stop_preselection a0 = false
    /\ star_name (session (window a0)) = name
    /\ load_errors (window a0) = load_errors (window a).
Proof.
  cbv zeta. intros Hf0 Hd0 Hsel Hfuel.
  destruct fuel as [|fuel']; [lia|].
  unfold start_preselection_mode.
  destruct (fits_files (session (window a))) as [|f0' fs] eqn:Ef;
    [discriminate Hf0|].
  cbn in Hf0. injection Hf0 as ->.
  destruct (selected_star_pos (window a)) as [sel|] eqn:Es; [|congruence].
  cbn [load_frame_for_preselection window session fits_files
       preselected_positions length Nat.leb Nat.ltb nth_error option_map].
  rewrite Hd0.
  cbn [on_session set_window window session set_current_image
       tracking_enabled andb Nat.ltb Nat.leb].
  rewrite andb_false_r. cbn [andb].
  eexists. split; [reflexivity|]. cbn. repeat split.
Qed.

(** The first click of a pre-selection with auto-tracking switched on. *)
Lemma first_auto_click (lib : Library) (fuel : nat) (a : App) (x y : R)
    (tracking_data : PixelPlane) :
  let s := session (window a) in
  preselection_mode (window a) = true ->
  preselection_paused (window a) = false ->
  waiting_for_resume_reference a = false ->
  tracking_enabled s = true ->
  current_image_grayscale s = Some tracking_data ->
  preselected_positions s = [] ->
  current_frame_index s = 0%nat ->
  exists b,
    on_preselection_click lib fuel a x y false
    = load_frame_for_preselection lib fuel b 1
    /\ preselected_positions (session (window b))
       = [Some (snd (track_star_position lib (tracker s) tracking_data
                       (x, y) (search_radius s)))]
    /\ current_frame_index (session (window b)) = 1%nat
    /\ fits_files (session (window b)) = fits_files s
    /\ photometry_results (session (window b)) = photometry_results s
    /\ star_name (session (window b)) = star_name s
    /\ search_radius (session (window b)) = search_radius s
    /\ tracking_enabled (session (window b)) = true
    /\ paused (session (window b)) = paused s
    /\ stop_preselection b = stop_preselection a
    /\ preselection_paused (window b) = false
    /\ load_errors (window b) = load_errors (window a).
Proof.
  cbv zeta. intros Hm Hp Hw Htr Himg Hpos Hidx.
  unfold on_preselection_click, refine_click.
  rewrite Hm, Hp, Hw, Htr, Himg. cbn [negb].
  destruct (track_star_position lib (tracker (session (window a)))
              tracking_data (x, y) (search_radius (session (window a))))
    as [t p0].
  unfold advance_to_next_preselection_frame.
  cbn [on_session set_window window session preselection_paused
       current_frame_index store_position set_tracker
       set_preselected_positions preselected_positions].
  rewrite Hp, Hidx. cbn [Nat.add].
  eexists. split; [reflexivity|].
  cbn [on_session set_window window session set_current_frame_index
       store_position set_tracker set_preselected_positions
       preselected_positions current_frame_index photometry_results
       star_name fits_files tracking_enabled paused search_radius
       stop_preselection preselection_paused load_errors snd].
  rewrite ?Hidx, Hpos, Hp, Htr. cbn. repeat split.
Qed.

(** X26.  With auto-tracking switched on and frames that can all be decoded, the
    pre-selection needs one click: the phase starts by showing frame 0, and
    the click on it finishes the phase.  The position of frame 0 is the
    tracker's answer to the click on fresh histories; every later frame
    gets the tracker's answer for that frame from the position of the
    frame before it; so every frame has a position, none is [None], and
    the user is not asked again. *)
Theorem auto_tracking_needs_one_click (lib : Library) (fuel : nat)
    (a : App) (name : String.string) (x y : R) (f0 : FitsFile)
    (d0 : FrameData) :
  let s := session (window a) in
  let n := length (fits_files s) in
  nth_error (fits_files s) 0 = Some f0 ->
  decoded f0 = Some d0 ->
  selected_star_pos (window a) <> None ->
  tracking_enabled s = true ->
  paused s = false ->
  preselection_paused (window a) = false ->
  waiting_for_resume_reference a = false ->
  Forall (fun f => decoded f <> None) (fits_files s) ->
  (n < fuel)%nat ->
  exists a0 a',
    start_preselection_mode lib fuel a (Some name) = Showing a0
    /\ preselected_positions (session (window a0)) = []
    /\ on_preselection_click lib fuel a0 x y false = PhaseFinished a'
    /\ preselection_mode (window a') = false
    /\ length (preselected_positions (session (window a'))) = n
    /\ Forall (fun p => p <> None)
              (preselected_positions (session (window a')))
    /\ nth_error (preselected_positions (session (window a'))) 0
       = Some (Some (snd (track_star_position lib empty_tracker
                            (tracking_data_of d0) (x, y)
                            (search_radius s))))
    /\ photometry_results (session (window a')) = []
    /\ (forall j, (j + 1 < n)%nat ->
          exists p q f d t,
            nth_error (preselected_positions (session (window a'))) j
            = Some (Some p)
            /\ nth_error (preselected_positions (session (window a')))
                 (j + 1) = Some (Some q)
            /\ nth_error (fits_files s) (j + 1) = Some f
            /\ decoded f = Some d
            /\ q = snd (track_star_position lib t (tracking_data_of d) p
                          (search_radius s))).
Proof.
  cbv zeta. intros Hf0 Hd0 Hsel Htr Hpa Hpp Hw Hdec Hfuel.
  destruct (start_shows_first_frame lib fuel a name f0 d0 Hf0 Hd0 Hsel)
    as (a0 & Hstart & S1 & S2 & S3 & S4 & S5 & S6 & S7 & S8 & S9 & S10
        & S11 & S12 & S13 & S14 & S15); [lia|].
  destruct (first_auto_click lib fuel a0 x y (tracking_data_of d0))
    as (b & Hclick & B1 & B2 & B3 & B4 & B5 & B6 & B7 & B8 & B9 & B10
        & B11); try congruence.
  destruct (auto_run lib fuel b 1)
    as (a' & Ha' & A1 & A2 & A3 & A4 & A5 & A6 & A7 & A8 & A9 & A10);
    try congruence.
  { rewrite B3, S9. lia. }
  { rewrite B3, S9. destruct (fits_files (session (window a)));
      [discriminate Hf0|cbn; lia]. }
  { now rewrite B1. }
  { rewrite B1. apply Forall_cons; [discriminate|apply Forall_nil]. }
  exists a0, a'. split; [exact Hstart|]. split; [exact S4|].
  split; [congruence|]. split; [exact A1|].
  split; [congruence|]. split; [exact A3|]. split.
  { apply (f_equal (fun l => nth_error l 0)) in A4.
    rewrite nth_error_firstn in A4. cbn [Nat.ltb Nat.leb] in A4.
    rewrite A4, B1, S7, S10. reflexivity. }
  split; [congruence|]. intros j Hj.
  rewrite B3, S9, B6, S10 in A10. apply A10; lia.
Qed.

Lemma auto_tracking_needs_one_click_witness :
  exists a',
    on_preselection_click example_library 4
      (app_of (start_preselection_mode example_library 4 (idle_app true)
                 (Some "star"%string))) 10 10 false
    = PhaseFinished a'
    /\ length (preselected_positions (session (window a'))) = 3%nat.
Proof.
  destruct (auto_tracking_needs_one_click example_library 4 (idle_app true)
              "star" 10 10 (good_file "a.fit") (GrayData dark_plane))
    as (a0 & a' & Hstart & _ & Hclick & _ & Hlen & _).
  - reflexivity.
  - reflexivity.
  - discriminate.
  - reflexivity.
  - reflexivity.
  - reflexivity.
  - reflexivity.
  - cbn. repeat (apply Forall_cons; [discriminate|]). apply Forall_nil.
  - cbn. lia.
  - exists a'. rewrite Hstart. cbn [app_of]. split; [exact Hclick|exact Hlen].
Defined.

(** ** Resuming a paused pre-selection *)

(** The click that sets the reference point after a resume. *)
Lemma resume_reference_click (lib : Library) (fuel : nat) (a : App)
    (x y : R) (tracking_data : PixelPlane) :
  let s := session (window a) in
  preselection_mode (window a) = true ->
  preselection_paused (window a) = false ->
  waiting_for_resume_reference a = true ->
  current_image_grayscale s = Some tracking_data ->
  length (preselected_positions s) = current_frame_index s ->
  exists b,
    on_preselection_click lib fuel a x y false
    = load_frame_for_preselection lib fuel b (current_frame_index s + 1)
    /\ preselected_positions (session (window b))
       = preselected_positions s
         ++ [Some (snd (track_star_position lib (tracker s) tracking_data
                          (x, y) (search_radius s)))]
    /\ current_frame_index (session (window b))
       = (current_frame_index s + 1)%nat
    /\ fits_files (session (window b)) = fits_files s
    /\ photometry_results (session (window b)) = photometry_results s
    /\ star_name (session (window b)) = star_name s
    /\ search_radius (session (window b)) = search_radius s
    /\ tracking_enabled (session (window b)) = tracking_enabled s
    /\ paused (session (window b)) = paused s
    /\ stop_preselection b = stop_preselection a
    /\ preselection_paused (window b) = false
    /\ load_errors (window b) = load_errors (window a).
Proof.
  cbv zeta. intros Hm Hp Hw Himg Hlen.
  unfold on_preselection_click.
  rewrite Hm, Hp, Hw. cbn [negb].
  unfold set_resume_reference_point. rewrite Himg.
  destruct (track_star_position lib (tracker (session (window a)))
              tracking_data (x, y) (search_radius (session (window a))))
    as [t p0].
  unfold advance_to_next_preselection_frame.
  cbn [set_selected_star_pos on_session set_window window session
       preselection_paused current_frame_index store_position set_tracker
       set_preselected_positions preselected_positions].
  rewrite Hp. eexists. split; [reflexivity|].
  cbn [on_session set_window window session set_current_frame_index
       store_position set_tracker set_preselected_positions
       set_selected_star_pos
       preselected_positions current_frame_index photometry_results
       star_name fits_files tracking_enabled paused search_radius
       stop_preselection preselection_paused load_errors snd].
  rewrite Hp, <- Hlen, store_at_end. repeat split.
Qed.

(** X27.  Let a pre-selection be paused on frame [k], with a position list
    that reaches frame [k] ([k] is at most the number of stored positions)
    and frames that can all be decoded.  Resuming it removes the positions
    of frame [k] and the later frames.  With auto-tracking switched off,
    frame [k] is loaded again and waits for its click.  With auto-tracking
    switched on, a frame shown and none of the positions before [k]
    cleared, the window waits for a reference click; that click is refined
    by the tracker on the frame shown and stored for frame [k], and the
    later frames are tracked from it without another click: the phase
    finishes with a position for every frame, those before [k]
    unchanged. *)
Theorem resume_retracks_later_frames (lib : Library) (fuel : nat) (a : App)
    (x y : R) :
  let s := session (window a) in
  let n := length (fits_files s) in
  let k := current_frame_index s in
  let earlier := firstn k (preselected_positions s) in
  preselection_mode (window a) = true ->
  preselection_paused (window a) = true ->
  (k < n)%nat ->
  (k <= length (preselected_positions s))%nat ->
  Forall (fun f => decoded f <> None) (fits_files s) ->
  (n < fuel)%nat ->
  (tracking_enabled s = false ->
   exists a1,
     toggle_preselection_pause lib fuel a = Showing a1
     /\ preselection_mode (window a1) = true
     /\ preselection_paused (window a1) = false
     /\ preselected_positions (session (window a1)) = earlier
     /\ current_frame_index (session (window a1)) = k)
  /\ (tracking_enabled s = true ->
      paused s = false ->
      stop_preselection a = false ->
      Forall (fun p => p <> None) earlier ->
      forall tracking_data,
        current_image_grayscale s = Some tracking_data ->
        exists a1 a',
          toggle_preselection_pause lib fuel a = Showing a1
          /\ waiting_for_resume_reference a1 = true
          /\ preselected_positions (session (window a1)) = earlier
          /\ on_preselection_click lib fuel a1 x y false = PhaseFinished a'
          /\ preselection_mode (window a') = false
          /\ length (preselected_positions (session (window a'))) = n
          /\ Forall (fun p => p <> None)
                    (preselected_positions (session (window a')))
          /\ firstn k (preselected_positions (session (window a')))
             = earlier
          /\ nth_error (preselected_positions (session (window a'))) k
             = Some (Some (snd (track_star_position lib (tracker s)
                                  tracking_data (x, y) (search_radius s))))
          /\ photometry_results (session (window a'))
             = photometry_results s).
Proof.
  cbv zeta. intros Hm Hp Hk Hlen Hdec Hfuel.
  assert (Hcut : length (firstn (current_frame_index (session (window a)))
                           (preselected_positions (session (window a))))
                 = current_frame_index (session (window a)))
    by (rewrite length_firstn; lia).
  split.
  - intros Htr. unfold toggle_preselection_pause.
    rewrite Hm, Hp. cbn [negb].
    cbn [set_window window session resume_preselection
         set_preselected_positions tracking_enabled current_frame_index].
    rewrite Htr.
    match goal with
    | |- context [load_frame_for_preselection lib fuel ?b ?i] =>
        pose proof (manual_load lib fuel b i) as H
    end.
    cbn in H. specialize (H ltac:(lia) Htr Hcut).
    destruct H as ((H1 & _ & _ & _ & _ & H6 & H7 & _) & _ & Hshow & _).
    destruct (nth_error (fits_files (session (window a)))
                (current_frame_index (session (window a))))
      as [f|] eqn:Hf; [|apply nth_error_None in Hf; lia].
    assert (Hfd : decoded f <> None).
    { rewrite Forall_forall in Hdec. apply Hdec.
      eapply nth_error_In. exact Hf. }
    destruct (decoded f) as [d|] eqn:Hd; [|congruence].
    destruct (Hshow f d eq_refl Hd) as (Ho & Hmode & _).
    eexists. split; [exact Ho|]. rewrite Hmode, H1, H6, H7.
    repeat split.
  - intros Htr Hpa Hst Hall tracking_data Himg.
    unfold toggle_preselection_pause.
    rewrite Hm, Hp. cbn [negb].
    cbn [set_window window session resume_preselection
         set_preselected_positions tracking_enabled].
    rewrite Htr.
    match goal with
    | |- exists a1 a', Showing ?X = Showing a1 /\ _ =>
        set (a1 := X)
    end.
    destruct (resume_reference_click lib fuel a1 x y tracking_data)
      as (b & Hclick & B1 & B2 & B3 & B4 & B5 & B6 & B7 & B8 & B9 & B10
          & B11);
      try reflexivity; try assumption.
    unfold a1 in B1, B2, B3, B4, B5, B6, B7, B8, B9.
    cbn [window session set_preselected_positions set_window
         resume_preselection
         preselected_positions current_frame_index pop_down_to
         fits_files photometry_results star_name search_radius
         tracking_enabled paused stop_preselection load_errors tracker
         processing sequential_mode waiting_for_resume_click
         paused_frame_index] in B1, B2, B3, B4, B5, B6, B7, B8, B9.
    unfold pop_down_to in B1.
    destruct (auto_run lib fuel b
                (current_frame_index (session (window a)) + 1))
      as (a' & Ha' & A1 & A2 & A3 & A4 & A5 & A6 & A7 & A8 & A9 & A10);
      try congruence.
    { rewrite B3. lia. }
    { rewrite B3. lia. }
    { rewrite B1, length_app, Hcut. reflexivity. }
    { rewrite B1. apply Forall_app. split; [exact Hall|].
      apply Forall_cons; [discriminate|apply Forall_nil]. }
    exists a1, a'. split; [reflexivity|]. split; [reflexivity|].
    split; [reflexivity|].
    split; [etransitivity; [exact Hclick|exact Ha']|].
    split; [exact A1|].
    split; [congruence|]. split; [exact A3|].
    assert (Hnth : forall i,
              (i < current_frame_index (session (window a)) + 1)%nat ->
              nth_error (preselected_positions (session (window a'))) i
              = nth_error (preselected_positions (session (window b))) i).
    { intros i Hi. rewrite <- A4, nth_error_firstn.
      replace (i <? current_frame_index (session (window a)) + 1)%nat
        with true by (symmetry; apply Nat.ltb_lt; exact Hi).
      reflexivity. }
    split.
    { apply (f_equal (firstn (current_frame_index (session (window a)))))
        in A4.
      rewrite firstn_firstn in A4.
      replace (Nat.min _ _) with (current_frame_index (session (window a)))
        in A4 by lia.
      rewrite A4, B1, firstn_app, Hcut, Nat.sub_diag.
      cbn [firstn]. rewrite app_nil_r. apply firstn_firstn_same. }
    split; [|congruence].
    rewrite Hnth by lia. rewrite B1, nth_error_app2 by lia.
    rewrite Hcut, Nat.sub_diag. reflexivity.
Qed.

Lemma resume_retracks_later_frames_witness :
  exists a1 a',
    toggle_preselection_pause example_library 4 paused_tracking_app
    = Showing a1
    /\ waiting_for_resume_reference a1 = true
    /\ preselected_positions (session (window a1)) = [Some (10, 10)]
    /\ on_preselection_click example_library 4 a1 12 12 false
       = PhaseFinished a'
    /\ preselection_mode (window a') = false
    /\ length (preselected_positions (session (window a'))) = 3%nat
    /\ Forall (fun p => p <> None)
              (preselected_positions (session (window a')))
    /\ firstn 1 (preselected_positions (session (window a')))
       = [Some (10, 10)].
Proof.
  destruct (resume_retracks_later_frames example_library 4
              paused_tracking_app 12 12) as (_ & Hauto).
  - reflexivity.
  - reflexivity.
  - cbn. lia.
  - cbn. lia.
  - cbn. repeat (apply Forall_cons; [discriminate|]). apply Forall_nil.
  - cbn. lia.
  - destruct (Hauto eq_refl eq_refl eq_refl) with (tracking_data := dark_plane)
      as (a1 & a' & H1 & H2 & H3 & H4 & H5 & H6 & H7 & H8 & _).
    + cbn. apply Forall_cons; [discriminate|apply Forall_nil].
    + reflexivity.
    + exists a1, a'. repeat split; assumption.
Defined.
